(** * DataAnalysisAgent: session store, intent router and code extraction

    A shallow embedding of
      - [app/services/session_service.py] (module [Store]),
      - [app/utils/data_loader.py]        (the loader used by the store),
      - [app/agents/user_intent_agent.py] (module [Intent]),
      - [app/agents/data_analysis_agent.py] (module [Analysis]),
      - [app/main.py]                     (module [Api]: the endpoints that
        call the store, and [analyze_data] up to its dispatch).

    Python objects are threaded explicitly: every method of [SessionService]
    becomes a function from the service state (its attributes and the file
    system it writes to) to a result and the next state.  A [try/except] is a
    [match] on the [option] returned by the primitive that may raise.

    The file has two parts: the definitions, module by module, and then the
    properties proved about them. *)

From Stdlib Require Import ZArith QArith Ascii.
From stdpp Require Import gmap strings list fin_maps pretty.

Local Open Scope Z_scope.
Local Open Scope stdpp_scope.

(** * Part I: the program *)

(** ** Paths ([os.path]) *)

Module Path.

(** [p.startswith('/')]. *)
Definition is_abs (p : string) : bool :=
  match p with
  | String "/"%char _ => true
  | _ => false
  end.

(** [p.endswith('/')]. *)
Fixpoint ends_with_sep (p : string) : bool :=
  match p with
  | EmptyString => false
  | String c EmptyString => bool_decide (c = "/"%char)
  | String _ q => ends_with_sep q
  end.

(** [posixpath.join a b]: an absolute [b] discards [a]; a separator is
    inserted unless [a] is empty or already ends with one. *)
Definition join (a b : string) : string :=
  if is_abs b then b
  else if bool_decide (a = "") || ends_with_sep a then a +:+ b
  else a +:+ "/" +:+ b.

End Path.

(** ** Python text

    The agents measure and search the model's reply, so a [str] is kept here as
    Python has it: a sequence of Unicode code points.  (File names and ids, of
    which the store only asks equality, are byte strings.) *)

Module Text.

Abbreviation char := N (only parsing).
Abbreviation str := (list N) (only parsing).

Definition bytes (s : string) : list N :=
  map N_of_ascii (String.list_ascii_of_string s).

(** UTF-8 decoding of a literal of this file, so that a constant of the source
    can be written the way the source writes it. *)
Fixpoint utf8 (b : list N) : str :=
  match b with
  | [] => []
  | b0 :: r0 =>
      if (b0 <? 128)%N then b0 :: utf8 r0
      else match r0 with
           | [] => [b0]
           | b1 :: r1 =>
               if (b0 <? 224)%N then ((b0 - 192) * 64 + (b1 - 128))%N :: utf8 r1
               else match r1 with
                    | [] => [b0; b1]
                    | b2 :: r2 =>
                        if (b0 <? 240)%N
                        then ((b0 - 224) * 4096 + (b1 - 128) * 64 + (b2 - 128))%N :: utf8 r2
                        else match r2 with
                             | [] => [b0; b1; b2]
                             | b3 :: r3 =>
                                 ((b0 - 240) * 262144 + (b1 - 128) * 4096
                                  + (b2 - 128) * 64 + (b3 - 128))%N :: utf8 r3
                             end
                    end
           end
  end.

Definition u (s : string) : str := utf8 (bytes s).
#[global] Arguments u : simpl never.

(** [str.isspace] on one character, which is what [\s] matches in a [str]
    pattern. *)
Definition is_space (c : char) : bool :=
  ((9 <=? c) && (c <=? 13) || (28 <=? c) && (c <=? 32) || (c =? 133) || (c =? 160)
   || (c =? 5760) || (8192 <=? c) && (c <=? 8202) || (c =? 8232) || (c =? 8233)
   || (c =? 8239) || (c =? 8287) || (c =? 12288))%N.

(** [s.startswith(p)], returning what follows the prefix. *)
Fixpoint strip_prefix (p s : str) : option str :=
  match p, s with
  | [], _ => Some s
  | _ :: _, [] => None
  | a :: p', b :: s' => if decide (a = b) then strip_prefix p' s' else None
  end.

Definition starts_with (p s : str) : bool := bool_decide (is_Some (strip_prefix p s)).

(** [needle in hay]. *)
Fixpoint contains (needle hay : str) : bool :=
  starts_with needle hay ||
  match hay with
  | [] => false
  | _ :: hay' => contains needle hay'
  end.

(** What a greedy [\s*] leaves. *)
Fixpoint skip_spaces (s : str) : str :=
  match s with
  | c :: s' => if is_space c then skip_spaces s' else s
  | [] => []
  end.

(** Python's [max(xs, key=...)], started on the first element: a later
    element replaces the best one only when its key is strictly greater. *)
Fixpoint max_from {A K} (gt : K -> K -> bool) (key : A -> K) (best : A) (xs : list A) : A :=
  match xs with
  | [] => best
  | x :: xs' => max_from gt key (if gt (key x) (key best) then x else best) xs'
  end.

Definition py_max {A K} (gt : K -> K -> bool) (key : A -> K) (xs : list A) : option A :=
  match xs with
  | [] => None
  | x :: xs' => Some (max_from gt key x xs')
  end.

(** [pattern.findall(s)] for a pattern that never matches the empty string:
    [m] tries the pattern at the head of its argument and returns the value
    listed for the match with the number of characters the match spans; the
    scan resumes after the match, or one character further when there is none. *)
Fixpoint scan {A} (m : str -> option (A * nat)) (skip : nat) (s : str) : list A :=
  match skip with
  | S k => match s with
           | [] => []
           | _ :: s' => scan m k s'
           end
  | O => match m s with
         | Some (r, n) => r :: match s with
                               | [] => []
                               | _ :: s' => scan m (n - 1) s'
                               end
         | None => match s with
                   | [] => []
                   | _ :: s' => scan m 0 s'
                   end
         end
  end.

Definition findall {A} (m : str -> option (A * nat)) (s : str) : list A := scan m 0 s.

Definition fence : str := [96; 96; 96]%N.

(** The tail [([\s\S]*?)\s*```] of the two fence patterns: the shortest
    capture after which optional white space and a closing fence follow.
    Returns the capture and the number of characters spanned. *)
Fixpoint lazy_until_fence (s : str) : option (str * nat) :=
  let t := skip_spaces s in
  if starts_with fence t then Some ([], (length s - length t + 3)%nat)
  else match s with
       | [] => None
       | c :: s' => '(cap, n) ← lazy_until_fence s'; Some (c :: cap, S n)
       end.

(** [```(?:tag)?\s*([\s\S]*?)\s*```] tried at the head of [s]; the value
    listed by [findall] is group 1. *)
Definition match_fenced (tag : str) (s : str) : option (str * nat) :=
  s1 ← strip_prefix fence s;
  let s2 := default s1 (strip_prefix tag s1) in
  let s3 := skip_spaces s2 in
  '(cap, n) ← lazy_until_fence s3;
  Some (cap, (length s - length s3 + n)%nat).

End Text.

(** ** Exceptions *)

(** A raised exception: its class and its message ([str(e)]). *)
Inductive exn := Exn (cls : string) (msg : Text.str).

Definition exn_class (e : exn) : string := let 'Exn c _ := e in c.
Definition exn_msg (e : exn) : Text.str := let 'Exn _ m := e in m.

(** The outcome of a call that may raise. *)
Inductive outcome (A : Type) :=
| Returns (a : A)
| Raises (e : exn).
Arguments Returns {A} a.
Arguments Raises {A} e.

(** ** Tables

    A table travels through the store as a Python dict from column name to the
    list of that column's values ([to_dict(orient='list')]).  The store never
    computes on a value: a cell is a missing value, a number or a string. *)

Inductive cell :=
| Null
| Num (z : Z)
| Str (s : string).

#[global] Instance cell_eq_dec : EqDecision cell.
Proof. solve_decision. Defined.

(** A dict of lists, in insertion order. *)
Definition table := list (string * list cell).

(** The value under the key ["data"] of a dataset dict: [add_dataset] only
    externalizes it when [isinstance(data, dict)]. *)
Inductive payload :=
| PDict (t : table)
| POther (repr : string).

(** [df.head(5).to_dict(orient='records')]: one dict per row. *)
Definition preview := list (list (string * cell)).

(** A dataset dict with the keys the code reads or writes.  [add_dataset] and
    [add_history] read [name], [type], [preview] (required) and the optional
    [path] and [data]; the metadata they record may carry [data_file]. *)
Record dataset := mkDataset {
  ds_name : string;
  ds_type : string;
  ds_preview : preview;
  ds_path : option string;
  ds_data : option payload;
  ds_data_file : option string }.

(** A history item: a dict whose optional key ["datasets"] maps dataset ids to
    dataset dicts.  [add_history] walks that dict in insertion order, writing a
    file per entry, so it is kept as the ordered list of its items. *)
Record history_item := mkHistoryItem {
  hi_id : string;
  hi_role : string;
  hi_content : string;
  hi_result_type : option string;
  hi_datasets : option (list (string * dataset));
  hi_generated_code : option string }.

(** The session body, [{"datasets": {...}, "history": [...]}]. *)
Record session_data := mkSessionData {
  sd_datasets : gmap string dataset;
  sd_history : list history_item }.

(** One record of the session index. *)
Record session_meta := mkSessionMeta {
  sm_id : string;
  sm_name : string;
  sm_created_at : string;
  sm_updated_at : string }.

(** ** Files

    The file system maps a path, as the string the program builds, to what was
    last written there.  The two JSON documents are kept as the values
    [json.dump] serialized; any other file is its text, and is taken to be no
    JSON text: [json.load] raises on it. *)

Inductive file :=
| MetaDoc (sessions : list session_meta)
| BodyDoc (body : session_data)
| Blob (text : string).

(** ** pandas

    The store and the loader consume pandas through this interface.  A
    function that may raise returns [None] when it does. *)

Class Pandas := {
  (** The [DataFrame] type. *)
  frame : Type;
  (** [pd.DataFrame(data)]. *)
  DataFrame : payload -> option frame;
  (** The text [df.to_csv(path, index=False, encoding='utf-8')] writes. *)
  to_csv : frame -> option string;
  (** [pd.read_csv] and [pd.read_excel] on the file found at the path. *)
  read_csv : file -> outcome frame;
  read_excel : file -> outcome frame;
  (** [df.columns]. *)
  columns : frame -> list string;
  (** [df[column].tolist()]. *)
  tolist : frame -> string -> list cell;
  (** [pd.api.types.is_numeric_dtype(df[col])]. *)
  is_numeric_dtype : frame -> string -> bool;
  (** [df.fillna(value=fill_values)]. *)
  fillna : frame -> list (string * cell) -> frame }.

(** [d[k] = v] on a dict kept in insertion order. *)
Fixpoint dict_set {V} (k : string) (v : V) (d : list (string * V)) : list (string * V) :=
  match d with
  | [] => [(k, v)]
  | (k', v') :: d' => if decide (k' = k) then (k, v) :: d' else (k', v') :: dict_set k v d'
  end.

(** The same on a dict whose keys are Python strings. *)
Fixpoint dict_set_str {V} (k : Text.str) (v : V) (d : list (Text.str * V)) : list (Text.str * V) :=
  match d with
  | [] => [(k, v)]
  | (k', v') :: d' => if decide (k' = k) then (k, v) :: d' else (k', v') :: dict_set_str k v d'
  end.

(** The loop
    [data = {}; for column in df.columns: data[column] = df[column].tolist()]. *)
Definition frame_to_dict `{Pandas} (df : frame) : table :=
  foldl (fun data column => dict_set column (tolist df column) data) [] (columns df).

(** ** The loader ([app/utils/data_loader.py]) *)

Module DataLoader.

Definition chars (s : string) : list ascii := String.list_ascii_of_string s.
Definition of_chars (l : list ascii) : string := String.string_of_list_ascii l.

(** The last component of a path: what follows the last ['/']. *)
Definition basename_chars (p : list ascii) : list ascii :=
  foldl (fun acc c => if decide (c = "/"%char) then [] else acc ++ [c]) [] p.

(** [os.path.splitext(p)[1]]: from the last dot of the last component, unless
    only dots precede it there. *)
Fixpoint until_dot (l : list ascii) : list ascii :=
  match l with
  | [] => []
  | c :: l' => if decide (c = "."%char) then [] else c :: until_dot l'
  end.

Fixpoint from_dot (l : list ascii) : list ascii :=
  match l with
  | [] => []
  | c :: l' => if decide (c = "."%char) then l else from_dot l'
  end.

Definition splitext_ext (p : string) : string :=
  let r := rev (basename_chars (chars p)) in
  match from_dot r with
  | [] => ""
  | dot :: pre => if forallb (fun c => bool_decide (c = "."%char)) pre then ""
                  else of_chars (rev (until_dot r ++ [dot]))
  end.

(** [str.lower] on the ASCII letters.  The result is compared with [".csv"],
    [".xlsx"] and [".xls"], and no character outside ASCII lowers to one of
    their letters; in the message of the [ValueError] an extension keeps the
    letters outside ASCII as they are. *)
Definition lower_char (c : ascii) : ascii :=
  let n := nat_of_ascii c in
  if (65 <=? n)%nat && (n <=? 90)%nat then ascii_of_nat (n + 32) else c.

Definition lower (s : string) : string := of_chars (map lower_char (chars s)).

(** [fill_values = {col: 0 if is_numeric_dtype(df[col]) else '' for col in df.columns}]. *)
Definition fill_values `{Pandas} (df : frame) : list (string * cell) :=
  foldl (fun d col => dict_set col (if is_numeric_dtype df col then Num 0 else Str "") d)
        [] (columns df).

(** [DataLoader(file_path).load_data()] against the files on disk. *)
Definition load_data `{Pandas} (files : gmap string file) (file_path : string) : outcome frame :=
  let file_extension := lower (splitext_ext file_path) in
  match files !! file_path with
  | None => Raises (Exn "FileNotFoundError" (Text.u "文件不存在: " ++ Text.u file_path))
  | Some f =>
      let fill := fun data : outcome frame =>
        match data with
        | Returns df => Returns (fillna df (fill_values df))
        | Raises e => Raises e
        end in
      if bool_decide (file_extension = ".csv") then fill (read_csv f)
      else if bool_decide (file_extension = ".xlsx") || bool_decide (file_extension = ".xls")
      then fill (read_excel f)
      else Raises (Exn "ValueError" (Text.u "不支持的文件格式: " ++ Text.u file_extension))
  end.

End DataLoader.

(** ** The import of the loader's module

    [get_dataset_data] imports [app.utils.data_loader] inside its [try].  The
    first import of a module runs it, and the last line of this one loads a
    sample file by an absolute path and prints its schema: the import raises
    what that line raises, and the module stays unloaded.  What the statement
    comes to so depends on the files and on what the process has imported
    before; [None] when it goes through. *)

Class Imports := {
  import_data_loader : gmap string file -> option exn }.

(** ** The session store ([app/services/session_service.py]) *)

Module Store.

(** The attributes of a [SessionService] together with the disk it works on.
    [locked] holds the paths the operating system refuses to write or remove:
    [open(p, 'w')] and [os.remove(p)] raise on them. *)
Record state := mkState {
  data_dir : string;
  files : gmap string file;
  locked : gset string;
  sessions_meta : list session_meta;
  sessions_cache : gmap string session_data;
  datasets_cache : gmap string table }.

Definition set_files (fs : gmap string file) (st : state) : state :=
  mkState (data_dir st) fs (locked st) (sessions_meta st) (sessions_cache st) (datasets_cache st).
Definition set_sessions_meta (m : list session_meta) (st : state) : state :=
  mkState (data_dir st) (files st) (locked st) m (sessions_cache st) (datasets_cache st).
Definition set_sessions_cache (c : gmap string session_data) (st : state) : state :=
  mkState (data_dir st) (files st) (locked st) (sessions_meta st) c (datasets_cache st).
Definition set_datasets_cache (c : gmap string table) (st : state) : state :=
  mkState (data_dir st) (files st) (locked st) (sessions_meta st) (sessions_cache st) c.

(** The two states differ at most in their files. *)
Definition same_memory (st st' : state) : Prop :=
  data_dir st' = data_dir st ∧ locked st' = locked st ∧
  sessions_meta st' = sessions_meta st ∧ sessions_cache st' = sessions_cache st ∧
  datasets_cache st' = datasets_cache st.

(** *** The operating system *)

Definition os_path_exists (p : string) (st : state) : bool :=
  bool_decide (is_Some (files st !! p)).

(** [with open(p, 'w') as f: ...]; [None] when it raises. *)
Definition write_file (p : string) (f : file) (st : state) : option state :=
  if decide (p ∈ locked st) then None
  else Some (set_files (<[p := f]> (files st)) st).

(** [os.remove(p)]; [None] when it raises. *)
Definition os_remove (p : string) (st : state) : option state :=
  if decide (p ∈ locked st) then None
  else match files st !! p with
       | Some _ => Some (set_files (delete p (files st)) st)
       | None => None
       end.

(** *** Paths of the store *)

Definition sessions_dir (st : state) : string := Path.join (data_dir st) "sessions".
Definition datasets_dir (st : state) : string := Path.join (data_dir st) "datasets".
Definition sessions_meta_path (st : state) : string := Path.join (data_dir st) "sessions_meta.json".

Definition _get_session_path (st : state) (session_id : string) : string :=
  Path.join (sessions_dir st) (session_id +:+ ".json").

Definition _get_dataset_path (st : state) (dataset_id : string) : string :=
  Path.join (datasets_dir st) (dataset_id +:+ ".csv").

(** *** Loading and saving *)

Definition empty_session : session_data := mkSessionData ∅ [].

Definition _load_sessions_meta (fs : gmap string file) (meta_path : string) : list session_meta :=
  match fs !! meta_path with
  | Some (MetaDoc l) => l
  | _ => []
  end.

Definition _save_sessions_meta (st : state) : state :=
  match write_file (sessions_meta_path st) (MetaDoc (sessions_meta st)) st with
  | Some st' => st'
  | None => st
  end.

(** The body read from the session's file; the empty body when there is no
    file or [json.load] raises on it.

    [json.load] returns whatever JSON document the file holds.  Of the files
    kept here the index document is the one JSON document that is no session
    body; it lies at the body path of a session id made up for it (with
    [data_dir = "/data"], the id ["/data/sessions_meta"]).  What the code
    hands out then is the dict of the index: [get_datasets], [get_history] and
    [delete_session] read it with [.get("datasets", {})] and
    [.get("history", [])] and see the empty body returned here, while
    [add_dataset], [add_history] and [get_dataset_data] subscript it and raise
    [KeyError], which this embedding does not follow.  The properties of these
    three that rest on the body read from the file are stated for the
    sessions that satisfy [Behaviour.body_file_ok]. *)
Definition _load_session_data (st : state) (session_id : string) : session_data :=
  match files st !! _get_session_path st session_id with
  | Some (BodyDoc d) => d
  | _ => empty_session
  end.

Definition _save_session_data (session_id : string) (data : session_data) (st : state) : state :=
  match write_file (_get_session_path st session_id) (BodyDoc data) st with
  | Some st' => st'
  | None => st
  end.

(** [SessionService(data_dir)] started on a disk. *)
Definition init (dir : string) (fs : gmap string file) (lk : gset string) : state :=
  mkState dir fs lk (_load_sessions_meta fs (Path.join dir "sessions_meta.json")) ∅ ∅.

Section WithPandas.
Context `{Pandas}.

Definition _save_dataset_to_csv (dataset_id : string) (data : payload) (st : state)
  : bool * state :=
  let dataset_path := _get_dataset_path st dataset_id in
  match DataFrame data ≫= to_csv with
  | None => (false, st)
  | Some text =>
      match write_file dataset_path (Blob text) st with
      | Some st' => (true, st')
      | None => (false, st)
      end
  end.

Definition _load_dataset_from_csv (dataset_id : string) (st : state) : option table :=
  let dataset_path := _get_dataset_path st dataset_id in
  match files st !! dataset_path with
  | None => None
  | Some f =>
      match read_csv f with
      | Returns df => Some (frame_to_dict df)
      | Raises _ => None
      end
  end.

End WithPandas.

(** *** Sessions *)

Definition get_session (session_id : string) (st : state) : session_data * state :=
  match sessions_cache st !! session_id with
  | Some d => (d, st)
  | None =>
      let session_data := _load_session_data st session_id in
      (session_data, set_sessions_cache (<[session_id := session_data]> (sessions_cache st)) st)
  end.

(** [session_id] is the fresh [uuid4] and [created_at] the clock reading. *)
Definition create_session (name session_id created_at : string) (st : state)
  : session_meta * state :=
  let session_meta := mkSessionMeta session_id name created_at created_at in
  let st := set_sessions_meta (sessions_meta st ++ [session_meta]) st in
  let st := _save_sessions_meta st in
  let session_data := empty_session in
  let st := _save_session_data session_id session_data st in
  (session_meta, set_sessions_cache (<[session_id := session_data]> (sessions_cache st)) st).

(** The loop [for session in sessions: if session["id"] == session_id: ...]
    applied to the first record with that id; [None] when there is none. *)
Fixpoint update_first (session_id : string) (f : session_meta -> session_meta)
    (l : list session_meta) : option (list session_meta) :=
  match l with
  | [] => None
  | s :: l' =>
      if decide (sm_id s = session_id) then Some (f s :: l')
      else (fun r => s :: r) <$> update_first session_id f l'
  end.

Definition rename_session (session_id new_name now : string) (st : state) : bool * state :=
  match update_first session_id
          (fun s => mkSessionMeta (sm_id s) new_name (sm_created_at s) now)
          (sessions_meta st) with
  | Some l => (true, _save_sessions_meta (set_sessions_meta l st))
  | None => (false, st)
  end.

(** The tail of [add_dataset] and [add_history]: refresh [updated_at]. *)
Definition touch_session (session_id now : string) (st : state) : state :=
  match update_first session_id
          (fun s => mkSessionMeta (sm_id s) (sm_name s) (sm_created_at s) now)
          (sessions_meta st) with
  | Some l => _save_sessions_meta (set_sessions_meta l st)
  | None => st
  end.

(** [if os.path.exists(p): try: os.remove(p) except: print(...)]. *)
Definition remove_if_exists (p : string) (st : state) : state :=
  if os_path_exists p st then
    match os_remove p st with
    | Some st' => st'
    | None => st
    end
  else st.

(** The loop [for dataset_id in session_data.get("datasets", {}): ...] of
    [delete_session]. *)
Definition remove_dataset_files (session_data : session_data) (st : state) : state :=
  foldl (fun st dataset_id => remove_if_exists (_get_dataset_path st dataset_id) st)
        st (map_to_list (sd_datasets session_data)).*1.

(** [if session_id in self.sessions_cache: del self.sessions_cache[session_id]]. *)
Definition evict_session (session_id : string) (st : state) : state :=
  match sessions_cache st !! session_id with
  | Some _ => set_sessions_cache (delete session_id (sessions_cache st)) st
  | None => st
  end.

(** The state in which [delete_session] looks the session body up: the index
    has been filtered and saved, the body file removed. *)
Definition before_lookup (session_id : string) (st : state) : state :=
  remove_if_exists (_get_session_path st session_id)
    (_save_sessions_meta
       (set_sessions_meta
          (filter (fun session => sm_id session <> session_id) (sessions_meta st)) st)).

Definition delete_session (session_id : string) (st : state) : bool * state :=
  let st := set_sessions_meta
              (filter (fun session => sm_id session <> session_id) (sessions_meta st)) st in
  let st := _save_sessions_meta st in
  let session_path := _get_session_path st session_id in
  let st := remove_if_exists session_path st in
  let '(session_data, st) := get_session session_id st in
  let st := remove_dataset_files session_data st in
  let st := evict_session session_id st in
  (true, st).

Definition list_sessions (st : state) : list session_meta := sessions_meta st.

Section WithPandas.
Context `{Pandas} `{Imports}.

(** *** Datasets *)

(** The metadata first built by [add_dataset]: [name], [type], [preview], and
    [path] when the dataset dict has one; no [data]. *)
Definition dataset_meta_of (ds : dataset) (keep_path : bool) : dataset :=
  mkDataset (ds_name ds) (ds_type ds) (ds_preview ds)
            (if keep_path then ds_path ds else None) None None.

Definition with_data_file (p : string) (meta : dataset) : dataset :=
  mkDataset (ds_name meta) (ds_type meta) (ds_preview meta) (ds_path meta) (ds_data meta) (Some p).

(** [if self._save_dataset_to_csv(dataset_id, data):
        dataset_meta["data_file"] = self._get_dataset_path(dataset_id)]. *)
Definition record_data_file (dataset_id : string) (data : payload) (dataset_meta : dataset)
    (st : state) : dataset * state :=
  let '(saved, st') := _save_dataset_to_csv dataset_id data st in
  (if saved then with_data_file (_get_dataset_path st' dataset_id) dataset_meta
   else dataset_meta, st').

(** The first half of [add_dataset]: the metadata dict is built, and the
    payload, when it is a dict, is written out. *)
Definition build_dataset_meta (dataset_id : string) (ds : dataset) (st : state)
  : dataset * state :=
  let dataset_meta := dataset_meta_of ds true in
  match ds_data ds with
  | Some (PDict t) => record_data_file dataset_id (PDict t) dataset_meta st
  | _ => (dataset_meta, st)
  end.

Definition add_dataset (session_id dataset_id : string) (ds : dataset) (now : string)
    (st : state) : state :=
  let '(session_data, st) := get_session session_id st in
  let '(dataset_meta, st) := build_dataset_meta dataset_id ds st in
  let session_data :=
    mkSessionData (<[dataset_id := dataset_meta]> (sd_datasets session_data))
                  (sd_history session_data) in
  let st := set_sessions_cache (<[session_id := session_data]> (sessions_cache st)) st in
  let st := _save_session_data session_id session_data st in
  touch_session session_id now st.

(** [f"{session_id}_{dataset_id}"]. *)
Definition cache_key (session_id dataset_id : string) : string :=
  session_id +:+ "_" +:+ dataset_id.

(** [if data:] on a dict. *)
Definition truthy (data : table) : bool :=
  match data with
  | [] => false
  | _ => true
  end.

Definition get_dataset_data (session_id dataset_id : string) (st : state)
  : option table * state :=
  let key := cache_key session_id dataset_id in
  match datasets_cache st !! key with
  | Some data => (Some data, st)
  | None =>
      let '(session_data, st) := get_session session_id st in
      match sd_datasets session_data !! dataset_id with
      | None => (None, st)
      | Some dataset_meta =>
          match ds_data_file dataset_meta, ds_path dataset_meta with
          | Some _, _ =>
              match _load_dataset_from_csv dataset_id st with
              | Some data =>
                  if truthy data
                  then (Some data, set_datasets_cache (<[key := data]> (datasets_cache st)) st)
                  else (None, st)
              | None => (None, st)
              end
          | None, Some path =>
              match import_data_loader (files st) with
              | Some _ => (None, st)
              | None =>
                  match DataLoader.load_data (files st) path with
                  | Returns df =>
                      let data := frame_to_dict df in
                      (Some data, set_datasets_cache (<[key := data]> (datasets_cache st)) st)
                  | Raises _ => (None, st)
                  end
              end
          | None, None => (None, st)
          end
      end
  end.

Definition get_datasets (session_id : string) (st : state) : gmap string dataset * state :=
  let '(session_data, st) := get_session session_id st in
  (sd_datasets session_data, st).

Definition get_history (session_id : string) (st : state) : list history_item * state :=
  let '(session_data, st) := get_session session_id st in
  (sd_history session_data, st).

(** *** History *)

(** One turn of the loop over [list(history_item["datasets"].items())]: an
    entry that carries [data] is written out and replaced by its metadata. *)
Definition externalize_entry (acc : list (string * dataset) * state)
    (entry : string * dataset) : list (string * dataset) * state :=
  let '(datasets, st) := acc in
  let '(dataset_id, ds) := entry in
  match ds_data ds with
  | Some data =>
      let '(dataset_meta, st') :=
        record_data_file dataset_id data (dataset_meta_of ds false) st in
      (dict_set dataset_id dataset_meta datasets, st')
  | None => (datasets, st)
  end.

Definition externalize_item (item : history_item) (st : state) : history_item * state :=
  match hi_datasets item with
  | Some datasets =>
      let '(datasets', st') := foldl externalize_entry (datasets, st) datasets in
      (mkHistoryItem (hi_id item) (hi_role item) (hi_content item) (hi_result_type item)
                     (Some datasets') (hi_generated_code item), st')
  | None => (item, st)
  end.

Definition add_history (session_id : string) (history_item : history_item) (now : string)
    (st : state) : state :=
  let '(session_data, st) := get_session session_id st in
  let '(history_item, st) := externalize_item history_item st in
  let session_data :=
    mkSessionData (sd_datasets session_data) (sd_history session_data ++ [history_item]) in
  let st := set_sessions_cache (<[session_id := session_data]> (sessions_cache st)) st in
  let st := _save_session_data session_id session_data st in
  touch_session session_id now st.

End WithPandas.

End Store.

(** ** A reference implementation of the pandas interface

    Frames are ordered lists of named columns and the CSV text is the plain
    comma-separated one (a header line, then one line per row; a missing value
    is an empty field).  Reading infers a column's type as pandas does: a
    column whose non-empty fields are all integers is numeric, any other is a
    column of strings, and an empty field is a missing value in both; blank
    lines are skipped.  It is used to run the store on concrete inputs, and
    it is pandas on them only within these bounds: names and strings hold no
    comma, quote or line break (nothing is quoted), a row has more than one
    field or a field that is not missing, and numbers are integers within the
    range of [int64].  A number stands for its value: in a numeric column
    that has a missing value pandas holds floats, and writes [10.0] where
    [10] is written here. *)

Module RefPandas.

Definition ref_frame := list (string * list cell).

Definition nl : ascii := "010"%char.

Fixpoint join_with (sep : string) (l : list string) : string :=
  match l with
  | [] => ""
  | [x] => x
  | x :: l' => x +:+ sep +:+ join_with sep l'
  end.

(** [s.split(sep)], on character lists. *)
Fixpoint split_on (sep : ascii) (cur : list ascii) (s : list ascii) : list (list ascii) :=
  match s with
  | [] => [rev cur]
  | c :: s' => if decide (c = sep) then rev cur :: split_on sep [] s'
               else split_on sep (c :: cur) s'
  end.

Definition render_cell (c : cell) : string :=
  match c with
  | Null => ""
  | Num z => pretty z
  | Str s => s
  end.

Definition row_at (df : ref_frame) (i : nat) : list cell :=
  map (fun col => default Null (col.2 !! i)) df.

Definition n_rows (df : ref_frame) : nat :=
  match df with
  | [] => 0
  | col :: _ => length col.2
  end.

Definition ref_DataFrame (data : payload) : option ref_frame :=
  match data with
  | PDict t =>
      if forallb (fun col => bool_decide (length col.2 = n_rows t)) t then Some t else None
  | POther _ => None
  end.

Definition line (fields : list string) : string := join_with "," fields +:+ String nl "".

Definition ref_to_csv (df : ref_frame) : option string :=
  Some (line df.*1 +:+
        foldr (fun i acc => line (map render_cell (row_at df i)) +:+ acc) ""
              (seq 0 (n_rows df))).

Definition digit (c : ascii) : option Z :=
  Z.of_nat <$> Ascii.is_nat c.

Fixpoint parse_digits (acc : Z) (l : list ascii) : option Z :=
  match l with
  | [] => Some acc
  | c :: l' => d ← digit c; parse_digits (10 * acc + d) l'
  end.

Definition parse_int (l : list ascii) : option Z :=
  match l with
  | [] => None
  | "-"%char :: (_ :: _) as l' => Z.opp <$> parse_digits 0 (tail l')
  | _ => parse_digits 0 l
  end.

Definition is_numeric_field (l : list ascii) : bool :=
  match l with
  | [] => true
  | _ => bool_decide (is_Some (parse_int l))
  end.

Definition parse_field (numeric : bool) (l : list ascii) : cell :=
  match l with
  | [] => Null
  | _ => if numeric then from_option Num Null (parse_int l)
         else Str (String.string_of_list_ascii l)
  end.

Definition parse_column (fields : list (list ascii)) : list cell :=
  map (parse_field (forallb is_numeric_field fields)) fields.

Definition parse_csv (text : string) : outcome ref_frame :=
  let lines := filter (fun l => l ≠ [])
                      (split_on nl [] (String.list_ascii_of_string text)) in
  match map (split_on ","%char []) lines with
  | [] => Raises (Exn "EmptyDataError" (Text.u "No columns to parse from file"))
  | header :: rows =>
      Returns (imap (fun j name =>
                       (String.string_of_list_ascii name,
                        parse_column (map (fun r => default [] (r !! j)) rows)))
                    header)
  end.

Definition ref_read_csv (f : file) : outcome ref_frame :=
  match f with
  | Blob text => parse_csv text
  | _ => Raises (Exn "ParserError" (Text.u "Error tokenizing data"))
  end.

Definition ref_tolist (df : ref_frame) (column : string) : list cell :=
  default [] (snd <$> list_find (fun col => col.1 = column) df ≫= fun r => Some r.2).

(** The columns of a frame that was read from a file: one that holds no
    string has a numeric dtype, also when every value of it is missing. *)
Definition ref_is_numeric (df : ref_frame) (column : string) : bool :=
  let col := ref_tolist df column in
  forallb (fun c => match c with Str _ => false | _ => true end) col
  && negb (bool_decide (col = [])).

Definition ref_fillna (df : ref_frame) (values : list (string * cell)) : ref_frame :=
  map (fun col =>
         match list_find (fun kv => kv.1 = col.1) values with
         | Some (_, (_, v)) => (col.1, map (fun c => match c with Null => v | _ => c end) col.2)
         | None => col
         end) df.


#[global] Instance ref_pandas : Pandas := {|
  frame := ref_frame;
  DataFrame := ref_DataFrame;
  to_csv := ref_to_csv;
  read_csv := ref_read_csv;
  read_excel := fun _ => Raises (Exn "ImportError" (Text.u "Missing optional dependency"));
  columns := fun df => df.*1;
  tolist := ref_tolist;
  is_numeric_dtype := ref_is_numeric;
  fillna := ref_fillna |}.

End RefPandas.

(** ** The two ways the import of the loader's module goes *)

Module RefImports.

(** The file that the last line of [app/utils/data_loader.py] loads. *)
Definition sample_path : string :=
  "/Users/haihuang.hh/Documents/code/data_analysis_agent/data/sample.xlsx".

(** The module imported for the first time: its last line runs, on the files
    of the moment. *)
Definition first_import : Imports := {|
  import_data_loader := fun files =>
    match DataLoader.load_data files sample_path with
    | Raises e => Some e
    | Returns _ => None
    end |}.

(** The module loaded earlier in the process, as it is wherever
    [app/main.py], which imports it at its top, has been loaded. *)
#[global] Instance loaded : Imports := {| import_data_loader := fun _ => None |}.

End RefImports.


(** ** JSON values

    What [json.loads] returns, with the three Python operations [execute]
    applies to it. *)

#[local] Unset Elimination Schemes.
Inductive json :=
| JNull
| JBool (b : bool)
| JNum (q : Q)
| JStr (s : Text.str)
| JList (l : list json)
| JDict (d : list (Text.str * json)).
#[local] Set Elimination Schemes.

(** [json.loads]; [None] when it raises [JSONDecodeError]. *)
Class Json := { loads : Text.str -> option json }.

Module Py.
Import Text.

(** [bool(v)]. *)
Definition truthy (v : json) : bool :=
  match v with
  | JNull => false
  | JBool b => b
  | JNum q => negb (Qeq_bool q 0%Q)
  | JStr s => negb (bool_decide (s = []))
  | JList l => match l with [] => false | _ => true end
  | JDict d => match d with [] => false | _ => true end
  end.

Definition is_str (k : str) (v : json) : bool :=
  match v with
  | JStr s => bool_decide (s = k)
  | _ => false
  end.

(** [k in v] for a string [k].  (On a number the message names its type,
    which is [float] for a number written with a fraction or an exponent.) *)
Definition contains_key (k : str) (v : json) : outcome bool :=
  match v with
  | JDict d => Returns (bool_decide (k ∈ d.*1))
  | JList l => Returns (existsb (is_str k) l)
  | JStr s => Returns (contains k s)
  | JNull => Raises (Exn "TypeError" (u "argument of type 'NoneType' is not iterable"))
  | JBool _ => Raises (Exn "TypeError" (u "argument of type 'bool' is not iterable"))
  | JNum _ => Raises (Exn "TypeError" (u "argument of type 'int' is not iterable"))
  end.

(** [v[k] = x] for a string [k]. *)
Definition set_item (k : str) (x : json) (v : json) : outcome (list (str * json)) :=
  match v with
  | JDict d => Returns (dict_set_str k x d)
  | JList _ => Raises (Exn "TypeError" (u "list indices must be integers or slices, not str"))
  | _ => Raises (Exn "TypeError" (u "object does not support item assignment"))
  end.

(** [d.get(k)]. *)
Fixpoint get {V} (k : str) (d : list (str * V)) : option V :=
  match d with
  | [] => None
  | (k', v) :: d' => if decide (k' = k) then Some v else get k d'
  end.

End Py.

(** ** The intent router ([app/agents/user_intent_agent.py]) *)

Module Intent.
Import Text.

Record agent_info := mkInfo {
  name : str;
  description : str;
  keywords : list str }.

Definition data_analysis : agent_info :=
  mkInfo (u "数据分析代理") (u "执行数据分析任务，生成分析结果")
    (map u ["分析"; "统计"; "计算"; "相关性"; "聚类"; "回归"; "预测"; "分组"; "汇总";
            "平均"; "求和"]).

Definition data_visualization : agent_info :=
  mkInfo (u "数据可视化代理") (u "生成数据可视化图表，创建可视化HTML页面")
    (map u ["可视化"; "图表"; "绘制"; "画图"; "柱状图"; "折线图"; "饼图"; "散点图";
            "热力图"; "展示"]).

Definition data_analysis_plan : agent_info :=
  mkInfo (u "数据分析方案生成代理") (u "根据数据信息和分析需求，生成合适的数据分析方案")
    (map u ["方案"; "计划"; "建议"; "步骤"; "流程"; "思路"; "策略"; "规划"; "设计";
            "指导"]).

Definition data_analysis_conclusion : agent_info :=
  mkInfo (u "数据分析结论代理") (u "根据数据生成分析结论和见解")
    (map u ["结论"; "见解"; "洞察"; "发现"; "总结"; "趋势"; "特点"; "规律"; "意义";
            "启示"; "解读"]).

(** The dict of agent types, in the order the class writes it. *)
Definition AGENT_TYPES : list (str * agent_info) :=
  [ (u "data_analysis", data_analysis);
    (u "data_visualization", data_visualization);
    (u "data_analysis_plan", data_analysis_plan);
    (u "data_analysis_conclusion", data_analysis_conclusion) ].

(** [{[\s\S]*?}] tried at the head of [s]: an opening brace, then up to the
    first closing one. *)
Fixpoint lazy_until_brace (s : str) : option nat :=
  match s with
  | [] => None
  | c :: s' => if (c =? 125)%N then Some 1%nat else S <$> lazy_until_brace s'
  end.

Definition match_brace (s : str) : option (str * nat) :=
  match s with
  | c :: s' => if (c =? 123)%N then n ← lazy_until_brace s'; Some (take (S n) s, S n)
               else None
  | [] => None
  end.

Section WithLibraries.
Context `{Json}.
(** [str.lower]. *)
Variable lower : str -> str.

Definition _extract_json_from_response (response_text : str) : json :=
  match loads response_text with
  | Some v => v
  | None =>
      let fenced :=
        match findall (match_fenced (u "json")) response_text with
        | m :: _ => loads m
        | [] => None
        end in
      match fenced with
      | Some v => v
      | None =>
          let braced :=
            match findall match_brace response_text with
            | m :: _ => loads m
            | [] => None
            end in
          match braced with
          | Some v => v
          | None => JDict []
          end
      end
  end.

(** The inner loop: the keywords of one category found in the prompt. *)
Definition hits (user_prompt : str) (info : agent_info) : nat :=
  length (filter (fun keyword => contains (lower keyword) user_prompt = true) (keywords info)).

(** [score / len(info["keywords"]) if score > 0 else 0].  Python divides in
    floating point; the quotient is kept here as the exact rational.  The
    scores that occur are [k/10] and [k/11] with [k] at most the denominator:
    two of them that differ do so by at least [1/110], so rounding to a
    double neither merges nor reorders them, and [max] and [== 0] decide the
    same way on both. *)
Definition normalize (score : nat) (info : agent_info) : Q :=
  if (0 <? score)%nat then (Z.of_nat score # Pos.of_nat (length (keywords info)))%Q else 0%Q.

Definition score_of (user_prompt : str) (info : agent_info) : Q :=
  normalize (hits user_prompt info) info.

Definition q_gt (a b : Q) : bool := negb (Qle_bool a b).

(** The scores dict, filled category by category. *)
Definition scores_for (types : list (str * agent_info)) (user_prompt : str) : list (str * Q) :=
  foldl (fun scores entry => dict_set_str entry.1 (score_of user_prompt entry.2) scores)
        [] types.

(** [_rule_based_intent_recognition] over a table of agent types. *)
Definition rule_based (types : list (str * agent_info)) (user_prompt : str)
  : str * Q * str :=
  let user_prompt := lower user_prompt in
  let scores := scores_for types user_prompt in
  let best := py_max q_gt (fun x => x) scores.*2 in
  let no_signal := match best with
                   | None => true
                   | Some m => Qeq_bool m 0%Q
                   end in
  if no_signal then
    (u "data_analysis", (1 # 2)%Q, u "未找到明确的意图指示，默认使用数据分析代理")
  else
    let agent_type :=
      default [] (py_max q_gt (fun k => default 0%Q (Py.get k scores)) scores.*1) in
    let confidence := default 0%Q (Py.get agent_type scores) in
    let explanation :=
      u "根据关键词匹配，识别为" ++ default [] (name <$> Py.get agent_type types) in
    (agent_type, confidence, explanation).

Definition _rule_based_intent_recognition (user_prompt : str) : list (str * json) :=
  let '(agent_type, confidence, explanation) := rule_based AGENT_TYPES user_prompt in
  [ (u "agent_type", JStr agent_type);
    (u "confidence", JNum confidence);
    (u "explanation", JStr explanation) ].

(** [execute(inputs, user_prompt)]: [completion] is what the model call
    produced, [raw_content] or the exception on the way to it. *)
Definition execute (completion : outcome str) (user_prompt : str)
  : outcome (list (str * json)) :=
  match completion with
  | Raises e => Raises e
  | Returns raw_content =>
      let result := _extract_json_from_response raw_content in
      let missing :=
        if negb (Py.truthy result) then Returns true
        else match Py.contains_key (u "agent_type") result with
             | Returns b => Returns (negb b)
             | Raises e => Raises e
             end in
      match missing with
      | Raises e => Raises e
      | Returns b =>
          let result := if b then JDict (_rule_based_intent_recognition user_prompt)
                        else result in
          Py.set_item (u "user_prompt") (JStr user_prompt) result
      end
  end.

End WithLibraries.

End Intent.

(** ** The analysis agent ([app/agents/data_analysis_agent.py]) *)

(** What the block
    [with tempfile.NamedTemporaryFile(suffix='.py', mode='w', delete=False) as temp_file:
         temp_file.write(self.generated_code)]
    comes to, ahead of the [try]: the code written to a file of the name
    picked; no file created; or a file created, which [delete=False] keeps,
    with the exception its writing raised. *)
Inductive temp_outcome :=
| Written (temp_module_path : string)
| NotCreated (e : exn)
| WriteFailed (temp_module_path : string) (e : exn).

(** A name alone stands for the file written under that name. *)
#[global] Coercion Written : string >-> temp_outcome.

Module Analysis.
Import Text.

Definition nat_gt (a b : nat) : bool := (b <? a)%nat.

(** The first position at which [return] or [pass] starts, counted to the end
    of that word: the tail [[\s\S]*?(?:return|pass)] of the function pattern. *)
Fixpoint lazy_until_keyword (s : str) : option nat :=
  if starts_with (u "return") s then Some 6%nat
  else if starts_with (u "pass") s then Some 4%nat
  else match s with
       | [] => None
       | _ :: s' => S <$> lazy_until_keyword s'
       end.

(** [def\s+analyze_data\s*\(\s*dfs\s*\)[\s\S]*?(?:return|pass)] tried at the
    head of [s]; the pattern has no group, [findall] lists the whole match. *)
Definition match_function (s : str) : option (str * nat) :=
  s1 ← strip_prefix (u "def") s;
  let s2 := skip_spaces s1 in
  if (length s2 <? length s1)%nat then
    s3 ← strip_prefix (u "analyze_data") s2;
    s4 ← strip_prefix (u "(") (skip_spaces s3);
    s5 ← strip_prefix (u "dfs") (skip_spaces s4);
    s6 ← strip_prefix (u ")") (skip_spaces s5);
    n ← lazy_until_keyword s6;
    let total := (length s - length s6 + n)%nat in
    Some (take total s, total)
  else None.

Definition _extract_code_from_response (response_text : str) : str :=
  let matches := findall (match_fenced (u "python")) response_text in
  match py_max nat_gt length matches with
  | Some code => code
  | None =>
      let function_matches := findall match_function response_text in
      match py_max nat_gt length function_matches with
      | Some code => code
      | None => response_text
      end
  end.

Section WithRuntime.
Context `{Pandas}.

(** An element of [inputs]. *)
Inductive input_obj :=
| InFrame (df : frame)
| InPath (p : string)
| InOther (type_name : string).

(** What the generated function hands back: a dict, or anything else; a value
    of the dict is a [DataFrame], or anything else. *)
Inductive value :=
| VFrame (df : frame)
| VOther (type_name : string).

Inductive result :=
| RDict (items : list (str * value))
| ROther (type_name : string).

(** The Python import machinery, as seen from [execute].  Generated code runs
    with the privileges of the process, so both steps also say which temporary
    files exist afterwards. *)
Class Runtime := {
  module : Type;
  (** [spec.loader.exec_module(module)] on a file holding this text. *)
  exec_module : str -> gset string -> outcome module * gset string;
  (** [module.analyze_data(dfs)]. *)
  call_analyze_data : module -> list frame -> gset string -> outcome result * gset string }.

Context `{Runtime}.

(** [os.path.splitext(os.path.basename(p))[0]]. *)
Definition base_name (p : string) : string :=
  let b := DataLoader.basename_chars (DataLoader.chars p) in
  let ext := DataLoader.chars (DataLoader.splitext_ext p) in
  DataLoader.of_chars (take (length b - length ext) b).

Fixpoint process_inputs_from (files : gmap string file) (i : nat) (inputs : list input_obj)
    (dfs : list frame) (df_names : list string) : outcome (list frame * list string) :=
  match inputs with
  | [] => Returns (dfs, df_names)
  | InFrame df :: rest =>
      process_inputs_from files (S i) rest (dfs ++ [df]) (df_names ++ ["df_" +:+ pretty i])
  | InPath p :: rest =>
      match DataLoader.load_data files p with
      | Returns df => process_inputs_from files (S i) rest (dfs ++ [df]) (df_names ++ [base_name p])
      | Raises e =>
          Raises (Exn "ValueError"
                      (u "无法从路径加载数据: " ++ u p ++ u ", 错误: " ++ exn_msg e))
      end
  | InOther type_name :: _ =>
      Raises (Exn "TypeError" (u "不支持的输入类型: " ++ u type_name))
  end.

Definition _process_inputs (files : gmap string file) (inputs : list input_obj)
  : outcome (list frame * list string) :=
  match process_inputs_from files 0 inputs [] [] with
  | Returns ([], _) => Raises (Exn "ValueError" (u "没有有效的输入数据"))
  | r => r
  end.

(** The checks on what the generated function returned. *)
Fixpoint check_items (items : list (str * value)) (final_result : list (str * table))
  : outcome (list (str * table)) :=
  match items with
  | [] => Returns final_result
  | (key, VFrame df) :: rest => check_items rest (dict_set_str key (frame_to_dict df) final_result)
  | (key, VOther _) :: _ =>
      Raises (Exn "TypeError" (u "分析结果'" ++ key ++ u "'必须是DataFrame类型"))
  end.

Definition check_result (r : result) : outcome (list (str * table)) :=
  match r with
  | ROther _ => Raises (Exn "TypeError" (u "分析函数必须返回字典类型的结果"))
  | RDict items => check_items items []
  end.

(** The body of the [try]. *)
Definition run_generated (code : str) (dfs : list frame) (tmp : gset string)
  : outcome (list (str * table)) * gset string :=
  match exec_module code tmp with
  | (Raises e, tmp) => (Raises e, tmp)
  | (Returns m, tmp) =>
      match call_analyze_data m dfs tmp with
      | (Raises e, tmp) => (Raises e, tmp)
      | (Returns r, tmp) => (check_result r, tmp)
      end
  end.

(** [finally: os.unlink(temp_module_path)]: an exception of [os.unlink]
    replaces the outcome of the [try]. *)
Definition finally_unlink {A} (temp_module_path : string) (r : outcome A * gset string)
  : outcome A * gset string :=
  let '(out, tmp) := r in
  if decide (temp_module_path ∈ tmp) then (out, tmp ∖ {[temp_module_path]})
  else (Raises (Exn "FileNotFoundError"
                    (u "[Errno 2] No such file or directory: '" ++ u temp_module_path ++ u "'")),
        tmp).

(** The agent keeps the code it last extracted. *)
Record agent := mkAgent { generated_code : str }.

(** [execute(inputs, analysis_requirement)]: [completion] is what the model
    call produced ([raw_content], or the exception on the way to it) and
    [temp_file] what became of the temporary module.  The schema text and the
    prompt built from [dfs] and [df_names] only feed the model call, so they
    are part of [completion]. *)
Definition execute (files : gmap string file) (inputs : list input_obj)
    (completion : outcome str) (temp_file : temp_outcome)
    (self : agent) (tmp : gset string)
  : outcome (list (str * table)) * agent * gset string :=
  match _process_inputs files inputs with
  | Raises e => (Raises e, self, tmp)
  | Returns (dfs, df_names) =>
      match completion with
      | Raises e => (Raises e, self, tmp)
      | Returns raw_content =>
          let self := mkAgent (_extract_code_from_response raw_content) in
          match temp_file with
          | NotCreated e => (Raises e, self, tmp)
          | WriteFailed temp_module_path e => (Raises e, self, {[temp_module_path]} ∪ tmp)
          | Written temp_module_path =>
              let tmp := {[temp_module_path]} ∪ tmp in
              let '(out, tmp) :=
                finally_unlink temp_module_path (run_generated (generated_code self) dfs tmp) in
              (out, self, tmp)
          end
      end
  end.

End WithRuntime.

End Analysis.

(** ** The HTTP endpoints ([app/main.py])

    Each endpoint works on the one [session_service] of the module.  A request
    body is taken with the values the endpoints expect: strings for ids, names
    and the prompt, a list of strings for the selected datasets. *)

Module Api.
Import Text.

(** How a request ends: the value returned, an [HTTPException] raised by the
    endpoint, or an exception that nothing catches. *)
Inductive answer (A : Type) :=
| Ok (a : A)
| HTTPException (status_code : nat) (detail : str)
| Unhandled (e : exn).
Arguments Ok {A} a.
Arguments HTTPException {A} status_code detail.
Arguments Unhandled {A} e.

(** [PUT /api/session/{session_id}]; the value returned is
    [{"success": True}]. *)
Definition rename_session (session_id : string) (request : gmap string string)
    (now : string) (st : Store.state) : answer bool * Store.state :=
  match request !! "name" with
  | None => (HTTPException 400 (u "缺少会话名称"), st)
  | Some name =>
      let '(success, st) := Store.rename_session session_id name now st in
      if negb success then (HTTPException 404 (u "会话不存在"), st)
      else (Ok true, st)
  end.

(** [DELETE /api/session/{session_id}]. *)
Definition delete_session (session_id : string) (st : Store.state)
  : answer bool * Store.state :=
  let '(success, st) := Store.delete_session session_id st in
  if negb success then (HTTPException 404 (u "会话不存在"), st)
  else (Ok true, st).

Section WithPandas.
Context `{Pandas} `{Imports}.



(** [df.head(5).to_dict(orient="records")]. *)
Variable head_records : frame -> preview.
(** The exception [open(path, "wb")] raises on a path that cannot be
    written. *)
Variable open_error : string -> exn.
(** The exception [pd.DataFrame(data)] raises on a payload it refuses. *)
Variable DataFrame_error : payload -> exn.



(** The loop of [analyze_data] over [selected_datasets]: the frames of the
    datasets that the session records, in the order of the selection. *)
Fixpoint gather_inputs (files : gmap string file) (datasets : gmap string dataset)
    (selected_datasets : list string) (inputs : list frame) : outcome (list frame) :=
  match selected_datasets with
  | [] => Returns inputs
  | dataset_id :: rest =>
      match datasets !! dataset_id with
      | None => gather_inputs files datasets rest inputs
      | Some dataset =>
          if bool_decide (ds_type dataset = "uploaded")
             || bool_decide (ds_type dataset = "generated")
          then
            match ds_path dataset, ds_data_file dataset, ds_data dataset with
            | Some path, _, _ =>
                match DataLoader.load_data files path with
                | Returns df => gather_inputs files datasets rest (inputs ++ [df])
                | Raises e => Raises e
                end
            | None, Some data_file, _ =>
                match files !! data_file with
                | Some f =>
                    match read_csv f with
                    | Returns df => gather_inputs files datasets rest (inputs ++ [df])
                    | Raises _ => gather_inputs files datasets rest inputs
                    end
                | None => gather_inputs files datasets rest inputs
                end
            | None, None, Some data =>
                match DataFrame data with
                | Some df => gather_inputs files datasets rest (inputs ++ [df])
                | None => Raises (DataFrame_error data)
                end
            | None, None, None => gather_inputs files datasets rest inputs
            end
          else gather_inputs files datasets rest inputs
      end
  end.

(** The body of [POST /api/analyze]. *)
Record analyze_request := mkAnalyzeRequest {
  rq_session_id : option string;
  rq_prompt : option string;
  rq_selected_datasets : list string }.

(** [not v] for [v = request.get(key)] on a string. *)
Definition missing (v : option string) : bool :=
  match v with
  | None => true
  | Some s => bool_decide (s = "")
  end.

Context `{Json}.
Variable lower : str -> str.

(** [analyze_data] up to the dispatch on [agent_type]: the parameters are
    checked, the inputs gathered, the intent agent is run and the user's
    message recorded.  [intent_completion] is what building the intent agent
    and calling the model produce, [message_id] the fresh [uuid4].  The value
    returned holds what the dispatch works on: the inputs and the intent
    result. *)
Definition analyze_data_intent (request : analyze_request)
    (intent_completion : outcome str) (message_id now : string) (st : Store.state)
  : answer (list frame * list (str * json)) * Store.state :=
  let session_id := rq_session_id request in
  let user_prompt := rq_prompt request in
  if missing session_id || missing user_prompt
  then (HTTPException 400 (u "缺少必要参数"), st)
  else
    let session_id := default "" session_id in
    let user_prompt := default "" user_prompt in
    let '(datasets, st) := Store.get_datasets session_id st in
    match gather_inputs (Store.files st) datasets (rq_selected_datasets request) [] with
    | Raises e => (Unhandled e, st)
    | Returns [] => (HTTPException 400 (u "未选择有效的数据集"), st)
    | Returns inputs =>
        match Intent.execute lower intent_completion (u user_prompt) with
        | Raises e => (Unhandled e, st)
        | Returns intent_result =>
            let user_message := mkHistoryItem message_id "user" user_prompt None None None in
            let st := Store.add_history session_id user_message now st in
            (Ok (inputs, intent_result), st)
        end
    end.

End WithPandas.

End Api.

(** ** A reference implementation of [json.loads]

    A reader for JSON texts without [\u] escapes and without exponents; it
    rejects what lies outside.  It is used to run the router on concrete
    replies. *)

Module RefJson.
Import Text.

Definition json_space (c : char) : bool :=
  ((c =? 32) || (c =? 9) || (c =? 10) || (c =? 13))%N.

Fixpoint skip_ws (s : str) : str :=
  match s with
  | c :: s' => if json_space c then skip_ws s' else s
  | [] => []
  end.

Definition unescape (c : char) : option char :=
  if (c =? 34)%N then Some 34%N
  else if (c =? 92)%N then Some 92%N
  else if (c =? 47)%N then Some 47%N
  else if (c =? 98)%N then Some 8%N
  else if (c =? 102)%N then Some 12%N
  else if (c =? 110)%N then Some 10%N
  else if (c =? 114)%N then Some 13%N
  else if (c =? 116)%N then Some 9%N
  else None.

(** After the opening quote: the text of the string and what follows the
    closing quote. *)
Fixpoint string_body (s : str) : option (str * str) :=
  match s with
  | [] => None
  | c :: rest =>
      if (c =? 34)%N then Some ([], rest)
      else if (c =? 92)%N then
        match rest with
        | e :: rest' =>
            x ← unescape e; '(body, r) ← string_body rest'; Some (x :: body, r)
        | [] => None
        end
      else if (c <? 32)%N then None
      else '(body, r) ← string_body rest; Some (c :: body, r)
  end.

Definition is_digit (c : char) : bool := ((48 <=? c) && (c <=? 57))%N.

Fixpoint digits (s : str) : list N * str :=
  match s with
  | c :: s' => if is_digit c then let '(ds, r) := digits s' in ((c - 48)%N :: ds, r)
               else ([], s)
  | [] => ([], [])
  end.

Definition to_number (ds : list N) : Z :=
  foldl (fun acc d => acc * 10 + Z.of_N d) 0 ds.

(** [-? digits (. digits)?], not followed by an exponent. *)
Definition number (s : str) : option (Q * str) :=
  let '(neg, s) := match s with
                   | c :: s' => if (c =? 45)%N then (true, s') else (false, s)
                   | [] => (false, s)
                   end in
  let '(int, r) := digits s in
  match int with
  | [] => None
  | _ =>
      let '(frac, r) := match r with
                        | c :: r' => if (c =? 46)%N then digits r' else ([], r)
                        | [] => ([], r)
                        end in
      let exponent := match r with
                      | c :: _ => (c =? 101)%N || (c =? 69)%N
                      | [] => false
                      end in
      if exponent then None
      else
        let m := to_number (int ++ frac) in
        Some (((if neg then - m else m) # Pos.of_nat (10 ^ length frac))%Q, r)
  end.

Fixpoint value (fuel : nat) (s : str) : option (json * str) :=
  match fuel with
  | O => None
  | S fuel =>
      let s := skip_ws s in
      match strip_prefix (u "true") s, strip_prefix (u "false") s, strip_prefix (u "null") s with
      | Some r, _, _ => Some (JBool true, r)
      | _, Some r, _ => Some (JBool false, r)
      | _, _, Some r => Some (JNull, r)
      | _, _, _ =>
          match s with
          | c :: r =>
              if (c =? 34)%N then '(body, r') ← string_body r; Some (JStr body, r')
              else if (c =? 123)%N then
                match skip_ws r with
                | 125%N :: r' => Some (JDict [], r')
                | _ => members fuel r []
                end
              else if (c =? 91)%N then
                match skip_ws r with
                | 93%N :: r' => Some (JList [], r')
                | _ => elements fuel r []
                end
              else '(q, r') ← number s; Some (JNum q, r')
          | [] => None
          end
      end
  end
with members (fuel : nat) (s : str) (acc : list (str * json)) : option (json * str) :=
  match fuel with
  | O => None
  | S fuel =>
      match skip_ws s with
      | 34%N :: r =>
          '(k, r) ← string_body r;
          match skip_ws r with
          | 58%N :: r =>
              '(v, r) ← value fuel r;
              match skip_ws r with
              | 44%N :: r => members fuel r (dict_set_str k v acc)
              | 125%N :: r => Some (JDict (dict_set_str k v acc), r)
              | _ => None
              end
          | _ => None
          end
      | _ => None
      end
  end
with elements (fuel : nat) (s : str) (acc : list json) : option (json * str) :=
  match fuel with
  | O => None
  | S fuel =>
      '(v, r) ← value fuel s;
      match skip_ws r with
      | 44%N :: r => elements fuel r (acc ++ [v])
      | 93%N :: r => Some (JList (acc ++ [v]), r)
      | _ => None
      end
  end.

Definition ref_loads (s : str) : option json :=
  '(v, r) ← value (S (length s)) s;
  match skip_ws r with
  | [] => Some v
  | _ => None
  end.

#[global] Instance ref_json : Json := {| loads := ref_loads |}.

(** [str.lower] on text whose cased letters are all ASCII. *)
Definition ascii_lower (s : str) : str :=
  map (fun c => if ((65 <=? c) && (c <=? 90))%N then (c + 32)%N else c) s.

End RefJson.

(** ** A runtime that knows a few programs

    Loading a module always succeeds, and it leaves no temporary file when
    the text of the module holds the loop that unlinks them
    ([os.unlink(p)]); [analyze_data] divides by zero when the code contains
    [1/0] and returns an empty dict otherwise.  It is used to run the agent on
    concrete replies. *)

Module RefRuntime.
Import Text.

#[global] Instance ref_runtime : Analysis.Runtime (H := RefPandas.ref_pandas) := {|
  Analysis.module := str;
  Analysis.exec_module := fun code tmp =>
    if contains (u "os.unlink(p)") code then (Returns code, ∅) else (Returns code, tmp);
  Analysis.call_analyze_data := fun m dfs tmp =>
    if contains (u "1/0") m
    then (Raises (Exn "ZeroDivisionError" (u "division by zero")), tmp)
    else (Returns (Analysis.RDict []), tmp) |}.

(** A runtime that knows the program [return {'first': dfs[0]}]: its
    [analyze_data] hands back the first table under the key [first], and
    raises [IndexError] when there is none.  It is not meant for any other
    program, and answers one with a value that [execute] refuses. *)
Definition echo_runtime : Analysis.Runtime (H := RefPandas.ref_pandas) := {|
  Analysis.module := str;
  Analysis.exec_module := fun code tmp => (Returns code, tmp);
  Analysis.call_analyze_data := fun m dfs tmp =>
    if contains (u "return {'first': dfs[0]}") m
    then match dfs with
         | df :: _ => (Returns (Analysis.RDict [(u "first", Analysis.VFrame df)]), tmp)
         | [] => (Raises (Exn "IndexError" (u "list index out of range")), tmp)
         end
    else (Returns (Analysis.ROther "NoneType"), tmp) |}.

(** A runtime whose generated module removes every temporary file when it is
    loaded. *)
Definition sweeping_runtime : Analysis.Runtime (H := RefPandas.ref_pandas) := {|
  Analysis.module := str;
  Analysis.exec_module := fun code tmp => (Returns code, ∅);
  Analysis.call_analyze_data := fun m dfs tmp => (Returns (Analysis.RDict []), tmp) |}.

End RefRuntime.

(** ** What the specification expects

    The notions the claims are stated with, next to the program's own. *)

Module Expected.






(** The session index lists [session_id]. *)
Definition known_session (st : Store.state) (session_id : string) : Prop :=
  session_id ∈ sm_id <$> Store.list_sessions st.

#[global] Instance known_session_dec st session_id : Decision (known_session st session_id).
Proof. unfold known_session. apply _. Defined.


(** Text without a backquote. *)
Definition no_backquote (s : Text.str) : Prop := Forall (fun c => c ≠ 96%N) s.

#[global] Instance no_backquote_dec s : Decision (no_backquote s).
Proof. unfold no_backquote. apply _. Defined.

(** White space only. *)
Definition blank (s : Text.str) : Prop := Forall (fun c => Text.is_space c = true) s.

(** A block of code: no backquote in it and no white space at either end. *)
Definition code_block (b : Text.str) : Prop :=
  no_backquote b ∧
  (∃ c b', b = c :: b' ∧ Text.is_space c = false) ∧
  (∃ b' c, b = b' ++ [c] ∧ Text.is_space c = false).

(** A block the way a model writes it: the opening fence with its tag, a line
    break, the code, a line break, the closing fence. *)
Definition fenced_python (b : Text.str) : Text.str :=
  Text.fence ++ Text.u "python" ++ [10%N] ++ b ++ [10%N] ++ Text.fence.


(** No character of [chars] occurs in [s]. *)
Definition free_of (chars s : Text.str) : Prop := Forall (fun c => c ∉ chars) s.

#[global] Instance free_of_dec chars s : Decision (free_of chars s).
Proof. unfold free_of. apply _. Defined.





(** The fixed set of categories. *)
Definition known_category (c : Text.str) : Prop := c ∈ Intent.AGENT_TYPES.*1.


(** The exception is a [GeneratedCodeError] carrying the message of [e]. *)
Definition wraps (e : exn) (raised : exn) : Prop :=
  raised = Exn "GeneratedCodeError" (exn_msg e).

(** An exception [e] is raised while the generated code executes: on loading
    the module, or inside [analyze_data]; [tmp'] are the temporary files then. *)
Definition generated_code_raises `{Pandas} `{!Analysis.Runtime}
    (code : Text.str) (dfs : list frame) (tmp : gset string) (e : exn) (tmp' : gset string)
  : Prop :=
  Analysis.exec_module code tmp = (Raises e, tmp') ∨
  ∃ m tmp1, Analysis.exec_module code tmp = (Returns m, tmp1) ∧
            Analysis.call_analyze_data m dfs tmp1 = (Raises e, tmp').

End Expected.

(** ** Notions of the code's own behaviour

    What the properties of Part II about restarts, history items, the inputs
    of the agents and the replies of the model are stated with. *)

Module Behaviour.

(** The service stopped and started again on the disk it left:
    [SessionService(data_dir)] anew, with empty caches. *)
Definition restart (st : Store.state) : Store.state :=
  Store.init (Store.data_dir st) (Store.files st) (Store.locked st).

(** The index file holds the index the service has in memory. *)
Definition index_saved (st : Store.state) : Prop :=
  Store.files st !! Store.sessions_meta_path st = Some (MetaDoc (Store.sessions_meta st)).

(** The body file of the session holds the body the service has cached. *)
Definition body_saved (session_id : string) (st : Store.state) : Prop :=
  ∃ d, Store.sessions_cache st !! session_id = Some d ∧
       Store.files st !! Store._get_session_path st session_id = Some (BodyDoc d).




(** [df] is the frame the loop of [_process_inputs] appends for the input
    [x]. *)
Definition loads_as `{Pandas} (files : gmap string file) (x : Analysis.input_obj)
    (df : frame) : Prop :=
  match x with
  | Analysis.InFrame d => df = d
  | Analysis.InPath p => DataLoader.load_data files p = Returns df
  | Analysis.InOther _ => False
  end.

(** The name the loop gives to the input at index [i]. *)
Definition name_of `{Pandas} (i : nat) (x : Analysis.input_obj) : string :=
  match x with
  | Analysis.InPath p => Analysis.base_name p
  | _ => "df_" +:+ pretty i
  end.

(** A parsed reply that is no dict and still passes the router's test
    [not result or 'agent_type' not in result] as if it had the key. *)
Definition passes_for_dict (v : json) : Prop :=
  v = JBool true ∨ (∃ q, v = JNum q ∧ Qeq_bool q 0 = false) ∨
  (∃ s, v = JStr s ∧ Text.contains (Text.u "agent_type") s = true) ∨
  (∃ l, v = JList l ∧ JStr (Text.u "agent_type") ∈ l).

End Behaviour.

(** ** A worked scenario

    A session is created, a generated dataset with a missing value is added to
    it, and the service is restarted on the same disk (caches empty). *)

Module Scenario.

Definition now : string := "2024-05-01T10:00:00".

Definition sales : table :=
  [("region", [Str "north"; Str "south"]); ("amount", [Num 10; Null])].

Definition sales_ds : dataset :=
  mkDataset "totals" "generated" [[("region", Str "north"); ("amount", Num 10)]]
            None (Some (PDict sales)) None.

(** The same table as a frame of the reference pandas. *)
Definition sales_frame : @frame RefPandas.ref_pandas := sales.







Definition fresh : Store.state := Store.init "data" ∅ ∅.

Definition created : Store.state := (Store.create_session "demo" "s1" now fresh).2.

Definition added : Store.state := Store.add_dataset "s1" "d1" sales_ds now created.

Definition restarted : Store.state := Store.init "data" (Store.files added) ∅.

(** An uploaded file with a missing amount, and a session that references it
    by path. *)
Definition upload_text : string :=
  String.app "region,amount" (String RefPandas.nl
    (String.app "north,10" (String RefPandas.nl
       (String.app "south," (String RefPandas.nl ""))))).

Definition upload_frame : @frame RefPandas.ref_pandas :=
  [("region", [Str "north"; Str "south"]); ("amount", [Num 10; Null])].

Definition uploaded_ds : dataset :=
  mkDataset "sales.csv" "uploaded" [] (Some "static/uploads/ab12.CSV") None None.

Definition with_upload : Store.state :=
  Store.add_dataset "s1" "u1" uploaded_ds now
    (Store.set_files (<["static/uploads/ab12.CSV" := Blob upload_text]> (Store.files created))
       created).



(** The answer to it, carrying the table of the scenario in full. *)
Definition answer : history_item :=
  mkHistoryItem "m2" "assistant" "the totals by region" (Some "data")
                (Some [("d1", sales_ds)]) None.

(** Two code blocks, of 50 and of 120 characters, and a reply holding both. *)
Definition short_block : Text.str := Text.u "def analyze_data(dfs):
    return {'n': dfs[0]}  #".

Definition long_block : Text.str := Text.u "def analyze_data(dfs):
    df = dfs[0]
    avg = df[['amount']].mean().to_frame().T
    return {'average (amount)': avg}".

Definition two_block_reply : Text.str :=
  Text.u "A first draft:
```python
" ++ short_block ++ Text.u "
```
and the complete function:
```python
" ++ long_block ++ Text.u "
```
Run it on the table.".

(** A reply whose function divides by zero. *)
Definition failing_reply : Text.str := Text.u "```python
def analyze_data(dfs):
    return {'ratio': dfs[0] * (1/0)}
```".

(** A reply whose module clears the temporary directory when it is loaded,
    its own file included, and whose function divides by zero. *)
Definition sweeping_reply : Text.str := Text.u "```python
import glob, os, tempfile
for p in glob.glob(os.path.join(tempfile.gettempdir(), '*.py')):
    os.unlink(p)

def analyze_data(dfs):
    return {'ratio': dfs[0] * (1/0)}
```".

(** A reply whose function hands its first table back. *)
Definition first_block : Text.str := Text.u "def analyze_data(dfs):
    return {'first': dfs[0]}".

Definition first_reply : Text.str :=
  Text.u "Here you are." ++ Expected.fenced_python first_block.







(** A JSON reply naming a category the router does not know. *)
Definition quote : Text.str := [34%N].


(** A session whose id holds an underscore. *)
Definition underscored : Store.state := Store.add_dataset "a_b" "c" sales_ds now fresh.


(** A reply that is a JSON number. *)
Definition number_reply : Text.str := Text.u "42".

(** An answer in prose around an object that holds another object. *)
Definition nested_body : Text.str :=
  quote ++ Text.u "agent_type" ++ quote ++ Text.u ": " ++ quote ++ Text.u "data_analysis"
  ++ quote ++ Text.u ", " ++ quote ++ Text.u "meta" ++ quote ++ Text.u ": {"
  ++ quote ++ Text.u "a" ++ quote ++ Text.u ": 1".

Definition nested_reply : Text.str :=
  Text.u "Result: " ++ 123%N :: nested_body ++ 125%N :: Text.u "} done".

Definition DataFrame_error (_ : payload) : exn :=
  Exn "ValueError" (Text.u "All arrays must be of the same length").


End Scenario.

(** * Part II: properties *)

(** ** Paths *)

Section PathFacts.

#[local] Arguments String.append !_ _ / : simpl nomatch.

Lemma append_assoc (a b c : string) : (a +:+ b) +:+ c = a +:+ b +:+ c.
Proof.
  induction a as [|x a IH]; [done|].
  change (String x ((a +:+ b) +:+ c) = String x (a +:+ b +:+ c)). by rewrite IH.
Qed.

(** The second argument of [join] always ends the result. *)
Lemma join_suffix (a b : string) : ∃ x, Path.join a b = x +:+ b.
Proof.
  unfold Path.join. destruct (Path.is_abs b).
  - by exists "".
  - destruct (_ || _).
    + by exists a.
    + exists (a +:+ "/"). by rewrite append_assoc.
Qed.

Lemma json_csv_suffix (x y : string) : x +:+ ".json" ≠ y +:+ ".csv".
Proof.
  revert y. induction x as [|c x IH]; intros [|d y] Heq; simpl in Heq.
  - discriminate.
  - injection Heq as _ Heq.
    do 4 (destruct y as [|? y]; simpl in Heq; [discriminate|]; injection Heq as _ Heq).
    destruct y; discriminate.
  - injection Heq as _ Heq.
    do 3 (destruct x as [|? x]; simpl in Heq; [discriminate|]; injection Heq as _ Heq).
    destruct x; discriminate.
  - injection Heq as _ Heq. by apply IH in Heq.
Qed.

Lemma session_path_ne_dataset_path st st' sid did :
  Store._get_session_path st sid ≠ Store._get_dataset_path st' did.
Proof.
  unfold Store._get_session_path, Store._get_dataset_path.
  destruct (join_suffix (Store.sessions_dir st) (sid +:+ ".json")) as [x ->].
  destruct (join_suffix (Store.datasets_dir st') (did +:+ ".csv")) as [y ->].
  rewrite <- !append_assoc. apply json_csv_suffix.
Qed.

Lemma meta_path_ne_dataset_path st st' did :
  Store.sessions_meta_path st ≠ Store._get_dataset_path st' did.
Proof.
  unfold Store.sessions_meta_path, Store._get_dataset_path.
  destruct (join_suffix (Store.data_dir st) "sessions_meta.json") as [x ->].
  destruct (join_suffix (Store.datasets_dir st') (did +:+ ".csv")) as [y ->].
  rewrite <- !append_assoc.
  change "sessions_meta.json" with ("sessions_meta" +:+ ".json").
  rewrite <- append_assoc. apply json_csv_suffix.
Qed.

End PathFacts.

(** ** The store: what each primitive leaves alone *)

Section StoreFrames.
Import Store.

Lemma write_file_fields p f st st' :
  write_file p f st = Some st' →
  (files st' = <[p := f]> (files st)) ∧ (p ∉ locked st) ∧
  data_dir st' = data_dir st ∧ locked st' = locked st ∧
  sessions_meta st' = sessions_meta st ∧ sessions_cache st' = sessions_cache st ∧
  datasets_cache st' = datasets_cache st.
Proof. unfold write_file. case_decide; [done|]. by intros [= <-]. Qed.

Lemma os_remove_fields p st st' :
  os_remove p st = Some st' →
  (files st' = delete p (files st)) ∧ (p ∉ locked st) ∧
  data_dir st' = data_dir st ∧ locked st' = locked st ∧
  sessions_meta st' = sessions_meta st ∧ sessions_cache st' = sessions_cache st ∧
  datasets_cache st' = datasets_cache st.
Proof.
  unfold os_remove. case_decide; [done|]. destruct (files st !! p); [|done].
  by intros [= <-].
Qed.

Lemma same_memory_refl st : same_memory st st.
Proof. by repeat split. Qed.

Lemma same_memory_trans st1 st2 st3 :
  same_memory st1 st2 → same_memory st2 st3 → same_memory st1 st3.
Proof.
  intros (?&?&?&?&?) (?&?&?&?&?). repeat split; congruence.
Qed.

Lemma save_sessions_meta_memory st : same_memory st (_save_sessions_meta st).
Proof.
  unfold _save_sessions_meta.
  destruct (write_file _ _ st) as [st'|] eqn:E; [|apply same_memory_refl].
  apply write_file_fields in E. unfold same_memory. tauto.
Qed.

Lemma save_session_data_memory sid d st : same_memory st (_save_session_data sid d st).
Proof.
  unfold _save_session_data.
  destruct (write_file _ _ st) as [st'|] eqn:E; [|apply same_memory_refl].
  apply write_file_fields in E. unfold same_memory. tauto.
Qed.

Lemma remove_if_exists_memory p st : same_memory st (remove_if_exists p st).
Proof.
  unfold remove_if_exists. destruct (os_path_exists p st); [|apply same_memory_refl].
  destruct (os_remove p st) as [st'|] eqn:E; [|apply same_memory_refl].
  apply os_remove_fields in E. unfold same_memory. tauto.
Qed.

Lemma remove_all_memory (ids : list string) st :
  same_memory st
    (foldl (fun st dataset_id => remove_if_exists (_get_dataset_path st dataset_id) st) st ids).
Proof.
  revert st. induction ids as [|i ids IH]; intros st; [apply same_memory_refl|].
  cbn. eapply same_memory_trans; [apply remove_if_exists_memory|apply IH].
Qed.

Lemma remove_dataset_files_memory d st : same_memory st (remove_dataset_files d st).
Proof. apply remove_all_memory. Qed.

Lemma evict_session_fields sid st :
  data_dir (evict_session sid st) = data_dir st ∧ files (evict_session sid st) = files st ∧
  locked (evict_session sid st) = locked st ∧
  sessions_meta (evict_session sid st) = sessions_meta st ∧
  datasets_cache (evict_session sid st) = datasets_cache st ∧
  sessions_cache (evict_session sid st) = delete sid (sessions_cache st).
Proof.
  unfold evict_session. destruct (sessions_cache st !! sid) eqn:E; cbn; [done|].
  repeat split. symmetry. by apply delete_id.
Qed.

Lemma get_session_fields sid st :
  let '(d, st') := get_session sid st in
  data_dir st' = data_dir st ∧ files st' = files st ∧ locked st' = locked st ∧
  sessions_meta st' = sessions_meta st ∧ datasets_cache st' = datasets_cache st ∧
  sessions_cache st' !! sid = Some d ∧
  (∀ other, other ≠ sid → sessions_cache st' !! other = sessions_cache st !! other).
Proof.
  unfold get_session. destruct (sessions_cache st !! sid) as [d|] eqn:E.
  - by repeat split.
  - cbn. repeat split; [by rewrite lookup_insert_eq|].
    intros other Hne. by rewrite lookup_insert_ne.
Qed.

Lemma touch_session_fields sid now st :
  data_dir (touch_session sid now st) = data_dir st ∧
  locked (touch_session sid now st) = locked st ∧
  sessions_cache (touch_session sid now st) = sessions_cache st ∧
  datasets_cache (touch_session sid now st) = datasets_cache st.
Proof.
  unfold touch_session. destruct (update_first _ _ _) as [l|]; [|done].
  destruct (save_sessions_meta_memory (set_sessions_meta l st)) as (?&?&?&?&?).
  cbn in *. repeat split; congruence.
Qed.

(** The store's paths only depend on [data_dir]. *)
Lemma session_path_dir st st' sid :
  data_dir st' = data_dir st → _get_session_path st' sid = _get_session_path st sid.
Proof. unfold _get_session_path, sessions_dir. by intros ->. Qed.

Lemma dataset_path_dir st st' did :
  data_dir st' = data_dir st → _get_dataset_path st' did = _get_dataset_path st did.
Proof. unfold _get_dataset_path, datasets_dir. by intros ->. Qed.

Lemma meta_path_dir st st' :
  data_dir st' = data_dir st → sessions_meta_path st' = sessions_meta_path st.
Proof. unfold sessions_meta_path. by intros ->. Qed.

Lemma save_sessions_meta_files st p :
  p ≠ sessions_meta_path st → files (_save_sessions_meta st) !! p = files st !! p.
Proof.
  intros Hne. unfold _save_sessions_meta.
  destruct (write_file _ _ st) as [st'|] eqn:E; [|done].
  apply write_file_fields in E as (-> & _). by rewrite lookup_insert_ne.
Qed.

Lemma save_session_data_files sid d st p :
  p ≠ _get_session_path st sid → files (_save_session_data sid d st) !! p = files st !! p.
Proof.
  intros Hne. unfold _save_session_data.
  destruct (write_file _ _ st) as [st'|] eqn:E; [|done].
  apply write_file_fields in E as (-> & _). by rewrite lookup_insert_ne.
Qed.

(** Writing never removes a file. *)
Lemma write_file_keeps p f st st' q :
  write_file p f st = Some st' → is_Some (files st !! q) → is_Some (files st' !! q).
Proof.
  intros E Hq. apply write_file_fields in E as (-> & _).
  destruct (decide (p = q)) as [->|Hne]; [by rewrite lookup_insert_eq|by rewrite lookup_insert_ne].
Qed.

Lemma save_sessions_meta_keeps st q :
  is_Some (files st !! q) → is_Some (files (_save_sessions_meta st) !! q).
Proof.
  unfold _save_sessions_meta. destruct (write_file _ _ st) eqn:E; [|done].
  by eapply write_file_keeps.
Qed.

Lemma save_session_data_keeps sid d st q :
  is_Some (files st !! q) → is_Some (files (_save_session_data sid d st) !! q).
Proof.
  unfold _save_session_data. destruct (write_file _ _ st) eqn:E; [|done].
  by eapply write_file_keeps.
Qed.

Lemma touch_session_keeps sid now st q :
  is_Some (files st !! q) → is_Some (files (touch_session sid now st) !! q).
Proof.
  intros Hq. unfold touch_session. destruct (update_first _ _ _); [|done].
  by apply save_sessions_meta_keeps.
Qed.

Lemma touch_session_files sid now st p :
  p ≠ sessions_meta_path st → files (touch_session sid now st) !! p = files st !! p.
Proof.
  intros Hne. unfold touch_session. destruct (update_first _ _ _); [|done].
  by rewrite save_sessions_meta_files.
Qed.

(** [remove_if_exists] deletes the file unless the path is locked. *)
Lemma remove_if_exists_files p st :
  files (remove_if_exists p st) =
  if decide (p ∈ locked st) then files st else delete p (files st).
Proof.
  unfold remove_if_exists, os_path_exists, os_remove.
  case_bool_decide as Hex.
  - destruct Hex as [f Hf]. rewrite Hf. by case_decide.
  - case_decide; [done|]. symmetry. apply delete_id.
    by apply eq_None_not_Some.
Qed.

Lemma remove_all_files (ids : list string) st q :
  files (foldl (fun st dataset_id => remove_if_exists (_get_dataset_path st dataset_id) st)
               st ids) !! q =
  if decide (q ∈ _get_dataset_path st <$> ids ∧ q ∉ locked st) then None else files st !! q.
Proof.
  revert st. induction ids as [|i ids IH]; intros st; cbn.
  - case_decide as Hc; [|done]. destruct Hc as [Hc _]. by apply elem_of_nil in Hc.
  - rewrite IH.
    destruct (remove_if_exists_memory (_get_dataset_path st i) st) as (Hdir & Hlk & _).
    rewrite Hlk.
    assert (_get_dataset_path (remove_if_exists (_get_dataset_path st i) st) <$> ids
            = _get_dataset_path st <$> ids) as ->.
    { apply list_fmap_ext. intros _ did _. by apply dataset_path_dir. }
    rewrite remove_if_exists_files, ?fmap_cons.
    destruct (decide (q = _get_dataset_path st i)) as [->|Hne];
      repeat case_decide;
      rewrite ?lookup_delete_eq, ?lookup_delete_ne by done;
      try done; exfalso;
      repeat match goal with H : context [_ ∈ _ :: _] |- _ => rewrite elem_of_cons in H end;
      tauto.
Qed.

End StoreFrames.

(** ** [delete_session] *)

Section DeleteSession.
Import Store.

Lemma delete_session_unfold sid st :
  delete_session sid st
  = (true, evict_session sid
             (remove_dataset_files (get_session sid (before_lookup sid st)).1
                                   (get_session sid (before_lookup sid st)).2)).
Proof.
  unfold delete_session, before_lookup.
  rewrite (session_path_dir st (_save_sessions_meta _)).
  - by destruct (get_session sid _).
  - by destruct (save_sessions_meta_memory
                   (set_sessions_meta
                      (filter (fun session => sm_id session ≠ sid) (sessions_meta st)) st))
      as (-> & _).
Qed.

Lemma before_lookup_fields sid st :
  data_dir (before_lookup sid st) = data_dir st ∧
  locked (before_lookup sid st) = locked st ∧
  sessions_meta (before_lookup sid st)
  = filter (fun session => sm_id session ≠ sid) (sessions_meta st) ∧
  sessions_cache (before_lookup sid st) = sessions_cache st ∧
  datasets_cache (before_lookup sid st) = datasets_cache st.
Proof.
  unfold before_lookup.
  set (st0 := set_sessions_meta _ st).
  destruct (save_sessions_meta_memory st0) as (H1 & H2 & H3 & H4 & H5).
  destruct (remove_if_exists_memory (_get_session_path st sid) (_save_sessions_meta st0))
    as (G1 & G2 & G3 & G4 & G5).
  subst st0. cbn in *. repeat split; congruence.
Qed.


(** Everything of the final state but the files. *)
Lemma delete_session_fields sid st :
  data_dir (delete_session sid st).2 = data_dir st ∧
  locked (delete_session sid st).2 = locked st ∧
  list_sessions (delete_session sid st).2
  = filter (fun session => sm_id session ≠ sid) (sessions_meta st) ∧
  sessions_cache (delete_session sid st).2 = delete sid (sessions_cache st) ∧
  datasets_cache (delete_session sid st).2 = datasets_cache st.
Proof.
  rewrite delete_session_unfold. cbn [snd].
  destruct (before_lookup_fields sid st) as (B1 & B2 & B3 & B4 & B5).
  set (st2 := before_lookup sid st) in *.
  pose proof (get_session_fields sid st2) as Hget.
  assert (sessions_cache (get_session sid st2).2 = sessions_cache st2 ∨
          sessions_cache (get_session sid st2).2
          = <[sid := (get_session sid st2).1]> (sessions_cache st2)) as Hcache.
  { unfold get_session. destruct (sessions_cache st2 !! sid); [by left|by right]. }
  destruct (get_session sid st2) as [d st3]. cbn [fst snd] in *.
  destruct Hget as (G1 & _ & G3 & G4 & G5 & _).
  destruct (remove_dataset_files_memory d st3) as (R1 & R2 & R3 & R4 & R5).
  destruct (evict_session_fields sid (remove_dataset_files d st3))
    as (E1 & _ & E3 & E4 & E5 & E6).
  unfold list_sessions. repeat split; try congruence.
  rewrite E6, R4. destruct Hcache as [-> | ->]; [by rewrite B4|].
  by rewrite delete_insert_eq, B4.
Qed.

Lemma delete_session_datasets_cache sid st :
  datasets_cache (delete_session sid st).2 = datasets_cache st.
Proof. apply delete_session_fields. Qed.

Lemma delete_session_index sid st :
  list_sessions (delete_session sid st).2 =
  filter (fun session => sm_id session ≠ sid) (sessions_meta st).
Proof. apply delete_session_fields. Qed.

Lemma remove_dataset_files_lookup d st q :
  files (remove_dataset_files d st) !! q =
  if decide (q ∈ _get_dataset_path st <$> (map_to_list (sd_datasets d)).*1 ∧ q ∉ locked st)
  then None else files st !! q.
Proof. apply remove_all_files. Qed.

(** The files left by [delete_session] when the session body is in the cache:
    the body that is walked is the cached one. *)
Lemma delete_session_files_cached sid st body q :
  sessions_cache st !! sid = Some body →
  files (delete_session sid st).2 !! q =
  if decide (q ∈ _get_dataset_path st <$> (map_to_list (sd_datasets body)).*1 ∧ q ∉ locked st)
  then None
  else files (before_lookup sid st) !! q.
Proof.
  intros Hc. rewrite delete_session_unfold. cbn [snd].
  destruct (before_lookup_fields sid st) as (B1 & B2 & _ & B4 & _).
  destruct (evict_session_fields sid
              (remove_dataset_files (get_session sid (before_lookup sid st)).1
                                    (get_session sid (before_lookup sid st)).2))
    as (_ & -> & _).
  unfold get_session. rewrite B4, Hc. cbn [fst snd].
  rewrite remove_dataset_files_lookup, B2.
  assert (_get_dataset_path (before_lookup sid st) <$> (map_to_list (sd_datasets body)).*1
          = _get_dataset_path st <$> (map_to_list (sd_datasets body)).*1) as ->; [|done].
  apply list_fmap_ext. intros _ did _. by apply dataset_path_dir.
Qed.

(** The files left by [delete_session] when the session body is not in the
    cache and its file can be removed: the body is looked up after its file
    is gone, an empty one is found, and no dataset file is visited. *)
Lemma delete_session_files_uncached sid st q :
  sessions_cache st !! sid = None →
  _get_session_path st sid ∉ locked st →
  files (delete_session sid st).2 !! q = files (before_lookup sid st) !! q.
Proof.
  intros Hc Hlk. rewrite delete_session_unfold. cbn [snd].
  destruct (before_lookup_fields sid st) as (B1 & B2 & _ & B4 & _).
  destruct (evict_session_fields sid
              (remove_dataset_files (get_session sid (before_lookup sid st)).1
                                    (get_session sid (before_lookup sid st)).2))
    as (_ & -> & _).
  unfold get_session. rewrite B4, Hc. cbn [fst snd].
  assert (_load_session_data (before_lookup sid st) sid = empty_session) as ->.
  { unfold _load_session_data. rewrite (session_path_dir st) by done.
    unfold before_lookup at 1. rewrite remove_if_exists_files.
    destruct (save_sessions_meta_memory
                (set_sessions_meta
                   (filter (fun session => sm_id session ≠ sid) (sessions_meta st)) st))
      as (_ & -> & _).
    rewrite decide_False by done. by rewrite lookup_delete_eq. }
  unfold remove_dataset_files. cbn [empty_session sd_datasets].
  by rewrite map_to_list_empty.
Qed.

(** C9 (the code's actual result).  [delete_session] ends in [return True] on
    every path: it returns [true] whatever the session id, known or not. *)
Theorem delete_session_always_true (sid : string) (st : state) :
  (delete_session sid st).1 = true.
Proof.
  unfold delete_session.
  destruct (get_session sid _) as [d st3]. reflexivity.
Qed.

(** After [delete_session] the index no longer lists the id. *)
Lemma delete_session_not_listed sid st :
  ¬ Expected.known_session (delete_session sid st).2 sid.
Proof.
  unfold Expected.known_session. rewrite delete_session_index.
  intros (m & Hid & Hin)%list_elem_of_fmap.
  apply list_elem_of_filter in Hin as [Hne _]. by apply Hne.
Qed.

(** The dataset files survive the deletion of a session whose body is not
    cached: no path of the datasets directory is touched. *)
Lemma delete_session_uncached_dataset_file sid st did :
  sessions_cache st !! sid = None →
  _get_session_path st sid ∉ locked st →
  files (delete_session sid st).2 !! _get_dataset_path st did
  = files st !! _get_dataset_path st did.
Proof.
  intros Hc Hlk. rewrite delete_session_files_uncached by done.
  unfold before_lookup. rewrite remove_if_exists_files. case_decide.
  - rewrite save_sessions_meta_files; [done|].
    apply not_eq_sym, meta_path_ne_dataset_path.
  - rewrite lookup_delete_ne by apply session_path_ne_dataset_path.
    rewrite save_sessions_meta_files; [done|].
    apply not_eq_sym, meta_path_ne_dataset_path.
Qed.

(** C2 (where the code departs from the claim).  When the session body is not
    in the in-memory cache (a service started on an existing disk) and its
    body file can be removed, [delete_session] takes the id out of the index
    but leaves on disk the bulk file of every dataset that the body on disk
    records: the body file is removed before the body is read. *)
Theorem delete_session_uncached_keeps_bulk_files
    (sid did : string) (st : state) (body : session_data) (meta : dataset) :
  sessions_cache st !! sid = None →
  _get_session_path st sid ∉ locked st →
  files st !! _get_session_path st sid = Some (BodyDoc body) →
  sd_datasets body !! did = Some meta →
  is_Some (files st !! _get_dataset_path st did) →
  ¬ Expected.known_session (delete_session sid st).2 sid ∧
  is_Some (files (delete_session sid st).2 !! _get_dataset_path st did).
Proof.
  intros Hc Hlk _ _ Hf. split; [apply delete_session_not_listed|].
  by rewrite delete_session_uncached_dataset_file.
Qed.

(** What the claim describes does hold when the body is cached: every dataset
    of the session has its bulk file removed, unless the system refuses. *)
Theorem delete_session_cached_removes_bulk_files
    (sid did : string) (st : state) (body : session_data) (meta : dataset) :
  sessions_cache st !! sid = Some body →
  sd_datasets body !! did = Some meta →
  _get_dataset_path st did ∉ locked st →
  ¬ Expected.known_session (delete_session sid st).2 sid ∧
  files (delete_session sid st).2 !! _get_dataset_path st did = None.
Proof.
  intros Hc Hd Hlk. split; [apply delete_session_not_listed|].
  rewrite (delete_session_files_cached sid st body) by done.
  rewrite decide_True; [done|]. split; [|done].
  apply list_elem_of_fmap. exists did. split; [done|].
  apply list_elem_of_fmap. exists (did, meta). split; [done|].
  by apply elem_of_map_to_list.
Qed.

End DeleteSession.


(** The failing run: the scenario's session, deleted after a restart. *)
Lemma delete_session_uncached_keeps_bulk_files_witness :
  ¬ Expected.known_session (Store.delete_session "s1" Scenario.restarted).2 "s1" ∧
  is_Some (Store.files (Store.delete_session "s1" Scenario.restarted).2
             !! Store._get_dataset_path Scenario.restarted "d1").
Proof.
  eapply (delete_session_uncached_keeps_bulk_files "s1" "d1" Scenario.restarted).
  - reflexivity.
  - apply not_elem_of_empty.
  - vm_compute. reflexivity.
  - vm_compute. reflexivity.
  - vm_compute. eexists. reflexivity.
Defined.

(** The same session deleted while its body is cached: the bulk file goes. *)
Lemma delete_session_cached_removes_bulk_files_witness :
  ¬ Expected.known_session (Store.delete_session "s1" Scenario.added).2 "s1" ∧
  Store.files (Store.delete_session "s1" Scenario.added).2
    !! Store._get_dataset_path Scenario.added "d1" = None.
Proof.
  eapply (delete_session_cached_removes_bulk_files "s1" "d1" Scenario.added).
  - vm_compute. reflexivity.
  - vm_compute. reflexivity.
  - apply not_elem_of_empty.
Defined.

(** ** The two caches *)

Section DatasetCache.
Import Store.
Context `{Pandas} `{Imports}.

(** A payload that [get_dataset_data] returns is in the dataset cache
    afterwards, under the key of the pair. *)
Lemma get_dataset_data_cached sid did st data st' :
  get_dataset_data sid did st = (Some data, st') →
  datasets_cache st' !! cache_key sid did = Some data.
Proof.
  unfold get_dataset_data.
  destruct (datasets_cache st !! cache_key sid did) as [c|] eqn:Hc.
  { by intros [= <- <-]. }
  destruct (get_session sid st) as [d st1].
  destruct (sd_datasets d !! did) as [meta|]; [|done].
  destruct (ds_data_file meta), (ds_path meta);
    repeat match goal with
           | |- context [match ?x with _ => _ end] => destruct x eqn:?
           end;
    intros [= <- <-]; cbn; by rewrite ?lookup_insert_eq.
Qed.

Lemma get_dataset_data_hit sid did st data :
  datasets_cache st !! cache_key sid did = Some data →
  get_dataset_data sid did st = (Some data, st).
Proof. intros Hc. unfold get_dataset_data. by rewrite Hc. Qed.

(** C10.  Of the two caches [delete_session] evicts the session body only and
    leaves the dataset cache as it was; so a payload that [get_dataset_data]
    has returned for a pair is still returned, from the cache, after the
    session of the pair has been deleted. *)
Theorem delete_session_keeps_dataset_cache :
  (∀ sid st, sessions_cache (delete_session sid st).2 = delete sid (sessions_cache st) ∧
             datasets_cache (delete_session sid st).2 = datasets_cache st) ∧
  (∀ sid did st data st1,
     get_dataset_data sid did st = (Some data, st1) →
     get_dataset_data sid did (delete_session sid st1).2
     = (Some data, (delete_session sid st1).2)).
Proof.
  split.
  - intros sid st. split; apply delete_session_fields.
  - intros sid did st data st1 Hget. apply get_dataset_data_hit.
    rewrite delete_session_datasets_cache. by eapply get_dataset_data_cached.
Qed.

End DatasetCache.

(** The run of C10 on the scenario: the payload is read, the session deleted,
    and the payload is still served; with the dataset cache emptied, the same
    request finds nothing. *)
Lemma delete_session_keeps_dataset_cache_witness :
  let st1 := (Store.get_dataset_data "s1" "d1" Scenario.added).2 in
  let st2 := (Store.delete_session "s1" st1).2 in
  (Store.get_dataset_data "s1" "d1" st2).1
  = Some [("region", [Str "north"; Str "south"]); ("amount", [Num 10; Null])] ∧
  (Store.get_dataset_data "s1" "d1" (Store.set_datasets_cache ∅ st2)).1 = None.
Proof.
  intros st1 st2. split; [|vm_compute; reflexivity]. subst st2.
  rewrite (proj2 delete_session_keeps_dataset_cache "s1" "d1" Scenario.added
             [("region", [Str "north"; Str "south"]); ("amount", [Num 10; Null])] st1).
  - reflexivity.
  - vm_compute. reflexivity.
Defined.

(** ** [add_dataset] and [add_history] *)

Section Updates.
Import Store.
Context `{Pandas} `{Imports}.

Lemma update_first_absent sid f l :
  sid ∉ sm_id <$> l → update_first sid f l = None.
Proof.
  induction l as [|s l IH]; [done|]. cbn. intros Hnin.
  apply not_elem_of_cons in Hnin as [Hne Hnin].
  rewrite decide_False by done. by rewrite IH.
Qed.

Lemma touch_session_absent sid now st :
  ¬ Expected.known_session st sid → touch_session sid now st = st.
Proof.
  intros Hnin. unfold touch_session. by rewrite update_first_absent.
Qed.

(** The two ways [_save_dataset_to_csv] ends. *)
Lemma save_dataset_cases did data st :
  (∃ text, DataFrame data ≫= to_csv = Some text ∧ (_get_dataset_path st did ∉ locked st) ∧
     _save_dataset_to_csv did data st
     = (true, set_files (<[_get_dataset_path st did := Blob text]> (files st)) st)) ∨
  ((DataFrame data ≫= to_csv = None ∨ _get_dataset_path st did ∈ locked st) ∧
     _save_dataset_to_csv did data st = (false, st)).
Proof.
  unfold _save_dataset_to_csv, write_file.
  destruct (DataFrame data ≫= to_csv) as [text|]; [|right; by split; [left|]].
  case_decide.
  - right. by split; [right|].
  - left. by exists text.
Qed.

Lemma record_data_file_written did data meta st text :
  DataFrame data ≫= to_csv = Some text →
  _get_dataset_path st did ∉ locked st →
  record_data_file did data meta st
  = (with_data_file (_get_dataset_path st did) meta,
     set_files (<[_get_dataset_path st did := Blob text]> (files st)) st).
Proof.
  intros Htext Hlk. unfold record_data_file.
  destruct (save_dataset_cases did data st) as [(t & Ht & _ & ->)|([Hn|Hl] & _)];
    [|congruence|done].
  by replace t with text by congruence.
Qed.

Lemma record_data_file_failed did data meta st :
  DataFrame data ≫= to_csv = None ∨ _get_dataset_path st did ∈ locked st →
  record_data_file did data meta st = (meta, st).
Proof.
  intros Hfail. unfold record_data_file.
  destruct (save_dataset_cases did data st) as [(t & Ht & Hlk & _)|(_ & ->)]; [|done].
  destruct Hfail; [congruence|done].
Qed.

(** Whatever happens, [record_data_file] changes nothing but the files, removes
    no file, and returns the metadata with at most [data_file] set. *)
Lemma record_data_file_result did data meta st :
  let r := record_data_file did data meta st in
  same_memory st r.2 ∧
  (∀ q, is_Some (files st !! q) → is_Some (files r.2 !! q)) ∧
  (∀ q, q ≠ _get_dataset_path st did → files r.2 !! q = files st !! q) ∧
  (r.1 = meta ∨ r.1 = with_data_file (_get_dataset_path st did) meta).
Proof.
  destruct (save_dataset_cases did data st) as [(t & Ht & Hlk & _)|(Hfail & _)].
  - rewrite (record_data_file_written _ _ _ _ t) by done. cbn.
    split; [by repeat split|]. split; [|split; [|by right]].
    + intros q Hq. destruct (decide (_get_dataset_path st did = q)) as [->|Hne].
      * by rewrite lookup_insert_eq.
      * by rewrite lookup_insert_ne.
    + intros q Hne. by rewrite lookup_insert_ne.
  - rewrite record_data_file_failed by done. cbn.
    split; [apply same_memory_refl|]. split; [done|]. split; [done|by left].
Qed.

Lemma build_dataset_meta_result did ds st :
  let r := build_dataset_meta did ds st in
  same_memory st r.2 ∧
  (∀ q, is_Some (files st !! q) → is_Some (files r.2 !! q)) ∧
  (∀ q, q ≠ _get_dataset_path st did → files r.2 !! q = files st !! q) ∧
  (r.1 = dataset_meta_of ds true ∨
   r.1 = with_data_file (_get_dataset_path st did) (dataset_meta_of ds true)).
Proof.
  unfold build_dataset_meta. destruct (ds_data ds) as [[t|]|];
    [apply record_data_file_result|..];
    (split; [apply same_memory_refl|]); by repeat split; [..|left].
Qed.

(** [add_dataset], unfolded once: the body found for the session, the
    metadata recorded, the body cached and saved, the index refreshed. *)
Lemma add_dataset_unfold sid did ds now st :
  add_dataset sid did ds now st =
  let d0 := (get_session sid st).1 in
  let r := build_dataset_meta did ds (get_session sid st).2 in
  let d1 := mkSessionData (<[did := r.1]> (sd_datasets d0)) (sd_history d0) in
  touch_session sid now
    (_save_session_data sid d1
       (set_sessions_cache (<[sid := d1]> (sessions_cache r.2)) r.2)).
Proof.
  unfold add_dataset. destruct (get_session sid st) as [d0 st1]. cbn.
  by destruct (build_dataset_meta did ds st1).
Qed.

(** What [add_dataset] does to each part of the state. *)
Lemma add_dataset_spec sid did ds now st :
  let st' := add_dataset sid did ds now st in
  let d0 := (get_session sid st).1 in
  let r := build_dataset_meta did ds (get_session sid st).2 in
  data_dir st' = data_dir st ∧ locked st' = locked st ∧
  datasets_cache st' = datasets_cache st ∧
  sessions_cache st' !! sid
    = Some (mkSessionData (<[did := r.1]> (sd_datasets d0)) (sd_history d0)) ∧
  (∀ q, is_Some (files st !! q) → is_Some (files st' !! q)) ∧
  (∀ q, q ≠ sessions_meta_path st → q ≠ _get_session_path st sid →
        files st' !! q = files r.2 !! q) ∧
  (¬ Expected.known_session st sid → list_sessions st' = list_sessions st).
Proof.
  intros st' d0 r. subst st'. rewrite add_dataset_unfold. cbn zeta. fold d0 r.
  set (d1 := mkSessionData _ _).
  set (st2 := set_sessions_cache _ r.2).
  pose proof (get_session_fields sid st) as Hget.
  destruct (get_session sid st) as [d st1]. cbn in d0, r.
  destruct Hget as (Hd1 & Hf1 & Hl1 & Hm1 & Hdc1 & _).
  destruct (build_dataset_meta_result did ds st1) as ((Hdr & Hlr & Hmr & Hcr & Hdcr) & Hkeep & _).
  fold r in Hdr, Hlr, Hmr, Hcr, Hdcr, Hkeep.
  destruct (save_session_data_memory sid d1 st2) as (Hd3 & Hl3 & Hm3 & Hc3 & Hdc3).
  destruct (touch_session_fields sid now (_save_session_data sid d1 st2))
    as (Hd4 & Hl4 & Hc4 & Hdc4).
  repeat split.
  - rewrite Hd4, Hd3. cbn. congruence.
  - rewrite Hl4, Hl3. cbn. congruence.
  - rewrite Hdc4, Hdc3. cbn. congruence.
  - rewrite Hc4, Hc3. cbn. by rewrite lookup_insert_eq.
  - intros q Hq. apply touch_session_keeps, save_session_data_keeps. cbn.
    apply Hkeep. by rewrite Hf1.
  - intros q Hq1 Hq2.
    rewrite touch_session_files.
    + rewrite save_session_data_files; [done|].
      rewrite (session_path_dir st) by (cbn; congruence). done.
    + rewrite (meta_path_dir st); [done|]. rewrite Hd3. cbn. congruence.
  - intros Hunk. rewrite touch_session_absent.
    + unfold list_sessions. rewrite Hm3. cbn. congruence.
    + unfold Expected.known_session, list_sessions. rewrite Hm3. cbn.
      by rewrite Hmr, Hm1.
Qed.

(** The loop of [add_history] over the datasets of the item changes nothing
    but the files and removes none. *)
Lemma externalize_entries_result entries acc st :
  let r := foldl externalize_entry (acc, st) entries in
  same_memory st r.2 ∧ (∀ q, is_Some (files st !! q) → is_Some (files r.2 !! q)).
Proof.
  revert acc st. induction entries as [|[did ds] entries IH]; intros acc st; cbn.
  { split; [apply same_memory_refl|done]. }
  destruct (ds_data ds) as [data|]; [|apply IH].
  pose proof (record_data_file_result did data (dataset_meta_of ds false) st) as Hr.
  destruct (record_data_file did data (dataset_meta_of ds false) st) as [m st1].
  cbn in Hr. destruct Hr as (Hm & Hk & _).
  destruct (IH (dict_set did m acc) st1) as (Hm' & Hk').
  split; [by eapply same_memory_trans|]. intros q Hq. by apply Hk', Hk.
Qed.

Lemma externalize_item_result item st :
  let r := externalize_item item st in
  same_memory st r.2 ∧ (∀ q, is_Some (files st !! q) → is_Some (files r.2 !! q)).
Proof.
  unfold externalize_item. destruct (hi_datasets item) as [entries|].
  - pose proof (externalize_entries_result entries entries st) as Hr.
    by destruct (foldl externalize_entry (entries, st) entries).
  - split; [apply same_memory_refl|done].
Qed.

Lemma add_history_unfold sid item now st :
  add_history sid item now st =
  let d0 := (get_session sid st).1 in
  let r := externalize_item item (get_session sid st).2 in
  let d1 := mkSessionData (sd_datasets d0) (sd_history d0 ++ [r.1]) in
  touch_session sid now
    (_save_session_data sid d1
       (set_sessions_cache (<[sid := d1]> (sessions_cache r.2)) r.2)).
Proof.
  unfold add_history. destruct (get_session sid st) as [d0 st1]. cbn.
  by destruct (externalize_item item st1).
Qed.

(** What [add_history] does to each part of the state. *)
Lemma add_history_spec sid item now st :
  let st' := add_history sid item now st in
  let d0 := (get_session sid st).1 in
  let r := externalize_item item (get_session sid st).2 in
  data_dir st' = data_dir st ∧ locked st' = locked st ∧
  datasets_cache st' = datasets_cache st ∧
  sessions_cache st' !! sid
    = Some (mkSessionData (sd_datasets d0) (sd_history d0 ++ [r.1])) ∧
  (∀ q, is_Some (files st !! q) → is_Some (files st' !! q)) ∧
  (¬ Expected.known_session st sid → list_sessions st' = list_sessions st).
Proof.
  intros st' d0 r. subst st'. rewrite add_history_unfold. cbn zeta. fold d0 r.
  set (d1 := mkSessionData _ _).
  set (st2 := set_sessions_cache _ r.2).
  pose proof (get_session_fields sid st) as Hget.
  destruct (get_session sid st) as [d st1]. cbn in d0, r.
  destruct Hget as (Hd1 & Hf1 & Hl1 & Hm1 & Hdc1 & _).
  destruct (externalize_item_result item st1) as ((Hdr & Hlr & Hmr & Hcr & Hdcr) & Hkeep).
  fold r in Hdr, Hlr, Hmr, Hcr, Hdcr, Hkeep.
  destruct (save_session_data_memory sid d1 st2) as (Hd3 & Hl3 & Hm3 & Hc3 & Hdc3).
  destruct (touch_session_fields sid now (_save_session_data sid d1 st2))
    as (Hd4 & Hl4 & Hc4 & Hdc4).
  repeat split.
  - rewrite Hd4, Hd3. cbn. congruence.
  - rewrite Hl4, Hl3. cbn. congruence.
  - rewrite Hdc4, Hdc3. cbn. congruence.
  - rewrite Hc4, Hc3. cbn. by rewrite lookup_insert_eq.
  - intros q Hq. apply touch_session_keeps, save_session_data_keeps. cbn.
    apply Hkeep. by rewrite Hf1.
  - intros Hunk. rewrite touch_session_absent.
    + unfold list_sessions. rewrite Hm3. cbn. congruence.
    + unfold Expected.known_session, list_sessions. rewrite Hm3. cbn.
      by rewrite Hmr, Hm1.
Qed.

Lemma get_datasets_cached sid st d :
  sessions_cache st !! sid = Some d → get_datasets sid st = (sd_datasets d, st).
Proof. intros Hc. unfold get_datasets, get_session. by rewrite Hc. Qed.

Lemma get_history_cached sid st d :
  sessions_cache st !! sid = Some d → get_history sid st = (sd_history d, st).
Proof. intros Hc. unfold get_history, get_session. by rewrite Hc. Qed.




Lemma get_history_body sid st : (get_history sid st).1 = sd_history (get_session sid st).1.
Proof. unfold get_history. by destruct (get_session sid st). Qed.













(** A dataset recorded with a path and no bulk file is reloaded from the
    original file by the loader, which fills the missing values in, provided
    the loader's module can be imported; when the import raises, the
    exception is swallowed and nothing is returned. *)
Theorem get_dataset_data_uploaded_fills
    (sid did : string) (st : state) (body : session_data) (meta : dataset)
    (p : string) (f : file) (df : frame) :
  datasets_cache st !! cache_key sid did = None →
  sessions_cache st !! sid = Some body →
  sd_datasets body !! did = Some meta →
  ds_data_file meta = None → ds_path meta = Some p →
  files st !! p = Some f →
  DataLoader.lower (DataLoader.splitext_ext p) = ".csv" →
  read_csv f = Returns df →
  (import_data_loader (files st) = None →
     (get_dataset_data sid did st).1
     = Some (frame_to_dict (fillna df (DataLoader.fill_values df)))) ∧
  (∀ e, import_data_loader (files st) = Some e → get_dataset_data sid did st = (None, st)).
Proof.
  intros Hmiss Hc Hd Hfile Hpath Hf Hext Hread.
  unfold get_dataset_data, get_session. rewrite Hmiss, Hc, Hd, Hfile, Hpath. split.
  - intros ->. unfold DataLoader.load_data. rewrite Hf, Hext, Hread.
    by rewrite bool_decide_eq_true_2.
  - by intros e ->.
Qed.

Lemma update_first_known sid f l :
  sid ∈ sm_id <$> l →
  ∃ pre m post, l = pre ++ m :: post ∧ sm_id m = sid ∧ (sid ∉ sm_id <$> pre) ∧
                update_first sid f l = Some (pre ++ f m :: post).
Proof.
  induction l as [|s l IH]; [by intros ?%elem_of_nil|]. cbn. intros Hin.
  case_decide as Hs.
  - exists [], s, l. repeat split; [done|apply not_elem_of_nil].
  - apply elem_of_cons in Hin as [Heq|Hin]; [congruence|].
    destruct (IH Hin) as (pre & m & post & -> & Hm & Hpre & ->).
    exists (s :: pre), m, post. repeat split; [done|].
    cbn. by apply not_elem_of_cons.
Qed.

(** [rename_session] answers whether the index lists the id, and renames the
    first record that has it. *)
Theorem rename_session_result (sid new_name now : string) (st : state) :
  (rename_session sid new_name now st).1 = bool_decide (Expected.known_session st sid) ∧
  (Expected.known_session st sid →
     ∃ pre m post,
       list_sessions st = pre ++ m :: post ∧ sm_id m = sid ∧ (sid ∉ sm_id <$> pre) ∧
       list_sessions (rename_session sid new_name now st).2
       = pre ++ mkSessionMeta sid new_name (sm_created_at m) now :: post).
Proof.
  unfold rename_session, Expected.known_session, list_sessions.
  destruct (decide (sid ∈ sm_id <$> sessions_meta st)) as [Hin|Hnin].
  - destruct (update_first_known sid
                (fun s => mkSessionMeta (sm_id s) new_name (sm_created_at s) now)
                (sessions_meta st) Hin) as (pre & m & post & Hl & Hm & Hpre & ->).
    cbn [fst snd]. split; [by rewrite bool_decide_eq_true_2|].
    intros _. exists pre, m, post. repeat split; [done..|].
    destruct (save_sessions_meta_memory
                (set_sessions_meta
                   (pre ++ mkSessionMeta (sm_id m) new_name (sm_created_at m) now :: post) st))
      as (_ & _ & -> & _).
    cbn. by rewrite Hm.
  - rewrite update_first_absent by done. cbn. split; [by rewrite bool_decide_eq_false_2|].
    done.
Qed.

(** [create_session] lists the new session last and caches an empty body for
    it. *)
Theorem create_session_result (name sid now : string) (st : state) :
  (create_session name sid now st).1 = mkSessionMeta sid name now now ∧
  list_sessions (create_session name sid now st).2
  = list_sessions st ++ [mkSessionMeta sid name now now] ∧
  get_datasets sid (create_session name sid now st).2
  = (∅, (create_session name sid now st).2) ∧
  get_history sid (create_session name sid now st).2
  = ([], (create_session name sid now st).2).
Proof.
  unfold create_session. cbn [fst snd].
  set (st1 := set_sessions_meta _ st).
  destruct (save_sessions_meta_memory st1) as (_ & _ & M1 & _).
  destruct (save_session_data_memory sid empty_session (_save_sessions_meta st1))
    as (_ & _ & M2 & _).
  split; [done|]. split.
  - unfold list_sessions. cbn. by rewrite M2, M1.
  - split.
    + apply (get_datasets_cached _ _ empty_session). cbn. by rewrite lookup_insert_eq.
    + apply (get_history_cached _ _ empty_session). cbn. by rewrite lookup_insert_eq.
Qed.


End Updates.








(** ** Python's [max] *)

Section PyMax.
Import Text.
Context {A K : Type} (gt : K → K → bool) (lt le : K → K → Prop) (key : A → K).
Hypothesis gt_true : ∀ a b, gt a b = true → lt b a.
Hypothesis gt_false : ∀ a b, gt a b = false → le a b.
Hypothesis le_refl : ∀ a, le a a.
Hypothesis lt_le : ∀ a b, lt a b → le a b.
Hypothesis lt_le_trans : ∀ a b c, lt a b → le b c → lt a c.
Hypothesis le_lt_trans : ∀ a b c, le a b → lt b c → lt a c.

(** [max] returns the first of the elements whose key is greatest. *)
Lemma max_from_first best xs :
  ∃ pre post, best :: xs = pre ++ max_from gt key best xs :: post ∧
    Forall (fun y => lt (key y) (key (max_from gt key best xs))) pre ∧
    Forall (fun y => le (key y) (key (max_from gt key best xs))) post.
Proof.
  revert best. induction xs as [|x xs IH]; intros best; cbn.
  { exists [], []. by repeat split. }
  destruct (gt (key x) (key best)) eqn:Hgt.
  - destruct (IH x) as (pre & post & Heq & Hpre & Hpost).
    exists (best :: pre), post. rewrite Heq. repeat split; [|done].
    constructor; [|done]. apply gt_true in Hgt.
    eapply lt_le_trans; [exact Hgt|].
    assert (x ∈ pre ++ max_from gt key x xs :: post) as Hx by (rewrite <- Heq; left).
    apply elem_of_app in Hx as [Hx|Hx].
    + apply lt_le. rewrite Forall_forall in Hpre. by apply Hpre.
    + apply elem_of_cons in Hx as [Hx|Hx]; [rewrite <- Hx; apply le_refl|].
      rewrite Forall_forall in Hpost. by apply Hpost.
  - destruct (IH best) as (pre & post & Heq & Hpre & Hpost).
    apply gt_false in Hgt. destruct pre as [|b pre]; cbn in Heq.
    + injection Heq as Hb Hxs. exists [], (x :: post).
      rewrite <- Hb in Hpost |- *. split; [cbn; do 2 f_equal; exact Hxs|].
      split; [constructor|]. by constructor.
    + injection Heq as Hb Hxs. subst b. exists (best :: x :: pre), post.
      apply Forall_cons in Hpre as [Hb Hpre].
      split; [cbn; do 2 f_equal; exact Hxs|]. split; [|done].
      constructor; [done|]. constructor; [|done]. by eapply le_lt_trans.
Qed.

Lemma py_max_first xs m :
  py_max gt key xs = Some m →
  ∃ pre post, xs = pre ++ m :: post ∧
    Forall (fun y => lt (key y) (key m)) pre ∧ Forall (fun y => le (key y) (key m)) post.
Proof.
  destruct xs as [|x xs]; [done|]. cbn. intros [= <-]. apply max_from_first.
Qed.

Lemma py_max_none xs : py_max gt key xs = None ↔ xs = [].
Proof. by destruct xs. Qed.

End PyMax.

(** ** Code extraction *)

Section ExtractCode.
Import Text Analysis.


(** The three steps of the extraction, each fired by the failure of the one
    before. *)
Lemma extract_fenced reply m :
  py_max nat_gt length (findall (match_fenced (u "python")) reply) = Some m →
  _extract_code_from_response reply = m.
Proof. unfold _extract_code_from_response. by intros ->. Qed.




(** *** Replies made of fenced blocks *)

Lemma strip_prefix_app (p s : list N) : strip_prefix p (p ++ s) = Some s.
Proof. induction p as [|a p IH]; [done|]. cbn. by rewrite decide_True. Qed.

Lemma starts_with_no_backquote (c : N) (s : list N) : c ≠ 96%N → starts_with fence (c :: s) = false.
Proof.
  intros Hc. unfold starts_with, fence. cbn. rewrite decide_False by congruence.
  apply bool_decide_eq_false_2. by intros [? ?].
Qed.

Lemma match_fenced_no_backquote tag (c : N) (s : list N) : c ≠ 96%N → match_fenced tag (c :: s) = None.
Proof. intros Hc. unfold match_fenced, fence. cbn. by rewrite decide_False by congruence. Qed.

Lemma scan_no_backquote tag (pre s : list N) :
  Forall (fun c => c ≠ 96%N) pre →
  scan (match_fenced tag) 0 (pre ++ s) = scan (match_fenced tag) 0 s.
Proof.
  induction 1 as [|c pre Hc _ IH]; [done|]. cbn [app scan].
  by rewrite match_fenced_no_backquote.
Qed.

Lemma scan_no_backquote_nil tag (s : list N) :
  Forall (fun c => c ≠ 96%N) s → scan (match_fenced tag) 0 s = [].
Proof.
  intros Hs. rewrite <- (app_nil_r s). rewrite scan_no_backquote by done. done.
Qed.

Lemma scan_skip {A} (m : list N → option (A * nat)) (l s : list N) :
  scan m (length l) (l ++ s) = scan m 0 s.
Proof. induction l as [|c l IH]; [done|]. cbn. apply IH. Qed.

Lemma skip_spaces_app (ws s : list N) :
  Forall (fun c => is_space c = true) ws → skip_spaces (ws ++ s) = skip_spaces s.
Proof. induction 1 as [|c ws Hc _ IH]; [done|]. cbn. by rewrite Hc. Qed.

Lemma skip_spaces_head (c : N) (s : list N) : is_space c = false → skip_spaces (c :: s) = c :: s.
Proof. intros Hc. cbn. by rewrite Hc. Qed.

Lemma skip_spaces_fence (s : list N) : skip_spaces (fence ++ s) = fence ++ s.
Proof. done. Qed.

Lemma no_fence_inside (p : list N) (c : N) (s : list N) :
  Forall (fun c => c ≠ 96%N) (p ++ [c]) → is_space c = false →
  starts_with fence (skip_spaces (p ++ c :: s)) = false.
Proof.
  intros Hp Hc. induction p as [|x p IH].
  - cbn [app]. rewrite skip_spaces_head by done. apply starts_with_no_backquote.
    exact (Forall_inv Hp).
  - cbn [app] in *. apply Forall_cons in Hp as [Hx Hp]. cbn [skip_spaces].
    destruct (is_space x); [by apply IH|]. by apply starts_with_no_backquote.
Qed.

Lemma lazy_until_fence_cons (c : N) (s : list N) :
  starts_with fence (skip_spaces (c :: s)) = false →
  lazy_until_fence (c :: s) = '(cap, n) ← lazy_until_fence s; Some (c :: cap, S n).
Proof.
  intros Hn. change (lazy_until_fence (c :: s))
    with (if starts_with fence (skip_spaces (c :: s))
          then Some ([], (length (c :: s) - length (skip_spaces (c :: s)) + 3)%nat)
          else '(cap, n) ← lazy_until_fence s; Some (c :: cap, S n)).
  by rewrite Hn.
Qed.

Lemma lazy_until_fence_here (ws s : list N) :
  Forall (fun c => is_space c = true) ws →
  lazy_until_fence (ws ++ fence ++ s) = Some ([], (length ws + 3)%nat).
Proof.
  intros Hws.
  assert (skip_spaces (ws ++ fence ++ s) = fence ++ s) as Hskip
    by (by rewrite skip_spaces_app).
  assert (∀ l, skip_spaces l = fence ++ s →
               lazy_until_fence l = Some ([], (length l - length (fence ++ s) + 3)%nat)) as Hl.
  { intros l Hl. destruct l as [|x l].
    - by rewrite <- Hl.
    - change (lazy_until_fence (x :: l))
        with (if starts_with fence (skip_spaces (x :: l))
              then Some ([], (length (x :: l) - length (skip_spaces (x :: l)) + 3)%nat)
              else '(cap, n) ← lazy_until_fence l; Some (x :: cap, S n)).
      by rewrite Hl. }
  rewrite (Hl _ Hskip). f_equal. f_equal. rewrite length_app. lia.
Qed.

Lemma lazy_until_fence_block (p : list N) (c : N) (ws s : list N) :
  Forall (fun c => c ≠ 96%N) (p ++ [c]) → is_space c = false →
  Forall (fun c => is_space c = true) ws →
  lazy_until_fence (p ++ c :: ws ++ fence ++ s)
  = Some (p ++ [c], (length p + 1 + length ws + 3)%nat).
Proof.
  intros Hp Hc Hws. induction p as [|x p IH].
  - cbn [app]. rewrite lazy_until_fence_cons by exact (no_fence_inside [] c _ Hp Hc).
    by rewrite lazy_until_fence_here.
  - pose proof (Forall_inv_tail Hp) as Hp'.
    change ((x :: p) ++ c :: ws ++ fence ++ s) with (x :: (p ++ c :: ws ++ fence ++ s)).
    rewrite lazy_until_fence_cons by exact (no_fence_inside (x :: p) c _ Hp Hc).
    by rewrite (IH Hp').
Qed.

Lemma match_fenced_block (tag : list N) (ws1 p : list N) (c0 c : N) (b ws2 s : list N) :
  Forall (fun c => is_space c = true) ws1 → Forall (fun c => is_space c = true) ws2 →
  b = p ++ [c] → is_space c = false → (∃ b', b = c0 :: b') → is_space c0 = false →
  Forall (fun c => c ≠ 96%N) b →
  match_fenced tag (fence ++ tag ++ ws1 ++ b ++ ws2 ++ fence ++ s)
  = Some (b, length (fence ++ tag ++ ws1 ++ b ++ ws2 ++ fence)).
Proof.
  intros Hws1 Hws2 Hb Hc [b' Hb'] Hc0 Htick. unfold match_fenced.
  rewrite strip_prefix_app. cbn [mbind option_bind]. rewrite strip_prefix_app.
  cbn [default id]. rewrite skip_spaces_app by done.
  assert (skip_spaces (b ++ ws2 ++ fence ++ s) = b ++ ws2 ++ fence ++ s) as ->.
  { rewrite Hb'. cbn [app]. by apply skip_spaces_head. }
  assert (lazy_until_fence (b ++ ws2 ++ fence ++ s)
          = Some (b, (length p + 1 + length ws2 + 3)%nat)) as ->.
  { rewrite Hb, <- app_assoc. cbn [app]. apply lazy_until_fence_block; [by rewrite <- Hb|done..]. }
  cbn [mbind option_bind]. f_equal. f_equal.
  rewrite Hb, !length_app. unfold fence. cbn [length]. lia.
Qed.

Lemma scan_fenced_block (tag pre ws1 p : str) (c0 c : N) (b b0 ws2 s : str) :
  Expected.no_backquote pre → Expected.blank ws1 → Expected.blank ws2 →
  Expected.no_backquote b → b = c0 :: b0 → is_space c0 = false →
  b = p ++ [c] → is_space c = false →
  scan (match_fenced tag) 0 (pre ++ fence ++ tag ++ ws1 ++ b ++ ws2 ++ fence ++ s)
  = b :: scan (match_fenced tag) 0 s.
Proof.
  intros Hpre Hws1 Hws2 Htick Hb0 Hc0 Hb Hc.
  rewrite scan_no_backquote by done.
  pose proof (match_fenced_block tag ws1 p c0 c b ws2 s Hws1 Hws2 Hb Hc
                (ex_intro _ b0 Hb0) Hc0 Htick) as Hm.
  change (fence ++ tag ++ ws1 ++ b ++ ws2 ++ fence ++ s)
    with (96%N :: ([96; 96]%N ++ tag ++ ws1 ++ b ++ ws2 ++ fence ++ s)) in *.
  cbn [scan]. rewrite Hm. f_equal.
  replace ([96; 96]%N ++ tag ++ ws1 ++ b ++ ws2 ++ fence ++ s)
    with (([96; 96]%N ++ tag ++ ws1 ++ b ++ ws2 ++ fence) ++ s)
    by (by rewrite <- !app_assoc).
  replace (length (fence ++ tag ++ ws1 ++ b ++ ws2 ++ fence) - 1)%nat
    with (length ([96; 96]%N ++ tag ++ ws1 ++ b ++ ws2 ++ fence))
    by (unfold fence; cbn [app length]; lia).
  apply scan_skip.
Qed.

(** What the fence pattern lists for a reply that opens with text free of
    backquotes and then holds a fenced block: the block, stripped of the white
    space around it, and then whatever it lists for the rest of the reply. *)
Theorem findall_fenced_block (tag pre ws1 b ws2 s : str) :
  Expected.no_backquote pre → Expected.blank ws1 → Expected.blank ws2 →
  Expected.code_block b →
  findall (match_fenced tag) (pre ++ fence ++ tag ++ ws1 ++ b ++ ws2 ++ fence ++ s)
  = b :: findall (match_fenced tag) s.
Proof.
  intros Hpre Hws1 Hws2 (Htick & (c0 & b0 & Hb0 & Hc0) & (p & c & Hb & Hc)).
  unfold findall. by eapply scan_fenced_block.
Qed.

Lemma findall_fenced_python (pre b s : str) :
  Expected.no_backquote pre → Expected.code_block b →
  findall (match_fenced (u "python")) (pre ++ Expected.fenced_python b ++ s)
  = b :: findall (match_fenced (u "python")) s.
Proof.
  intros Hpre (Htick & (c0 & b0 & Hb0 & Hc0) & (p & c & Hb & Hc)).
  unfold Expected.fenced_python, findall. rewrite <- !app_assoc.
  eapply scan_fenced_block; try done; by apply Forall_singleton.
Qed.

(** A reply holding one fenced block yields that block; a reply holding two
    yields the longer one, the first when they are equally long. *)
Theorem extract_code_fenced_replies (pre b1 mid b2 post : str) :
  Expected.no_backquote pre → Expected.no_backquote mid → Expected.no_backquote post →
  Expected.code_block b1 → Expected.code_block b2 →
  _extract_code_from_response (pre ++ Expected.fenced_python b1 ++ post) = b1 ∧
  _extract_code_from_response
    (pre ++ Expected.fenced_python b1 ++ mid ++ Expected.fenced_python b2 ++ post)
  = if (length b1 <? length b2)%nat then b2 else b1.
Proof.
  intros Hpre Hmid Hpost Hb1 Hb2. split; apply extract_fenced.
  - rewrite findall_fenced_python by done.
    unfold findall. by rewrite scan_no_backquote_nil.
  - rewrite findall_fenced_python by done. rewrite findall_fenced_python by done.
    unfold findall. by rewrite scan_no_backquote_nil.
Qed.

(** *** Replies that hold the function without a fence *)














(** *** The three steps on replies *)







End ExtractCode.




(** ** Running generated code *)

Section Sandbox.
Import Text Analysis.
Context `{Pandas} `{!Runtime}.

Lemma generated_code_raises_run code dfs tmp e tmp' :
  Expected.generated_code_raises code dfs tmp e tmp' →
  run_generated code dfs tmp = (Raises e, tmp').
Proof.
  unfold run_generated. intros [-> | (m & tmp1 & -> & ->)]; reflexivity.
Qed.

(** C1 (as the code has it).  The [try] of [execute] has a [finally] and no
    [except]: an exception raised while the generated code executes is
    neither caught nor wrapped.  When the temporary module file is still
    there, the [finally] removes it and the exception leaves [execute] as it
    is, same class and same message.  When the generated code has removed the
    file itself, the [FileNotFoundError] of [os.unlink] is raised in its
    place. *)
Theorem execute_propagates_exception_unwrapped
    (files : gmap string file) (inputs : list input_obj) (raw : str)
    (temp_module_path : string) (self : agent) (tmp tmp' : gset string)
    (dfs : list frame) (df_names : list string) (e : exn) :
  _process_inputs files inputs = Returns (dfs, df_names) →
  Expected.generated_code_raises (_extract_code_from_response raw) dfs
    ({[temp_module_path]} ∪ tmp) e tmp' →
  (temp_module_path ∈ tmp' →
     execute files inputs (Returns raw) temp_module_path self tmp
     = (Raises e, mkAgent (_extract_code_from_response raw), tmp' ∖ {[temp_module_path]})) ∧
  (temp_module_path ∉ tmp' →
     ∃ e', execute files inputs (Returns raw) temp_module_path self tmp
           = (Raises e', mkAgent (_extract_code_from_response raw), tmp') ∧
           exn_class e' = "FileNotFoundError").
Proof.
  intros Hin Hraise. unfold execute. rewrite Hin. cbn.
  rewrite (generated_code_raises_run _ _ _ _ _ Hraise). cbn. split.
  - intros Htmp. by rewrite decide_True.
  - intros Htmp. rewrite decide_False by done. by eexists.
Qed.

(** The temporary module file.  Once it has been written, it is gone when
    [execute] is left, whatever the generated code did: returned, raised, or
    removed the file itself.  When writing it raised, [execute] raises that
    exception ahead of the [try], and the file, created to be kept, stays;
    when it could not be created, there is no file. *)
Theorem execute_removes_temp_file
    (files : gmap string file) (inputs : list input_obj) (raw : str)
    (self : agent) (tmp : gset string)
    (dfs : list frame) (df_names : list string) :
  _process_inputs files inputs = Returns (dfs, df_names) →
  (∀ temp_module_path : string,
     temp_module_path ∉
       (execute files inputs (Returns raw) (Written temp_module_path) self tmp).2) ∧
  (∀ temp_module_path e,
     execute files inputs (Returns raw) (WriteFailed temp_module_path e) self tmp
     = (Raises e, mkAgent (_extract_code_from_response raw), {[temp_module_path]} ∪ tmp)) ∧
  (∀ e, execute files inputs (Returns raw) (NotCreated e) self tmp
        = (Raises e, mkAgent (_extract_code_from_response raw), tmp)).
Proof.
  intros Hin. unfold execute. rewrite Hin. split; [|done].
  intros temp_module_path. cbn [generated_code].
  destruct (run_generated _ dfs _) as [out tmp']. unfold finally_unlink.
  case_decide as Hex; cbn [snd]; [|done].
  apply not_elem_of_difference. right. by apply elem_of_singleton.
Qed.

Lemma check_items_offending pre key type_name post acc :
  Forall (fun item => ∃ df, item.2 = VFrame df) pre →
  check_items (pre ++ (key, VOther type_name) :: post) acc
  = Raises (Exn "TypeError" (u "分析结果'" ++ key ++ u "'必须是DataFrame类型")).
Proof.
  intros Hpre. revert acc. induction Hpre as [|[k v] pre [df Hv] _ IH]; intros acc; [done|].
  cbn in Hv. subst v. cbn. apply IH.
Qed.

(** The checks on the value the generated function returned: anything but a
    dict is refused with a [TypeError], and so is a dict holding a value that
    is no [DataFrame], the message naming the first such key. *)
Theorem check_result_shape :
  (∀ type_name, check_result (ROther type_name)
                = Raises (Exn "TypeError" (u "分析函数必须返回字典类型的结果"))) ∧
  (∀ pre key type_name post,
     Forall (fun item => ∃ df, item.2 = VFrame df) pre →
     check_result (RDict (pre ++ (key, VOther type_name) :: post))
     = Raises (Exn "TypeError" (u "分析结果'" ++ key ++ u "'必须是DataFrame类型"))).
Proof.
  split; [done|]. intros pre key type_name post Hpre. by apply check_items_offending.
Qed.

End Sandbox.

(** C1, the claim refuted.  The model's function divides by zero; the caller
    of [execute] receives the [ZeroDivisionError] itself, which is no
    [GeneratedCodeError]. *)
Lemma execute_raises_raw_exception :
  (Analysis.execute ∅ [Analysis.InFrame Scenario.sales_frame] (Returns Scenario.failing_reply)
     "/tmp/tmpk3v9.py" (Analysis.mkAgent []) ∅).1.1
  = Raises (Exn "ZeroDivisionError" (Text.u "division by zero")) ∧
  ¬ Expected.wraps (Exn "ZeroDivisionError" (Text.u "division by zero"))
                   (Exn "ZeroDivisionError" (Text.u "division by zero")).
Proof.
  split; [vm_compute; reflexivity|]. unfold Expected.wraps. discriminate.
Qed.

(** C1 on the scenario.  The function divides by zero and the file is still
    there: the [ZeroDivisionError] comes out.  The module has cleared the
    temporary directory before the function divides by zero: a
    [FileNotFoundError] comes out. *)
Lemma execute_propagates_exception_unwrapped_witness :
  Analysis.execute ∅ [Analysis.InFrame Scenario.sales_frame] (Returns Scenario.failing_reply)
    "/tmp/tmpk3v9.py" (Analysis.mkAgent []) ∅
  = (Raises (Exn "ZeroDivisionError" (Text.u "division by zero")),
     Analysis.mkAgent (Analysis._extract_code_from_response Scenario.failing_reply),
     ({["/tmp/tmpk3v9.py"]} ∪ ∅) ∖ {["/tmp/tmpk3v9.py"]}) ∧
  ∃ e', Analysis.execute ∅ [Analysis.InFrame Scenario.sales_frame]
          (Returns Scenario.sweeping_reply) "/tmp/tmpk3v9.py" (Analysis.mkAgent []) ∅
        = (Raises e', Analysis.mkAgent (Analysis._extract_code_from_response
                                          Scenario.sweeping_reply), ∅) ∧
        exn_class e' = "FileNotFoundError".
Proof.
  split.
  - refine (proj1 (execute_propagates_exception_unwrapped ∅
                     [Analysis.InFrame Scenario.sales_frame]
                     Scenario.failing_reply "/tmp/tmpk3v9.py" (Analysis.mkAgent []) ∅
                     ({["/tmp/tmpk3v9.py"]} ∪ ∅) [Scenario.sales_frame] ["df_0"]
                     (Exn "ZeroDivisionError" (Text.u "division by zero")) eq_refl _) _).
    + right. exists (Analysis._extract_code_from_response Scenario.failing_reply),
        ({["/tmp/tmpk3v9.py"]} ∪ ∅). split; [reflexivity|]. vm_compute. reflexivity.
    + apply elem_of_union_l, elem_of_singleton. reflexivity.
  - refine (proj2 (execute_propagates_exception_unwrapped ∅
                     [Analysis.InFrame Scenario.sales_frame]
                     Scenario.sweeping_reply "/tmp/tmpk3v9.py" (Analysis.mkAgent []) ∅
                     ∅ [Scenario.sales_frame] ["df_0"]
                     (Exn "ZeroDivisionError" (Text.u "division by zero")) eq_refl _) _).
    + right. exists (Analysis._extract_code_from_response Scenario.sweeping_reply), ∅.
      split; vm_compute; reflexivity.
    + apply not_elem_of_empty.
Defined.

(** The same on the scenario: the file written is gone after a run that
    raises; a file whose writing raised (a generated text the encoding of the
    platform cannot encode) is left behind. *)
Lemma execute_removes_temp_file_witness :
  ("/tmp/tmpk3v9.py" ∉
   (Analysis.execute ∅ [Analysis.InFrame Scenario.sales_frame]
      (Returns Scenario.failing_reply) "/tmp/tmpk3v9.py" (Analysis.mkAgent []) ∅).2) ∧
  ("/tmp/tmpk3v9.py" ∈
   (Analysis.execute ∅ [Analysis.InFrame Scenario.sales_frame]
      (Returns Scenario.failing_reply)
      (WriteFailed "/tmp/tmpk3v9.py" (Exn "UnicodeEncodeError" (Text.u "codec can't encode")))
      (Analysis.mkAgent []) ∅).2).
Proof.
  pose proof (execute_removes_temp_file ∅ [Analysis.InFrame Scenario.sales_frame]
                Scenario.failing_reply (Analysis.mkAgent []) ∅
                [Scenario.sales_frame] ["df_0"] eq_refl) as (Hgone & Hstays & _).
  split; [apply Hgone|]. rewrite Hstays. cbn [snd].
  apply elem_of_union_l, elem_of_singleton. reflexivity.
Defined.

Lemma check_result_shape_witness :
  Analysis.check_result
    (Analysis.RDict [(Text.u "avg", Analysis.VFrame Scenario.sales_frame);
                     (Text.u "count", Analysis.VOther "int")])
  = Raises (Exn "TypeError" (Text.u "分析结果'" ++ Text.u "count" ++ Text.u "'必须是DataFrame类型")).
Proof.
  apply (proj2 check_result_shape [(Text.u "avg", Analysis.VFrame Scenario.sales_frame)]
           (Text.u "count") "int" []).
  constructor; [by eexists|constructor].
Defined.

(** ** The keyword scorer *)

Section Scorer.
Import Text Intent.
Variable lower : str → str.

Local Open Scope Q_scope.

Lemma q_gt_true a b : q_gt a b = true → b < a.
Proof.
  unfold q_gt. intros Hb%negb_true_iff. apply Qnot_le_lt. intros Hle.
  apply Qle_bool_iff in Hle. congruence.
Qed.

Lemma q_gt_false a b : q_gt a b = false → a <= b.
Proof. unfold q_gt. intros Hb%negb_false_iff. by apply Qle_bool_iff. Qed.

Lemma py_max_q_first {A} (key : A → Q) xs m :
  py_max q_gt key xs = Some m →
  ∃ pre post, xs = pre ++ m :: post ∧
    Forall (fun y => key y < key m) pre ∧ Forall (fun y => key y <= key m) post.
Proof.
  apply (py_max_first q_gt Qlt Qle key).
  - apply q_gt_true.
  - apply q_gt_false.
  - apply Qle_refl.
  - apply Qlt_le_weak.
  - apply Qlt_le_trans.
  - apply Qle_lt_trans.
Qed.

(** A category's hits never exceed its number of keywords. *)
Lemma hits_le p info : (hits lower p info ≤ length (keywords info))%nat.
Proof. unfold hits. apply length_filter. Qed.

Lemma normalize_hits p info :
  hits lower p info ≠ 0%nat →
  score_of lower p info
  = Z.of_nat (hits lower p info) # Pos.of_nat (length (keywords info)).
Proof.
  intros Hn. unfold score_of, normalize.
  destruct (Nat.ltb_spec 0 (hits lower p info)); [done|lia].
Qed.

Lemma normalize_no_hits p info :
  hits lower p info = 0%nat → score_of lower p info = 0.
Proof. intros Hn. unfold score_of, normalize. by rewrite Hn. Qed.

Lemma score_bounds p info : 0 <= score_of lower p info <= 1.
Proof.
  destruct (decide (hits lower p info = 0%nat)) as [Hz|Hnz].
  - rewrite normalize_no_hits by done. split; [apply Qle_refl|done].
  - rewrite normalize_hits by done. pose proof (hits_le p info) as Hle.
    unfold Qle. cbn. rewrite Z.mul_1_r. split; [lia|].
    rewrite Z.mul_1_l.
    destruct (length (keywords info)) as [|n] eqn:Hlen; [lia|].
    rewrite <- Hlen at 1. lia.
Qed.

Lemma score_positive p info : hits lower p info ≠ 0%nat → 0 < score_of lower p info.
Proof.
  intros Hnz. rewrite normalize_hits by done. unfold Qlt. cbn. lia.
Qed.

Lemma score_zero_hits p info : score_of lower p info == 0 → hits lower p info = 0%nat.
Proof.
  intros Hz. destruct (decide (hits lower p info = 0%nat)) as [|Hnz]; [done|].
  apply score_positive in Hnz. rewrite Hz in Hnz. by apply Qlt_irrefl in Hnz.
Qed.

(** With distinct keys, the scores dict lists the categories in order. *)
Lemma scores_for_acc types p acc :
  NoDup (acc.*1 ++ types.*1) →
  foldl (fun scores entry => dict_set_str entry.1 (score_of lower p entry.2) scores) acc types
  = acc ++ ((fun entry => (entry.1, score_of lower p entry.2)) <$> types).
Proof.
  revert acc. induction types as [|[k info] types IH]; intros acc Hnd; cbn.
  { by rewrite app_nil_r. }
  assert (dict_set_str k (score_of lower p info) acc = acc ++ [(k, score_of lower p info)]) as ->.
  { apply NoDup_app in Hnd as (_ & Hdis & _).
    assert (k ∉ acc.*1) as Hk by (intros Hin; apply (Hdis k Hin); left).
    clear -Hk. induction acc as [|[k' v'] acc IHa]; [done|]. cbn in *.
    apply not_elem_of_cons in Hk as [Hne Hk].
    rewrite decide_False by done. by rewrite IHa. }
  rewrite IH.
  - by rewrite <- app_assoc.
  - rewrite fmap_app. cbn. by rewrite <- app_assoc.
Qed.

Lemma scores_for_distinct types p :
  NoDup types.*1 →
  scores_for lower types p = (fun entry => (entry.1, score_of lower p entry.2)) <$> types.
Proof. intros Hnd. unfold scores_for. by rewrite scores_for_acc. Qed.

Lemma get_score types p k info :
  NoDup types.*1 → (k, info) ∈ types →
  Py.get k ((fun entry => (entry.1, score_of lower p entry.2)) <$> types)
  = Some (score_of lower p info).
Proof.
  induction types as [|[k' info'] types IH]; intros Hnd Hin; [by apply elem_of_nil in Hin|].
  cbn in *. apply NoDup_cons in Hnd as [Hk' Hnd].
  apply elem_of_cons in Hin as [[= -> ->]|Hin].
  - by rewrite decide_True.
  - rewrite decide_False; [by apply IH|].
    intros ->. apply Hk'. apply list_elem_of_fmap. by exists (k, info).
Qed.

Lemma get_entry (types : list (str * agent_info)) k info :
  NoDup types.*1 → (k, info) ∈ types → Py.get k types = Some info.
Proof.
  induction types as [|[k' info'] types IH]; intros Hnd Hin; [by apply elem_of_nil in Hin|].
  cbn in *. apply NoDup_cons in Hnd as [Hk' Hnd].
  apply elem_of_cons in Hin as [[= -> ->]|Hin].
  - by rewrite decide_True.
  - rewrite decide_False; [by apply IH|].
    intros ->. apply Hk'. apply list_elem_of_fmap. by exists (k, info).
Qed.

(** The scorer over any table of categories with distinct names. *)
Lemma rule_based_spec (types : list (str * agent_info)) prompt :
  NoDup types.*1 →
  (Forall (fun entry => hits lower (lower prompt) entry.2 = 0%nat) types →
     rule_based lower types prompt
     = (u "data_analysis", 1 # 2, u "未找到明确的意图指示，默认使用数据分析代理")) ∧
  (Exists (fun entry => hits lower (lower prompt) entry.2 ≠ 0%nat) types →
     ∃ pre cat info post,
       types = pre ++ (cat, info) :: post ∧
       rule_based lower types prompt
       = (cat, score_of lower (lower prompt) info, u "根据关键词匹配，识别为" ++ name info) ∧
       hits lower (lower prompt) info ≠ 0%nat ∧
       Forall (fun entry => score_of lower (lower prompt) entry.2
                            < score_of lower (lower prompt) info) pre ∧
       Forall (fun entry => score_of lower (lower prompt) entry.2
                            <= score_of lower (lower prompt) info) post).
Proof.
  intros Hnd. unfold rule_based. rewrite scores_for_distinct by done.
  set (p := lower prompt).
  set (scores := (fun entry => (entry.1, score_of lower p entry.2)) <$> types).
  assert (scores.*2 = (fun entry => score_of lower p entry.2) <$> types) as Hvals.
  { unfold scores. rewrite <- list_fmap_compose. done. }
  assert (scores.*1 = types.*1) as Hkeys.
  { unfold scores. rewrite <- list_fmap_compose. done. }
  rewrite Hvals, Hkeys. split.
  - intros Hall.
    destruct (py_max q_gt (λ x, x) ((λ entry, score_of lower p entry.2) <$> types))
      as [m|] eqn:Hm; [|done].
    apply py_max_q_first in Hm as (pre & post & Heq & _).
    assert (m ∈ (λ entry, score_of lower p entry.2) <$> types) as Hin.
    { rewrite Heq. apply elem_of_app. right. left. }
    apply list_elem_of_fmap in Hin as (entry & -> & Hentry).
    rewrite Forall_forall in Hall. rewrite normalize_no_hits by (by apply Hall).
    done.
  - intros (e0 & He0 & Hhit)%Exists_exists.
    destruct (py_max q_gt (λ x, x) ((λ entry, score_of lower p entry.2) <$> types))
      as [m|] eqn:Hm.
    2:{ apply py_max_none in Hm. apply fmap_nil_inv in Hm. subst types.
        by apply elem_of_nil in He0. }
    apply py_max_q_first in Hm as (vpre & vpost & Hveq & Hvpre & Hvpost).
    assert (0 < m) as Hmpos.
    { eapply Qlt_le_trans; [apply (score_positive p e0.2 Hhit)|].
      assert (score_of lower p e0.2 ∈ vpre ++ m :: vpost) as Hin.
      { rewrite <- Hveq. apply list_elem_of_fmap. by exists e0. }
      apply elem_of_app in Hin as [Hin|Hin].
      - rewrite Forall_forall in Hvpre. by apply Qlt_le_weak, Hvpre.
      - apply elem_of_cons in Hin as [->|Hin]; [apply Qle_refl|].
        rewrite Forall_forall in Hvpost. by apply Hvpost. }
    assert (Qeq_bool m 0 = false) as ->.
    { destruct (Qeq_bool m 0) eqn:Hz; [|done]. apply Qeq_bool_iff in Hz.
      rewrite Hz in Hmpos. by apply Qlt_irrefl in Hmpos. }
    destruct (py_max q_gt (λ k, default 0 (Py.get k scores)) types.*1) as [cat|] eqn:Hcat.
    2:{ apply py_max_none in Hcat. apply fmap_nil_inv in Hcat. subst types.
        by apply elem_of_nil in He0. }
    apply py_max_q_first in Hcat as (kpre & kpost & Hkeq & Hkpre & Hkpost).
    apply fmap_app_inv in Hkeq as (pre & rest & -> & Hrest & ->).
    symmetry in Hrest. apply fmap_cons_inv in Hrest as ([cat' info] & post & Hc & -> & ->).
    cbn in Hc. subst cat'.
    assert (∀ entry, entry ∈ pre ++ (cat, info) :: post →
              default 0 (Py.get entry.1 scores) = score_of lower p entry.2) as Hkey.
    { intros [k i] Hin. unfold scores. by rewrite (get_score _ _ k i). }
    assert ((cat, info) ∈ pre ++ (cat, info) :: post) as Hcin.
    { apply elem_of_app. right. left. }
    pose proof (Hkey (cat, info) Hcin) as Hconf. cbn in Hconf.
    rewrite Hconf in Hkpre, Hkpost.
    assert (Forall (λ entry, score_of lower p entry.2 < score_of lower p info) pre) as Hpre.
    { apply Forall_forall. intros entry Hin.
      pose proof (proj1 (Forall_forall _ _) Hkpre entry.1 (list_elem_of_fmap_2 fst _ _ Hin))
        as Hlt.
      cbn in Hlt. rewrite Hkey in Hlt; [done|]. apply elem_of_app. by left. }
    assert (Forall (λ entry, score_of lower p entry.2 <= score_of lower p info) post) as Hpost.
    { apply Forall_forall. intros entry Hin.
      pose proof (proj1 (Forall_forall _ _) Hkpost entry.1 (list_elem_of_fmap_2 fst _ _ Hin))
        as Hle.
      cbn in Hle. rewrite Hkey in Hle; [done|]. apply elem_of_app. right. by right. }
    exists pre, cat, info, post. split; [done|].
    change (default [] (Some cat)) with cat.
    rewrite Hconf. rewrite (get_entry _ cat info) by done.
    change (default [] (name <$> Some info)) with (name info).
    split; [reflexivity|]. split; [|by split].
    intros Hz. apply normalize_no_hits in Hz.
    assert (score_of lower p e0.2 <= score_of lower p info) as Hle.
    { apply elem_of_app in He0 as [Hin|Hin].
      - rewrite Forall_forall in Hpre. by apply Qlt_le_weak, Hpre.
      - apply elem_of_cons in Hin as [->|Hin]; [apply Qle_refl|].
        rewrite Forall_forall in Hpost. by apply Hpost. }
    pose proof (score_positive p e0.2 Hhit) as Hpos.
    rewrite Hz in Hle. by apply (Qlt_irrefl 0), (Qlt_le_trans _ (score_of lower p e0.2)).
Qed.

Lemma agent_types_distinct : NoDup AGENT_TYPES.*1.
Proof. apply (bool_decide_unpack _). vm_compute. exact I. Qed.

Lemma no_hits_or_some (types : list (str * agent_info)) p :
  Forall (fun entry => hits lower p entry.2 = 0%nat) types ∨
  Exists (fun entry => hits lower p entry.2 ≠ 0%nat) types.
Proof.
  destruct (Forall_Exists_dec (fun entry : str * agent_info => hits lower p entry.2 = 0%nat)
              (fun entry => hits lower p entry.2 ≠ 0%nat)
              (fun entry => decide (hits lower p entry.2 = 0%nat)) types); [by left|by right].
Qed.


(** C6.  The fallback classifier answers with one of the four categories and a
    confidence between 0 and 1.  When no keyword of any category occurs in the
    prompt, the answer is [data_analysis] with confidence 1/2.  Otherwise it
    is the first category, in the order of [AGENT_TYPES], whose normalized
    score is the greatest (every earlier category scores strictly less, every
    later one at most as much), and the confidence is its number of matched
    keywords over the size of its keyword set. *)
Theorem rule_based_confidence (prompt : str) :
  ∃ cat conf expl,
    _rule_based_intent_recognition lower prompt
    = [(u "agent_type", JStr cat); (u "confidence", JNum conf); (u "explanation", JStr expl)] ∧
    Expected.known_category cat ∧ 0 <= conf <= 1 ∧
    (Forall (fun entry => hits lower (lower prompt) entry.2 = 0%nat) AGENT_TYPES →
       cat = u "data_analysis" ∧ conf = 1 # 2) ∧
    (Exists (fun entry => hits lower (lower prompt) entry.2 ≠ 0%nat) AGENT_TYPES →
       ∃ pre info post,
         AGENT_TYPES = pre ++ (cat, info) :: post ∧
         conf = Z.of_nat (hits lower (lower prompt) info) # Pos.of_nat (length (keywords info)) ∧
         Forall (fun entry => score_of lower (lower prompt) entry.2 < conf) pre ∧
         Forall (fun entry => score_of lower (lower prompt) entry.2 <= conf) post).
Proof.
  unfold _rule_based_intent_recognition.
  destruct (rule_based_spec AGENT_TYPES prompt agent_types_distinct) as [Hnone Hsome].
  destruct (no_hits_or_some AGENT_TYPES (lower prompt)) as [Hall|Hex].
  - rewrite (Hnone Hall).
    exists (u "data_analysis"), (1 # 2), (u "未找到明确的意图指示，默认使用数据分析代理").
    split; [reflexivity|]. split; [left|]. split; [done|]. split; [done|].
    intros Hex. exfalso. apply Exists_exists in Hex as (entry & Hin & Hhit).
    rewrite Forall_forall in Hall. by apply Hhit, Hall.
  - destruct (Hsome Hex) as (pre & cat & info & post & Htypes & Hrb & Hhit & Hpre & Hpost).
    rewrite Hrb.
    exists cat, (score_of lower (lower prompt) info), (u "根据关键词匹配，识别为" ++ name info).
    split; [reflexivity|]. split.
    { unfold Expected.known_category. rewrite Htypes, fmap_app.
      apply elem_of_app. right. left. }
    split; [apply score_bounds|]. split.
    { intros Hall. exfalso. rewrite Forall_forall in Hall.
      apply Hhit, (Hall (cat, info)).
      rewrite Htypes. apply elem_of_app. right. left. }
    intros _. exists pre, info, post. split; [done|]. split; [|done].
    by apply normalize_hits.
Qed.

End Scorer.

(** ** The router *)

Section Router.
Import Text Intent.
Context `{Json}.
Variable lower : str → str.

Lemma get_elem_of {V} k (d : list (str * V)) v : Py.get k d = Some v → k ∈ d.*1.
Proof.
  induction d as [|[k' v'] d IH]; [done|]. cbn. case_decide as Hk.
  - intros _. subst. left.
  - intros Hg. right. by apply IH.
Qed.

Lemma get_dict_set_eq {V} k (v : V) d : Py.get k (dict_set_str k v d) = Some v.
Proof.
  induction d as [|[k' v'] d IH]; cbn.
  - by rewrite decide_True.
  - case_decide as Hk; cbn.
    + by rewrite decide_True.
    + by rewrite decide_False.
Qed.






End Router.



(** The scorer on concrete prompts.  A prompt without any keyword gets the
    default; a prompt with one keyword of [data_analysis] and one of
    [data_analysis_conclusion], both sets having eleven keywords, is a tie,
    and the category listed first wins it; two keywords out of ten beat one
    out of eleven. *)
Example rule_based_no_keyword :
  (Intent.rule_based RefJson.ascii_lower Intent.AGENT_TYPES (Text.u "hello")).1
  = (Text.u "data_analysis", 1 # 2).
Proof. vm_compute. reflexivity. Qed.

Example rule_based_tie :
  (Intent.rule_based RefJson.ascii_lower Intent.AGENT_TYPES (Text.u "分析结论")).1
  = (Text.u "data_analysis", 1 # 11).
Proof. vm_compute. reflexivity. Qed.

Example rule_based_two_of_ten :
  (Intent.rule_based RefJson.ascii_lower Intent.AGENT_TYPES (Text.u "请绘制柱状图并分析")).1
  = (Text.u "data_visualization", 2 # 10).
Proof. vm_compute. reflexivity. Qed.

(** C6 on the tie: the winner is [data_analysis], found in the table with
    nothing before it, and its confidence is its one hit over its eleven
    keywords. *)
Lemma rule_based_confidence_witness :
  ∃ pre info post,
    Intent.AGENT_TYPES = pre ++ (Text.u "data_analysis", info) :: post ∧
    (1 # 11)%Q = (Z.of_nat (Intent.hits RefJson.ascii_lower
                              (RefJson.ascii_lower (Text.u "分析结论")) info)
                  # Pos.of_nat (length (Intent.keywords info)))%Q ∧
    Forall (fun entry =>
              (Intent.score_of RefJson.ascii_lower (RefJson.ascii_lower (Text.u "分析结论"))
                 entry.2 < 1 # 11)%Q) pre ∧
    Forall (fun entry =>
              (Intent.score_of RefJson.ascii_lower (RefJson.ascii_lower (Text.u "分析结论"))
                 entry.2 <= 1 # 11)%Q) post.
Proof.
  destruct (rule_based_confidence RefJson.ascii_lower (Text.u "分析结论"))
    as (cat & conf & expl & Hd & _ & _ & _ & Hsome).
  assert (Intent._rule_based_intent_recognition RefJson.ascii_lower (Text.u "分析结论")
          = [(Text.u "agent_type", JStr (Text.u "data_analysis"));
             (Text.u "confidence", JNum (1 # 11));
             (Text.u "explanation",
              JStr (Text.u "根据关键词匹配，识别为" ++ Intent.name Intent.data_analysis))])
    as Hrun by (vm_compute; reflexivity).
  rewrite Hrun in Hd. injection Hd as <- <- _.
  apply Hsome. apply Exists_cons_hd. vm_compute. discriminate.
Defined.

(** The uploaded file of the scenario, asked for in full.  Where the loader's
    module is loaded, the table comes back with its missing amount filled in;
    where it is imported for the first time, its last line does not find the
    sample file it loads, the import raises, and nothing comes back. *)
Lemma get_dataset_data_uploaded_fills_witness :
  read_csv (Blob Scenario.upload_text) = Returns Scenario.upload_frame ∧
  (Store.get_dataset_data (H0 := RefImports.loaded) "s1" "u1" Scenario.with_upload).1
  = Some [("region", [Str "north"; Str "south"]); ("amount", [Num 10; Num 0])] ∧
  Store.get_dataset_data (H0 := RefImports.first_import) "s1" "u1" Scenario.with_upload
  = (None, Scenario.with_upload).
Proof.
  split; [vm_compute; reflexivity|]. split.
  - etrans.
    + eapply (proj1 (get_dataset_data_uploaded_fills (H0 := RefImports.loaded)
                       "s1" "u1" Scenario.with_upload _ _ _ _ Scenario.upload_frame
                       eq_refl eq_refl eq_refl eq_refl eq_refl eq_refl eq_refl eq_refl)).
      reflexivity.
    + vm_compute. reflexivity.
  - eapply (proj2 (get_dataset_data_uploaded_fills (H0 := RefImports.first_import)
                     "s1" "u1" Scenario.with_upload _ _ _ _ Scenario.upload_frame
                     eq_refl eq_refl eq_refl eq_refl eq_refl eq_refl eq_refl eq_refl)).
    vm_compute. reflexivity.
Defined.

Lemma rename_session_result_witness :
  ∃ pre m post,
    Store.list_sessions Scenario.added = pre ++ m :: post ∧ sm_id m = "s1" ∧
    ("s1" ∉ sm_id <$> pre) ∧
    Store.list_sessions (Store.rename_session "s1" "sales review" Scenario.now Scenario.added).2
    = pre ++ mkSessionMeta "s1" "sales review" (sm_created_at m) Scenario.now :: post.
Proof.
  apply (proj2 (rename_session_result "s1" "sales review" Scenario.now Scenario.added)).
  vm_compute. left.
Defined.


(** The scenario's reply, put together from its parts. *)
Lemma extract_code_fenced_replies_witness :
  Analysis._extract_code_from_response
    (Text.u "A first draft:" ++ Expected.fenced_python Scenario.short_block
     ++ Text.u "and the complete function:" ++ Expected.fenced_python Scenario.long_block
     ++ Text.u "Run it on the table.")
  = Scenario.long_block.
Proof.
  assert (∀ b : Text.str,
            bool_decide (Expected.no_backquote b) = true →
            Text.is_space (default 32%N (head b)) = false →
            Text.is_space (default 32%N (last b)) = false →
            Expected.code_block b) as Hblock.
  { intros b Hb Hh Hl. split; [exact (proj1 (bool_decide_eq_true _) Hb)|]. split.
    - destruct b as [|c b']; [done|]. by exists c, b'.
    - destruct (last b) as [c|] eqn:E; [|done].
      apply last_Some in E as [b' ->]. by exists b', c. }
  etrans.
  - apply (extract_code_fenced_replies (Text.u "A first draft:") Scenario.short_block
             (Text.u "and the complete function:") Scenario.long_block
             (Text.u "Run it on the table.")).
    + apply (bool_decide_unpack _). vm_compute. exact I.
    + apply (bool_decide_unpack _). vm_compute. exact I.
    + apply (bool_decide_unpack _). vm_compute. exact I.
    + apply Hblock; vm_compute; reflexivity.
    + apply Hblock; vm_compute; reflexivity.
  - vm_compute. reflexivity.
Defined.

(** A JSON answer in a fence, as the router meets it. *)
Lemma findall_fenced_block_witness :
  Text.findall (Text.match_fenced (Text.u "json"))
    (Text.u "Here it is: " ++ Text.fence ++ Text.u "json" ++ [10%N] ++ Text.u "{}"
     ++ [10%N; 32%N] ++ Text.fence ++ Text.u " Done.")
  = [Text.u "{}"].
Proof.
  etrans.
  - apply (findall_fenced_block (Text.u "json") (Text.u "Here it is: ") [10%N] (Text.u "{}")
             [10%N; 32%N] (Text.u " Done.")).
    + apply (bool_decide_unpack _). vm_compute. exact I.
    + by repeat constructor.
    + by repeat constructor.
    + split; [apply (bool_decide_unpack _); vm_compute; exact I|]. split.
      * by exists 123%N, [125%N].
      * by exists [123%N], 125%N.
  - vm_compute. reflexivity.
Defined.

(** ** The store over time: caches, restarts, lookups that miss *)

Section StoreLifecycle.
Import Store Behaviour.
Context `{Pandas} `{Imports}.

(** Once [get_session] has handed a body out, the same body is handed out
    again whatever has become of the files since: the cache is consulted
    first and never compared with the disk. *)
Theorem get_session_served_from_cache (sid : string) (st : state) (fs : gmap string file) :
  get_session sid (set_files fs (get_session sid st).2)
  = ((get_session sid st).1, set_files fs (get_session sid st).2).
Proof.
  unfold get_session at 2 3 4.
  destruct (sessions_cache st !! sid) as [d|] eqn:E; cbn [fst snd].
  - unfold get_session. cbn. by rewrite E.
  - unfold get_session. cbn. by rewrite lookup_insert_eq.
Qed.

Lemma delete_session_body_file sid st :
  _get_session_path st sid ∉ locked st →
  files (delete_session sid st).2 !! _get_session_path st sid = None.
Proof.
  intros Hlk.
  assert (files (before_lookup sid st) !! _get_session_path st sid = None) as Hb.
  { unfold before_lookup. rewrite remove_if_exists_files.
    destruct (save_sessions_meta_memory
                (set_sessions_meta (filter (fun s => sm_id s ≠ sid) (sessions_meta st)) st))
      as (Hd & Hl & _).
    rewrite Hl. cbn [locked set_sessions_meta]. rewrite decide_False by done.
    apply lookup_delete_eq. }
  destruct (sessions_cache st !! sid) as [body|] eqn:E.
  - rewrite (delete_session_files_cached sid st body) by done.
    rewrite decide_False; [done|]. intros [Hin _].
    apply list_elem_of_fmap in Hin as (did & Heq & _).
    by apply session_path_ne_dataset_path in Heq.
  - by rewrite delete_session_files_uncached.
Qed.

(** After [delete_session], when the body file could be removed, the session
    is served as an empty one: no dataset and no history, whether or not its
    body was cached before. *)
Theorem delete_session_forgets_body (sid : string) (st : state) :
  _get_session_path st sid ∉ locked st →
  (get_datasets sid (delete_session sid st).2).1 = ∅ ∧
  (get_history sid (delete_session sid st).2).1 = [].
Proof.
  intros Hlk. pose proof (delete_session_body_file sid st Hlk) as Hf.
  destruct (delete_session_fields sid st) as (Hd & _ & _ & Hc & _).
  assert (get_session sid (delete_session sid st).2
          = (empty_session,
             set_sessions_cache (<[sid := empty_session]>
                                   (sessions_cache (delete_session sid st).2))
                                (delete_session sid st).2)) as Hget.
  { unfold get_session. rewrite Hc, lookup_delete_eq.
    unfold _load_session_data. rewrite (session_path_dir st _ sid Hd), Hf. done. }
  unfold get_datasets, get_history. by rewrite Hget.
Qed.

Lemma restart_index st : index_saved st → list_sessions (restart st) = list_sessions st.
Proof.
  unfold index_saved, restart, init, list_sessions, _load_sessions_meta, sessions_meta_path.
  cbn. by intros ->.
Qed.

Lemma save_sessions_meta_saved st :
  sessions_meta_path st ∉ locked st → index_saved (_save_sessions_meta st).
Proof.
  intros Hlk. unfold index_saved, _save_sessions_meta, write_file.
  rewrite decide_False by done. cbn. unfold sessions_meta_path. cbn.
  by rewrite lookup_insert_eq.
Qed.

Lemma touch_session_saved sid now st :
  sessions_meta_path st ∉ locked st → Expected.known_session st sid →
  index_saved (touch_session sid now st).
Proof.
  intros Hlk Hk. unfold touch_session.
  destruct (update_first_known sid
              (fun s => mkSessionMeta (sm_id s) (sm_name s) (sm_created_at s) now)
              (sessions_meta st) Hk) as (pre & m & post & _ & _ & _ & ->).
  by apply save_sessions_meta_saved.
Qed.

Lemma index_saved_files st st' :
  data_dir st' = data_dir st → sessions_meta st' = sessions_meta st →
  files st' !! sessions_meta_path st = files st !! sessions_meta_path st →
  index_saved st → index_saved st'.
Proof.
  unfold index_saved. intros Hd Hm Hf Hs.
  by rewrite (meta_path_dir st st' Hd), Hm, Hf.
Qed.

Lemma create_session_saved name sid now st :
  sessions_meta_path st ∉ locked st → _get_session_path st sid ≠ sessions_meta_path st →
  index_saved (create_session name sid now st).2.
Proof.
  intros Hlk Hne. unfold create_session. cbn [snd].
  set (st1 := set_sessions_meta _ st).
  pose proof (save_sessions_meta_saved st1 Hlk) as Hs.
  destruct (save_sessions_meta_memory st1) as (Hd1 & _).
  set (st2 := _save_sessions_meta st1) in *.
  destruct (save_session_data_memory sid empty_session st2) as (Hd2 & _ & Hm2 & _).
  eapply (index_saved_files st2); [done|done| |done].
  cbn [files set_sessions_cache].
  apply save_session_data_files. rewrite (session_path_dir st1 st2 sid Hd1).
  rewrite (meta_path_dir st1 st2 Hd1). by apply not_eq_sym.
Qed.

Lemma rename_session_saved sid new_name now st :
  sessions_meta_path st ∉ locked st → Expected.known_session st sid →
  index_saved (rename_session sid new_name now st).2.
Proof.
  intros Hlk Hk. unfold rename_session.
  destruct (update_first_known sid
              (fun s => mkSessionMeta (sm_id s) new_name (sm_created_at s) now)
              (sessions_meta st) Hk) as (pre & m & post & _ & _ & _ & ->).
  by apply save_sessions_meta_saved.
Qed.

Lemma before_lookup_saved sid st :
  sessions_meta_path st ∉ locked st → _get_session_path st sid ≠ sessions_meta_path st →
  index_saved (before_lookup sid st).
Proof.
  intros Hlk Hne. unfold before_lookup.
  set (st1 := set_sessions_meta _ st).
  pose proof (save_sessions_meta_saved st1 Hlk) as Hs.
  destruct (save_sessions_meta_memory st1) as (Hd1 & _).
  set (st2 := _save_sessions_meta st1) in *.
  destruct (remove_if_exists_memory (_get_session_path st sid) st2) as (Hd & _ & Hm & _).
  eapply (index_saved_files st2); [done|done| |done].
  rewrite remove_if_exists_files. case_decide; [done|].
  rewrite lookup_delete_ne; [done|]. by rewrite (meta_path_dir st1 st2 Hd1).
Qed.

Lemma delete_session_saved sid st :
  sessions_meta_path st ∉ locked st → _get_session_path st sid ≠ sessions_meta_path st →
  index_saved (delete_session sid st).2.
Proof.
  intros Hlk Hne. pose proof (before_lookup_saved sid st Hlk Hne) as Hs.
  rewrite delete_session_unfold. cbn [snd].
  pose proof (get_session_fields sid (before_lookup sid st)) as Hget.
  destruct (get_session sid (before_lookup sid st)) as [d st1]. cbn [fst snd].
  destruct Hget as (Hd1 & Hf1 & _ & Hm1 & _).
  destruct (remove_dataset_files_memory d st1) as (Hd2 & _ & Hm2 & _).
  destruct (evict_session_fields sid (remove_dataset_files d st1)) as (Hd3 & Hf3 & _ & Hm3 & _).
  eapply (index_saved_files (before_lookup sid st)); [congruence|congruence| |done].
  rewrite Hf3, remove_dataset_files_lookup, decide_False.
  - by rewrite Hf1.
  - intros [Hin _]. apply list_elem_of_fmap in Hin as (did & Heq & _).
    by apply meta_path_ne_dataset_path in Heq.
Qed.

(** What the two updates leave of the state they save the body in. *)
Lemma add_dataset_before_touch sid did ds st :
  let r := build_dataset_meta did ds (get_session sid st).2 in
  ∀ c, data_dir (set_sessions_cache c r.2) = data_dir st ∧
       locked (set_sessions_cache c r.2) = locked st ∧
       sessions_meta (set_sessions_cache c r.2) = sessions_meta st.
Proof.
  intros r c. pose proof (get_session_fields sid st) as Hget.
  destruct (build_dataset_meta_result did ds (get_session sid st).2)
    as ((Hd & Hl & Hm & _) & _).
  fold r in Hd, Hl, Hm.
  destruct (get_session sid st) as [d st1]. cbn [snd] in *.
  destruct Hget as (Hd1 & _ & Hl1 & Hm1 & _).
  repeat split; cbn; congruence.
Qed.

Lemma add_history_before_touch sid item st :
  let r := externalize_item item (get_session sid st).2 in
  ∀ c, data_dir (set_sessions_cache c r.2) = data_dir st ∧
       locked (set_sessions_cache c r.2) = locked st ∧
       sessions_meta (set_sessions_cache c r.2) = sessions_meta st.
Proof.
  intros r c. pose proof (get_session_fields sid st) as Hget.
  destruct (externalize_item_result item (get_session sid st).2)
    as ((Hd & Hl & Hm & _) & _).
  fold r in Hd, Hl, Hm.
  destruct (get_session sid st) as [d st1]. cbn [snd] in *.
  destruct Hget as (Hd1 & _ & Hl1 & Hm1 & _).
  repeat split; cbn; congruence.
Qed.

Lemma add_dataset_saved sid did ds now st :
  sessions_meta_path st ∉ locked st → Expected.known_session st sid →
  index_saved (add_dataset sid did ds now st).
Proof.
  intros Hlk Hk. rewrite add_dataset_unfold. cbn zeta.
  set (d1 := mkSessionData _ _).
  set (r := build_dataset_meta did ds (get_session sid st).2).
  set (st2 := set_sessions_cache _ r.2).
  destruct (add_dataset_before_touch sid did ds st (<[sid := d1]> (sessions_cache r.2)))
    as (Hd & Hl & Hm).
  fold r st2 in Hd, Hl, Hm.
  destruct (save_session_data_memory sid d1 st2) as (Hd' & Hl' & Hm' & _).
  apply touch_session_saved.
  - rewrite (meta_path_dir st2 _ Hd'), Hl', (meta_path_dir st st2 Hd), Hl. done.
  - unfold Expected.known_session, list_sessions in *. by rewrite Hm', Hm.
Qed.

Lemma add_history_saved sid item now st :
  sessions_meta_path st ∉ locked st → Expected.known_session st sid →
  index_saved (add_history sid item now st).
Proof.
  intros Hlk Hk. rewrite add_history_unfold. cbn zeta.
  set (d1 := mkSessionData _ _).
  set (r := externalize_item item (get_session sid st).2).
  set (st2 := set_sessions_cache _ r.2).
  destruct (add_history_before_touch sid item st (<[sid := d1]> (sessions_cache r.2)))
    as (Hd & Hl & Hm).
  fold r st2 in Hd, Hl, Hm.
  destruct (save_session_data_memory sid d1 st2) as (Hd' & Hl' & Hm' & _).
  apply touch_session_saved.
  - rewrite (meta_path_dir st2 _ Hd'), Hl', (meta_path_dir st st2 Hd), Hl. done.
  - unfold Expected.known_session, list_sessions in *. by rewrite Hm', Hm.
Qed.

(** The session index survives a restart.  When the index file can be
    written and the id does not make the body file coincide with it, a
    service restarted after [create_session] or [delete_session] lists the
    sessions the old one listed; so does one restarted after
    [rename_session], [add_dataset] or [add_history] on a listed session. *)
Theorem session_index_survives_restart (sid : string) (st : state) :
  sessions_meta_path st ∉ locked st →
  _get_session_path st sid ≠ sessions_meta_path st →
  (∀ name now, list_sessions (restart (create_session name sid now st).2)
               = list_sessions (create_session name sid now st).2) ∧
  list_sessions (restart (delete_session sid st).2) = list_sessions (delete_session sid st).2 ∧
  (Expected.known_session st sid →
     (∀ new_name now, list_sessions (restart (rename_session sid new_name now st).2)
                      = list_sessions (rename_session sid new_name now st).2) ∧
     (∀ did ds now, list_sessions (restart (add_dataset sid did ds now st))
                    = list_sessions (add_dataset sid did ds now st)) ∧
     (∀ item now, list_sessions (restart (add_history sid item now st))
                  = list_sessions (add_history sid item now st))).
Proof.
  intros Hlk Hne. split; [|split].
  - intros name now. by apply restart_index, create_session_saved.
  - by apply restart_index, delete_session_saved.
  - intros Hk. repeat split; intros.
    + by apply restart_index, rename_session_saved.
    + by apply restart_index, add_dataset_saved.
    + by apply restart_index, add_history_saved.
Qed.

Lemma restart_body sid st :
  body_saved sid st →
  (get_datasets sid (restart st)).1 = (get_datasets sid st).1 ∧
  (get_history sid (restart st)).1 = (get_history sid st).1.
Proof.
  intros (d & Hc & Hf).
  assert ((get_session sid (restart st)).1 = d) as Hr.
  { unfold get_session.
    change (sessions_cache (restart st)) with (∅ : gmap string session_data).
    rewrite lookup_empty. cbn [fst].
    change (_load_session_data (restart st) sid) with (_load_session_data st sid).
    unfold _load_session_data. by rewrite Hf. }
  assert ((get_session sid st).1 = d) as Hs.
  { unfold get_session. by rewrite Hc. }
  unfold get_datasets, get_history.
  destruct (get_session sid (restart st)) as [d1 s1].
  destruct (get_session sid st) as [d2 s2]. cbn in *. by subst.
Qed.

Lemma save_session_data_written sid d st :
  _get_session_path st sid ∉ locked st →
  files (_save_session_data sid d st) !! _get_session_path st sid = Some (BodyDoc d).
Proof.
  intros Hlk. unfold _save_session_data, write_file. rewrite decide_False by done.
  cbn. by rewrite lookup_insert_eq.
Qed.

Lemma touched_body_saved sid now d st :
  _get_session_path st sid ∉ locked st → _get_session_path st sid ≠ sessions_meta_path st →
  sessions_cache st !! sid = Some d →
  body_saved sid (touch_session sid now (_save_session_data sid d st)).
Proof.
  intros Hlk Hne Hc. exists d.
  destruct (save_session_data_memory sid d st) as (Hd1 & _ & _ & Hc1 & _).
  destruct (touch_session_fields sid now (_save_session_data sid d st)) as (Hd2 & _ & Hc2 & _).
  split; [by rewrite Hc2, Hc1|].
  rewrite (session_path_dir (_save_session_data sid d st) _ sid Hd2).
  rewrite (session_path_dir st _ sid Hd1).
  rewrite touch_session_files by (by rewrite (meta_path_dir st _ Hd1)).
  by apply save_session_data_written.
Qed.

(** The session body survives a restart.  When the body file can be written
    (and is not the index file), a service restarted after [add_dataset] or
    [add_history] serves, for that session, the datasets and the history the
    old one served. *)
Theorem session_body_survives_restart (sid : string) (st : state) :
  _get_session_path st sid ∉ locked st →
  _get_session_path st sid ≠ sessions_meta_path st →
  (∀ did ds now,
     (get_datasets sid (restart (add_dataset sid did ds now st))).1
     = (get_datasets sid (add_dataset sid did ds now st)).1 ∧
     (get_history sid (restart (add_dataset sid did ds now st))).1
     = (get_history sid (add_dataset sid did ds now st)).1) ∧
  (∀ item now,
     (get_datasets sid (restart (add_history sid item now st))).1
     = (get_datasets sid (add_history sid item now st)).1 ∧
     (get_history sid (restart (add_history sid item now st))).1
     = (get_history sid (add_history sid item now st)).1).
Proof.
  intros Hlk Hne. split.
  - intros did ds now. apply restart_body.
    rewrite add_dataset_unfold. cbn zeta.
    set (d1 := mkSessionData _ _).
    set (r := build_dataset_meta did ds (get_session sid st).2).
    set (st2 := set_sessions_cache _ r.2).
    destruct (add_dataset_before_touch sid did ds st (<[sid := d1]> (sessions_cache r.2)))
      as (Hd & Hl & _).
    fold r st2 in Hd, Hl.
    apply touched_body_saved.
    + by rewrite (session_path_dir st st2 sid Hd), Hl.
    + by rewrite (session_path_dir st st2 sid Hd), (meta_path_dir st st2 Hd).
    + subst st2. cbn. by rewrite lookup_insert_eq.
  - intros item now. apply restart_body.
    rewrite add_history_unfold. cbn zeta.
    set (d1 := mkSessionData _ _).
    set (r := externalize_item item (get_session sid st).2).
    set (st2 := set_sessions_cache _ r.2).
    destruct (add_history_before_touch sid item st (<[sid := d1]> (sessions_cache r.2)))
      as (Hd & Hl & _).
    fold r st2 in Hd, Hl.
    apply touched_body_saved.
    + by rewrite (session_path_dir st st2 sid Hd), Hl.
    + by rewrite (session_path_dir st st2 sid Hd), (meta_path_dir st st2 Hd).
    + subst st2. cbn. by rewrite lookup_insert_eq.
Qed.

(** No update refreshes the dataset cache.  A payload that has been served
    for a pair keeps being served for it after [add_dataset] has recorded
    another dataset under the same id, after [add_history], and after
    [rename_session]. *)
Theorem updates_keep_cached_payload
    (sid did : string) (st st1 : state) (data : table) :
  get_dataset_data sid did st = (Some data, st1) →
  (∀ ds now, (get_dataset_data sid did (add_dataset sid did ds now st1)).1 = Some data) ∧
  (∀ item now, (get_dataset_data sid did (add_history sid item now st1)).1 = Some data) ∧
  (∀ new_name now, (get_dataset_data sid did (rename_session sid new_name now st1).2).1
                   = Some data).
Proof.
  intros Hget. pose proof (get_dataset_data_cached sid did st data st1 Hget) as Hc.
  repeat split; intros.
  - destruct (add_dataset_spec sid did ds now st1) as (_ & _ & Hdc & _).
    rewrite (get_dataset_data_hit sid did _ data); [done|]. by rewrite Hdc.
  - destruct (add_history_spec sid item now st1) as (_ & _ & Hdc & _).
    rewrite (get_dataset_data_hit sid did _ data); [done|]. by rewrite Hdc.
  - rewrite (get_dataset_data_hit sid did _ data); [done|].
    unfold rename_session. destruct (update_first _ _ _); [|done]. cbn [snd].
    by destruct (save_sessions_meta_memory (set_sessions_meta l st1)) as (_ & _ & _ & _ & ->).
Qed.

#[local] Arguments String.append !_ _ / : simpl nomatch.

Lemma append_cons_inv (c : ascii) (a b a' b' : string) :
  c ∉ String.list_ascii_of_string a → c ∉ String.list_ascii_of_string a' →
  a +:+ String c b = a' +:+ String c b' → a = a' ∧ b = b'.
Proof.
  revert a'. induction a as [|x a IH]; intros [|x' a'] Ha Ha'; cbn.
  - by intros [= ->].
  - intros [= <- _]. exfalso. apply Ha'. cbn. left.
  - intros [= -> _]. exfalso. apply Ha. cbn. left.
  - intros [= -> Heq]. cbn in Ha, Ha'.
    apply not_elem_of_cons in Ha as [_ Ha]. apply not_elem_of_cons in Ha' as [_ Ha'].
    destruct (IH a' Ha Ha' Heq) as [-> ->]. done.
Qed.

Lemma cache_key_assoc (a b c : string) :
  cache_key (a +:+ "_" +:+ b) c = cache_key a (b +:+ "_" +:+ c).
Proof.
  unfold cache_key. induction a as [|x a IH]; cbn.
  - induction b as [|y b IHb]; cbn; [done|]. by f_equal.
  - by f_equal.
Qed.

(** The key of the dataset cache joins the two ids with an underscore.  It
    tells two pairs apart when the session ids hold no underscore; when they
    may, the pairs [(a_b, c)] and [(a, b_c)] share a key, and a payload cached
    for the first is served for the second. *)
Theorem cache_key_pairs :
  (∀ sid did sid' did',
     "_"%char ∉ String.list_ascii_of_string sid →
     "_"%char ∉ String.list_ascii_of_string sid' →
     cache_key sid did = cache_key sid' did' → sid = sid' ∧ did = did') ∧
  (∀ a b c st st1 data,
     get_dataset_data (a +:+ "_" +:+ b) c st = (Some data, st1) →
     get_dataset_data a (b +:+ "_" +:+ c) st1 = (Some data, st1)).
Proof.
  split.
  - intros sid did sid' did' Hs Hs'. unfold cache_key. cbn. by apply append_cons_inv.
  - intros a b c st st1 data Hget. apply get_dataset_data_hit. rewrite <- cache_key_assoc.
    by eapply get_dataset_data_cached.
Qed.




Lemma nodup_keys_unique {K V} (d : list (K * V)) k v1 v2 :
  NoDup d.*1 → (k, v1) ∈ d → (k, v2) ∈ d → v1 = v2.
Proof.
  induction d as [|[k0 v0] d IH]; [by intros _ ?%elem_of_nil|].
  cbn. intros Hnd. apply NoDup_cons in Hnd as [Hk0 Hnd]. intros H1 H2.
  apply elem_of_cons in H1 as [H1|H1]; apply elem_of_cons in H2 as [H2|H2]; simplify_eq.
  - done.
  - exfalso. apply Hk0. apply list_elem_of_fmap. by exists (k0, v2).
  - exfalso. apply Hk0. apply list_elem_of_fmap. by exists (k0, v1).
  - by apply IH.
Qed.






End StoreLifecycle.

(** ** The loader and the inputs of the analysis agent *)

Section Inputs.
Import Text Analysis Behaviour.
Context `{Pandas} `{!Runtime}.

Lemma from_dot_no_dot (l : list ascii) : "."%char ∉ l → DataLoader.from_dot l = [].
Proof.
  induction l as [|c l IH]; [done|]. intros Hn. apply not_elem_of_cons in Hn as [Hc Hn].
  cbn. rewrite decide_False by done. by apply IH.
Qed.

Lemma splitext_ext_no_dot (p : string) :
  "."%char ∉ DataLoader.basename_chars (DataLoader.chars p) → DataLoader.splitext_ext p = "".
Proof.
  intros Hn. unfold DataLoader.splitext_ext. rewrite from_dot_no_dot; [done|].
  intros Hin. apply Hn. apply list_elem_of_In. apply in_rev. by apply list_elem_of_In.
Qed.

(** What [load_data] refuses.  A path with no file raises [FileNotFoundError],
    whatever its extension; a file whose lowered extension is none of [.csv],
    [.xlsx], [.xls] raises [ValueError] naming that extension, and so does a
    file whose name has no dot, with an empty extension; an exception of the
    CSV reader is passed on as it is. *)
Theorem load_data_refusals (files : gmap string file) (p : string) :
  (files !! p = None →
     DataLoader.load_data files p
     = Raises (Exn "FileNotFoundError" (u "文件不存在: " ++ u p))) ∧
  (is_Some (files !! p) →
     DataLoader.lower (DataLoader.splitext_ext p) ∉ [".csv"; ".xlsx"; ".xls"] →
     DataLoader.load_data files p
     = Raises (Exn "ValueError"
                   (u "不支持的文件格式: " ++ u (DataLoader.lower (DataLoader.splitext_ext p))))) ∧
  (is_Some (files !! p) →
     "."%char ∉ DataLoader.basename_chars (DataLoader.chars p) →
     DataLoader.load_data files p = Raises (Exn "ValueError" (u "不支持的文件格式: "))) ∧
  (∀ f e, files !! p = Some f →
     DataLoader.lower (DataLoader.splitext_ext p) = ".csv" → read_csv f = Raises e →
     DataLoader.load_data files p = Raises e).
Proof.
  unfold DataLoader.load_data. repeat split.
  - by intros ->.
  - intros [f ->] Hext.
    rewrite !bool_decide_eq_false_2; [done|..]; intros Heq; apply Hext; rewrite Heq;
      repeat constructor.
  - intros [f ->] Hdot. rewrite (splitext_ext_no_dot p Hdot). done.
  - intros f e -> -> ->. done.
Qed.

Lemma process_inputs_from_ok files inputs dfs i acc names :
  Forall2 (loads_as files) inputs dfs →
  process_inputs_from files i inputs acc names
  = Returns (acc ++ dfs, names ++ imap (fun j => name_of (i + j)) inputs).
Proof.
  intros Hall. revert i acc names.
  induction Hall as [|x df inputs dfs Hx _ IH]; intros i acc names.
  { cbn. by rewrite !app_nil_r. }
  assert (imap (fun j => name_of (i + j)) (x :: inputs)
          = name_of i x :: imap (fun j => name_of (S i + j)) inputs) as ->.
  { cbn [imap]. rewrite Nat.add_0_r. f_equal. apply imap_ext. intros j y _. cbn.
    f_equal. lia. }
  destruct x as [d|p|t]; cbn in Hx; [subst d| |done]; cbn [process_inputs_from].
  - rewrite IH. by rewrite <- !app_assoc.
  - rewrite Hx, IH. by rewrite <- !app_assoc.
Qed.

Lemma process_inputs_from_other files pre dfs t post i acc names :
  Forall2 (loads_as files) pre dfs →
  process_inputs_from files i (pre ++ InOther t :: post) acc names
  = Raises (Exn "TypeError" (u "不支持的输入类型: " ++ u t)).
Proof.
  intros Hall. revert i acc names.
  induction Hall as [|x df pre dfs Hx _ IH]; intros i acc names; [done|].
  destruct x as [d|p|t']; cbn in Hx; [| |done]; cbn [app process_inputs_from].
  - apply IH.
  - rewrite Hx. apply IH.
Qed.

Lemma process_inputs_from_unloadable files pre dfs p e post i acc names :
  Forall2 (loads_as files) pre dfs →
  DataLoader.load_data files p = Raises e →
  process_inputs_from files i (pre ++ InPath p :: post) acc names
  = Raises (Exn "ValueError" (u "无法从路径加载数据: " ++ u p ++ u ", 错误: " ++ exn_msg e)).
Proof.
  intros Hall He. revert i acc names.
  induction Hall as [|x df pre dfs Hx _ IH]; intros i acc names.
  { cbn. by rewrite He. }
  destruct x as [d|p'|t']; cbn in Hx; [| |done]; cbn [app process_inputs_from].
  - apply IH.
  - rewrite Hx. apply IH.
Qed.

(** When every input is a frame or a path that loads, [_process_inputs]
    returns the frames in the order of the inputs, and names them by their
    place among the inputs: a path by the stem of its file name, a frame by
    [df_] and its index in the list of inputs. *)
Theorem process_inputs_result (files : gmap string file) (inputs : list input_obj)
    (dfs : list frame) :
  inputs ≠ [] → Forall2 (loads_as files) inputs dfs →
  _process_inputs files inputs = Returns (dfs, imap name_of inputs).
Proof.
  intros Hne Hall. unfold _process_inputs.
  rewrite (process_inputs_from_ok files inputs dfs 0 [] [] Hall). cbn [app].
  destruct Hall; [done|]. done.
Qed.

(** What [_process_inputs] refuses, and when.  An empty list raises
    [ValueError]; the first input that is neither a frame nor a string raises
    [TypeError]; the first path that does not load raises [ValueError] with
    the path and the loader's message, the class of the loader's exception
    being lost.  [execute] processes its inputs first: when this raises, it
    raises the same whatever the model would reply, keeps the code it had
    extracted before and creates no temporary file. *)
Theorem process_inputs_refusals (files : gmap string file) :
  _process_inputs files [] = Raises (Exn "ValueError" (u "没有有效的输入数据")) ∧
  (∀ pre dfs t post, Forall2 (loads_as files) pre dfs →
     _process_inputs files (pre ++ InOther t :: post)
     = Raises (Exn "TypeError" (u "不支持的输入类型: " ++ u t))) ∧
  (∀ pre dfs p e post, Forall2 (loads_as files) pre dfs →
     DataLoader.load_data files p = Raises e →
     _process_inputs files (pre ++ InPath p :: post)
     = Raises (Exn "ValueError"
                   (u "无法从路径加载数据: " ++ u p ++ u ", 错误: " ++ exn_msg e))) ∧
  (∀ inputs e completion temp_module_path self tmp,
     _process_inputs files inputs = Raises e →
     execute files inputs completion temp_module_path self tmp = (Raises e, self, tmp)).
Proof.
  split; [done|]. split; [|split].
  - intros pre dfs t post Hall. unfold _process_inputs.
    by rewrite (process_inputs_from_other files pre dfs t post 0 [] [] Hall).
  - intros pre dfs p e post Hall He. unfold _process_inputs.
    by rewrite (process_inputs_from_unloadable files pre dfs p e post 0 [] [] Hall He).
  - intros inputs e completion p self tmp He. unfold execute. by rewrite He.
Qed.

Lemma dict_set_str_fresh {V} (k : str) (v : V) (d : list (str * V)) :
  k ∉ d.*1 → dict_set_str k v d = d ++ [(k, v)].
Proof.
  induction d as [|[k' v'] d IH]; [done|]. cbn. intros Hn.
  apply not_elem_of_cons in Hn as [Hk Hn]. rewrite decide_False by done.
  by rewrite IH.
Qed.

Lemma check_items_frames (tables : list (str * frame)) (acc : list (str * table)) :
  NoDup (acc.*1 ++ tables.*1) →
  check_items (prod_map id VFrame <$> tables) acc
  = Returns (acc ++ (prod_map id frame_to_dict <$> tables)).
Proof.
  revert acc. induction tables as [|[k df] tables IH]; intros acc Hnd.
  { cbn. by rewrite app_nil_r. }
  cbn [fmap list_fmap prod_map fst snd id check_items].
  rewrite dict_set_str_fresh.
  - rewrite IH; [by rewrite <- app_assoc|].
    rewrite fmap_app. cbn. rewrite <- app_assoc. exact Hnd.
  - cbn in Hnd. apply NoDup_app in Hnd as (_ & Hdisj & _).
    intros Hin. apply (Hdisj k Hin). left.
Qed.

(** A run that goes well.  When the inputs are accepted, the extracted code
    loads, and [analyze_data] returns a dict of frames, [execute] returns the
    dict of their [to_dict(orient='list')] tables under the same keys, keeps
    the extracted code in [generated_code] and removes the temporary module
    file. *)
Theorem execute_returns_tables
    (files : gmap string file) (inputs : list input_obj) (raw : str)
    (temp_module_path : string) (self : agent) (tmp tmp1 tmp2 : gset string)
    (dfs : list frame) (df_names : list string) (m : module)
    (tables : list (str * frame)) :
  _process_inputs files inputs = Returns (dfs, df_names) →
  exec_module (_extract_code_from_response raw) ({[temp_module_path]} ∪ tmp)
  = (Returns m, tmp1) →
  call_analyze_data m dfs tmp1 = (Returns (RDict (prod_map id VFrame <$> tables)), tmp2) →
  NoDup tables.*1 → temp_module_path ∈ tmp2 →
  execute files inputs (Returns raw) temp_module_path self tmp
  = (Returns (prod_map id frame_to_dict <$> tables),
     mkAgent (_extract_code_from_response raw), tmp2 ∖ {[temp_module_path]}).
Proof.
  intros Hin Hexec Hcall Hnd Htmp. unfold execute. rewrite Hin. cbn [generated_code].
  unfold run_generated. rewrite Hexec, Hcall. cbn [check_result].
  rewrite (check_items_frames tables []) by done. cbn [app].
  unfold finally_unlink. by rewrite decide_True.
Qed.

(** When the generated code has removed the temporary module file itself,
    the [os.unlink] of the [finally] clause raises, and its
    [FileNotFoundError] is what [execute] raises: it replaces the result of a
    run that went well as it replaces the exception of one that did not. *)
Theorem execute_lost_temp_file
    (files : gmap string file) (inputs : list input_obj) (raw : str)
    (temp_module_path : string) (self : agent) (tmp : gset string)
    (dfs : list frame) (df_names : list string) :
  _process_inputs files inputs = Returns (dfs, df_names) →
  temp_module_path ∉
    (run_generated (_extract_code_from_response raw) dfs ({[temp_module_path]} ∪ tmp)).2 →
  ∃ e, (execute files inputs (Returns raw) temp_module_path self tmp).1.1 = Raises e ∧
       exn_class e = "FileNotFoundError".
Proof.
  intros Hin Hgone. unfold execute. rewrite Hin. cbn [generated_code].
  destruct (run_generated _ dfs _) as [out tmp']. cbn [snd] in Hgone.
  unfold finally_unlink. rewrite decide_False by done. by eexists.
Qed.

End Inputs.

(** ** The router on replies that are not a JSON object *)

Section Replies.
Import Text Intent Behaviour.
Context `{Json}.
Variable lower : str → str.

Lemma existsb_is_str k (l : list json) : JStr k ∈ l → existsb (Py.is_str k) l = true.
Proof.
  intros Hin. apply existsb_exists. exists (JStr k). split; [by apply list_elem_of_In|].
  cbn. by apply bool_decide_eq_true_2.
Qed.

Lemma contains_nonempty (k s : str) : k ≠ [] → contains k s = true → s ≠ [].
Proof. intros Hk Hc ->. destruct k as [|c k]; [done|]. by vm_compute in Hc. Qed.

(** Where the router raises.  An exception of the model call is raised as it
    is: the keyword scorer is not tried.  And a reply that parses to a JSON
    value other than an object can make [execute] raise [TypeError]: [true]
    or a non-zero number (the test [in] fails on it), a string containing
    [agent_type] or a list holding that string (the test passes and the
    assignment of [user_prompt] fails). *)
Theorem execute_raises_on_non_dict_reply (raw prompt : str) :
  (∀ e, execute lower (Raises e) prompt = Raises e) ∧
  (passes_for_dict (_extract_json_from_response raw) →
     ∃ e, execute lower (Returns raw) prompt = Raises e ∧ exn_class e = "TypeError").
Proof.
  split; [done|]. unfold execute.
  intros [-> | [(q & -> & Hq) | [(s & -> & Hs) | (l & -> & Hl)]]].
  - cbn. by eexists.
  - cbn. rewrite Hq. cbn. by eexists.
  - assert (s ≠ []) as Hne
      by (apply (contains_nonempty (u "agent_type")); [by vm_compute|done]).
    unfold Py.truthy, Py.contains_key. rewrite (bool_decide_eq_false_2 (s = [])) by done.
    cbn [negb]. rewrite Hs. cbn [negb]. unfold Py.set_item. by eexists.
  - cbn [Py.truthy]. destruct l as [|x l]; [by apply elem_of_nil in Hl|].
    cbn [negb Py.contains_key]. rewrite (existsb_is_str _ _ Hl). cbn. by eexists.
Qed.

Lemma match_brace_other (c : N) (s : str) : c ≠ 123%N → match_brace (c :: s) = None.
Proof. intros Hc. cbn. by rewrite (proj2 (N.eqb_neq c 123) Hc). Qed.

Lemma scan_brace_skip (pre s : str) :
  Forall (fun c => c ≠ 123%N) pre → scan match_brace 0 (pre ++ s) = scan match_brace 0 s.
Proof.
  induction 1 as [|c pre Hc _ IH]; [done|]. cbn [app scan].
  by rewrite match_brace_other.
Qed.

Lemma lazy_until_brace_body (body s : str) :
  Forall (fun c => c ≠ 125%N) body →
  lazy_until_brace (body ++ 125%N :: s) = Some (S (length body)).
Proof.
  induction 1 as [|c body Hc _ IH]; [done|]. cbn [app lazy_until_brace length].
  rewrite (proj2 (N.eqb_neq c 125) Hc), IH. done.
Qed.

Lemma findall_brace_first (pre body s : str) :
  Forall (fun c => c ≠ 123%N) pre → Forall (fun c => c ≠ 125%N) body →
  ∃ more, findall match_brace (pre ++ 123%N :: body ++ 125%N :: s)
          = (123%N :: body ++ [125%N]) :: more.
Proof.
  intros Hpre Hbody. unfold findall. rewrite scan_brace_skip by done.
  cbn [scan]. unfold match_brace. rewrite N.eqb_refl.
  rewrite lazy_until_brace_body by done. cbn [mbind option_bind].
  eexists. f_equal.
  change (123%N :: body ++ 125%N :: s) with ([123%N] ++ body ++ 125%N :: s).
  replace ([123%N] ++ body ++ 125%N :: s) with (([123%N] ++ body ++ [125%N]) ++ s)
    by (by rewrite <- !app_assoc).
  rewrite take_app_length'; [done|]. rewrite !length_app. cbn. lia.
Qed.

(** JSON inside prose.  When the reply as a whole is no JSON text: a fenced
    block that follows text free of backquotes is the candidate, and what it
    parses to is the result; and in a reply without backquotes the candidate
    is the text from the first opening brace to the first closing brace after
    it, so that an object holding another object is cut at the inner closing
    brace, and the result is the empty dict when that piece does not
    parse. *)
Theorem extract_json_from_prose :
  (∀ pre ws1 b ws2 rest v,
     let reply := pre ++ fence ++ u "json" ++ ws1 ++ b ++ ws2 ++ fence ++ rest in
     loads reply = None →
     Expected.no_backquote pre → Expected.blank ws1 → Expected.blank ws2 →
     Expected.code_block b → loads b = Some v →
     _extract_json_from_response reply = v) ∧
  (∀ pre body rest,
     let reply := pre ++ 123%N :: body ++ 125%N :: rest in
     loads reply = None → Expected.no_backquote reply →
     Forall (fun c => c ≠ 123%N) pre → Forall (fun c => c ≠ 125%N) body →
     _extract_json_from_response reply
     = default (JDict []) (loads (123%N :: body ++ [125%N]))).
Proof.
  split.
  - intros pre ws1 b ws2 rest v reply Hwhole Hpre Hws1 Hws2
      (Htick & (c0 & b0 & Hb0 & Hc0) & (p & c & Hb & Hc)) Hv.
    unfold _extract_json_from_response. rewrite Hwhole. unfold findall, reply.
    rewrite (scan_fenced_block (u "json") pre ws1 p c0 c b b0 ws2 rest) by done.
    by rewrite Hv.
  - intros pre body rest reply Hwhole Htick Hpre Hbody.
    unfold _extract_json_from_response. rewrite Hwhole.
    unfold findall at 1. rewrite (scan_no_backquote_nil (u "json") reply Htick).
    destruct (findall_brace_first pre body rest Hpre Hbody) as [more Hfirst].
    fold reply in Hfirst. rewrite Hfirst.
    by destruct (loads _).
Qed.

Local Open Scope Q_scope.

(** A prompt that matches keywords of one category only is given that
    category, with the number of its keywords matched over the size of its
    keyword set as confidence. *)
Theorem rule_based_single_category (prompt cat : str) (info : agent_info) :
  (cat, info) ∈ AGENT_TYPES →
  hits lower (lower prompt) info ≠ 0%nat →
  (∀ cat' info', (cat', info') ∈ AGENT_TYPES → cat' ≠ cat →
                 hits lower (lower prompt) info' = 0%nat) →
  _rule_based_intent_recognition lower prompt
  = [(u "agent_type", JStr cat);
     (u "confidence",
      JNum (Z.of_nat (hits lower (lower prompt) info) # Pos.of_nat (length (keywords info))));
     (u "explanation", JStr (u "根据关键词匹配，识别为" ++ name info))].
Proof.
  intros Hin Hhit Hothers.
  destruct (rule_based_spec lower AGENT_TYPES prompt agent_types_distinct) as [_ Hsome].
  destruct Hsome as (pre & cat0 & info0 & post & Htypes & Hrb & Hhit0 & _).
  { apply Exists_exists. by exists (cat, info). }
  assert ((cat0, info0) ∈ AGENT_TYPES) as Hin0.
  { rewrite Htypes. apply elem_of_app. right. left. }
  assert (cat0 = cat) as ->.
  { destruct (decide (cat0 = cat)) as [|Hne]; [done|].
    exfalso. by apply Hhit0, (Hothers cat0 info0). }
  assert (info0 = info) as ->
    by exact (nodup_keys_unique _ _ _ _ agent_types_distinct Hin0 Hin).
  unfold _rule_based_intent_recognition. rewrite Hrb.
  by rewrite (normalize_hits lower _ _ Hhit).
Qed.

End Replies.

(** ** The endpoints *)

Section Endpoints.
Import Text Store Behaviour.
Context `{Pandas} `{Imports} `{Json}.
Variable head_records : frame → preview.
Variable open_error : string → exn.
Variable DataFrame_error : payload → exn.
Variable lower : str → str.

(** The answers of the two session endpoints.  [DELETE] answers success for
    every id, listed or not: its 404 is never raised.  [PUT] answers 400
    without a name, 404 for an id the index does not list (and then changes
    nothing), success for a listed one. *)
Theorem session_endpoints_status (sid : string) (st : state) :
  (Api.delete_session sid st).1 = Api.Ok true ∧
  (∀ request now, request !! "name" = None →
     Api.rename_session sid request now st
     = (Api.HTTPException 400 (u "缺少会话名称"), st)) ∧
  (∀ request name now, request !! "name" = Some name →
     (Expected.known_session st sid →
        (Api.rename_session sid request now st).1 = Api.Ok true) ∧
     (¬ Expected.known_session st sid →
        Api.rename_session sid request now st
        = (Api.HTTPException 404 (u "会话不存在"), st))).
Proof.
  split; [|split].
  - unfold Api.delete_session. rewrite delete_session_unfold. done.
  - intros request now Hname. unfold Api.rename_session. by rewrite Hname.
  - intros request name now Hname. unfold Api.rename_session. rewrite Hname.
    unfold rename_session. split.
    + intros Hk.
      destruct (update_first_known sid
                  (fun s => mkSessionMeta (sm_id s) name (sm_created_at s) now)
                  (sessions_meta st) Hk) as (pre & m & post & _ & _ & _ & ->).
      done.
    + intros Hk. rewrite update_first_absent by done. done.
Qed.




Lemma gather_inputs_unrecorded files datasets selected inputs :
  Forall (fun dataset_id => datasets !! dataset_id = None) selected →
  Api.gather_inputs DataFrame_error files datasets selected inputs = Returns inputs.
Proof.
  induction 1 as [|did selected Hd _ IH]; [done|]. cbn. by rewrite Hd.
Qed.


Lemma get_history_get_datasets sid st :
  (get_history sid (get_datasets sid st).2).1 = (get_history sid st).1.
Proof.
  unfold get_history, get_datasets.
  pose proof (get_session_fields sid st) as Hget.
  destruct (get_session sid st) as [d st1] eqn:E.
  destruct Hget as (_ & _ & _ & _ & _ & Hc & _).
  cbn [fst snd]. unfold get_session. by rewrite Hc.
Qed.

(** How an analysis request fares before the dispatch.  Without a session id
    or a prompt it is answered 400 and nothing changes.  When none of the
    selected ids is recorded in the session (an empty selection included) it
    is answered 400, and neither the history nor the index changes.  When
    inputs were gathered and the intent agent raises, the exception is not
    caught and the history is as before; when it returns, the user's message
    has been appended to the history before any agent is dispatched to. *)
Theorem analyze_data_intent_outcomes
    (request : Api.analyze_request) (intent_completion : outcome str)
    (message_id now : string) (st : state) :
  let run := Api.analyze_data_intent DataFrame_error lower request intent_completion
               message_id now st in
  (Api.missing (Api.rq_session_id request) = true ∨ Api.missing (Api.rq_prompt request) = true →
     run = (Api.HTTPException 400 (u "缺少必要参数"), st)) ∧
  (∀ sid prompt,
     Api.rq_session_id request = Some sid → sid ≠ "" →
     Api.rq_prompt request = Some prompt → prompt ≠ "" →
     (Forall (fun did => (get_datasets sid st).1 !! did = None)
             (Api.rq_selected_datasets request) →
        run.1 = Api.HTTPException 400 (u "未选择有效的数据集") ∧
        (get_history sid run.2).1 = (get_history sid st).1 ∧
        list_sessions run.2 = list_sessions st) ∧
     (∀ df dfs,
        Api.gather_inputs DataFrame_error (files st) (get_datasets sid st).1
          (Api.rq_selected_datasets request) [] = Returns (df :: dfs) →
        (∀ e, Intent.execute lower intent_completion (u prompt) = Raises e →
           run.1 = Api.Unhandled e ∧ (get_history sid run.2).1 = (get_history sid st).1) ∧
        (∀ intent_result,
           Intent.execute lower intent_completion (u prompt) = Returns intent_result →
           run.1 = Api.Ok (df :: dfs, intent_result) ∧
           (get_history sid run.2).1
           = (get_history sid st).1
             ++ [mkHistoryItem message_id "user" prompt None None None]))).
Proof.
  intros run. subst run. unfold Api.analyze_data_intent. split.
  - intros Hmiss.
    assert (Api.missing (Api.rq_session_id request) || Api.missing (Api.rq_prompt request)
            = true) as ->; [|done].
    destruct Hmiss as [-> | ->]; [done|apply orb_true_r].
  - intros sid prompt Hsid Hsne Hprompt Hpne. rewrite Hsid, Hprompt.
    cbn [Api.missing default]. unfold id. rewrite !bool_decide_eq_false_2 by done. cbn [orb].
    pose proof (get_history_get_datasets sid st) as Hhist.
    assert (files (get_datasets sid st).2 = files st ∧
            list_sessions (get_datasets sid st).2 = list_sessions st) as (Hf & Hl).
    { unfold get_datasets, list_sessions. pose proof (get_session_fields sid st) as Hget.
      destruct (get_session sid st) as [d st1]. cbn [snd].
      by destruct Hget as (_ & -> & _ & -> & _). }
    destruct (get_datasets sid st) as [datasets st1]. cbn [fst snd] in *.
    cbv beta iota zeta. rewrite Hf.
    split.
    + intros Hnone. rewrite gather_inputs_unrecorded by done. done.
    + intros df dfs ->. split.
      * intros e ->. done.
      * intros intent_result ->. cbn [fst snd]. split; [done|].
        destruct (add_history_spec sid
                    (mkHistoryItem message_id "user" prompt None None None) now st1)
          as (_ & _ & _ & Hc & _).
        rewrite (get_history_cached _ _ _ Hc). cbn [fst sd_history].
        unfold externalize_item. cbn [hi_datasets fst].
        rewrite <- Hhist. unfold get_history. by destruct (get_session sid st1).
Qed.

End Endpoints.

(** ** The same properties on the scenario *)


Lemma delete_session_forgets_body_witness :
  (Store.get_datasets "s1" (Store.delete_session "s1" Scenario.added).2).1 = ∅ ∧
  (Store.get_history "s1" (Store.delete_session "s1" Scenario.added).2).1 = [].
Proof.
  apply (delete_session_forgets_body "s1" Scenario.added). apply not_elem_of_empty.
Defined.

Lemma session_index_survives_restart_witness :
  Store.list_sessions
    (Behaviour.restart
       (Store.rename_session "s1" "sales review" Scenario.now Scenario.added).2)
  = Store.list_sessions
      (Store.rename_session "s1" "sales review" Scenario.now Scenario.added).2.
Proof.
  refine (proj1 (proj2 (proj2 (session_index_survives_restart "s1" Scenario.added _ _)) _)
            "sales review" Scenario.now).
  - apply not_elem_of_empty.
  - vm_compute. discriminate.
  - vm_compute. left.
Defined.

Lemma session_body_survives_restart_witness :
  (Store.get_datasets "s1" (Behaviour.restart Scenario.added)).1
  = (Store.get_datasets "s1" Scenario.added).1 ∧
  (Store.get_history "s1" (Behaviour.restart Scenario.added)).1
  = (Store.get_history "s1" Scenario.added).1.
Proof.
  refine (proj1 (session_body_survives_restart "s1" Scenario.created _ _)
            "d1" Scenario.sales_ds Scenario.now).
  - apply not_elem_of_empty.
  - vm_compute. discriminate.
Defined.

(** The scenario's dataset is served, and then replaced under its id by the
    uploaded file: the table served first is served again. *)
Lemma updates_keep_cached_payload_witness :
  (Store.get_dataset_data "s1" "d1"
     (Store.add_dataset "s1" "d1" Scenario.uploaded_ds Scenario.now
        (Store.get_dataset_data "s1" "d1" Scenario.added).2)).1
  = Some [("region", [Str "north"; Str "south"]); ("amount", [Num 10; Null])].
Proof.
  refine (proj1 (updates_keep_cached_payload "s1" "d1" Scenario.added
                   (Store.get_dataset_data "s1" "d1" Scenario.added).2
                   [("region", [Str "north"; Str "south"]); ("amount", [Num 10; Null])] _)
            Scenario.uploaded_ds Scenario.now).
  vm_compute. reflexivity.
Defined.

(** The pair [(a_b, c)] is served, and with it the pair [(a, b_c)], which no
    session records. *)
Lemma cache_key_pairs_witness :
  (Store.get_dataset_data "a" "b_c"
     (Store.get_dataset_data "a_b" "c" Scenario.underscored).2).1
  = Some [("region", [Str "north"; Str "south"]); ("amount", [Num 10; Null])].
Proof.
  rewrite (proj2 cache_key_pairs "a" "b" "c" Scenario.underscored
             (Store.get_dataset_data "a_b" "c" Scenario.underscored).2
             [("region", [Str "north"; Str "south"]); ("amount", [Num 10; Null])]).
  - reflexivity.
  - vm_compute. reflexivity.
Defined.


(** A frame and the uploaded file: the frame is [df_0], the file goes by its
    stem, and its missing amount is filled in. *)
Lemma process_inputs_result_witness :
  Analysis._process_inputs (Store.files Scenario.with_upload)
    [Analysis.InFrame Scenario.sales_frame; Analysis.InPath "static/uploads/ab12.CSV"]
  = Returns ([Scenario.sales_frame;
              [("region", [Str "north"; Str "south"]); ("amount", [Num 10; Num 0])]],
             ["df_0"; "ab12"]).
Proof.
  apply (process_inputs_result (Store.files Scenario.with_upload)
           [Analysis.InFrame Scenario.sales_frame; Analysis.InPath "static/uploads/ab12.CSV"]).
  - discriminate.
  - constructor; [reflexivity|]. constructor; [|constructor].
    vm_compute. reflexivity.
Defined.

(** The reply of the scenario whose function hands its first table back, on
    a runtime that knows that program. *)
Lemma execute_returns_tables_witness :
  (Analysis.execute (H0 := RefRuntime.echo_runtime) ∅ [Analysis.InFrame Scenario.sales_frame]
     (Returns Scenario.first_reply) "/tmp/tmpk3v9.py" (Analysis.mkAgent []) ∅).1
  = (Returns [(Text.u "first", Scenario.sales)], Analysis.mkAgent Scenario.first_block).
Proof.
  rewrite (execute_returns_tables (H0 := RefRuntime.echo_runtime) ∅
             [Analysis.InFrame Scenario.sales_frame] Scenario.first_reply
             "/tmp/tmpk3v9.py" (Analysis.mkAgent []) ∅ {["/tmp/tmpk3v9.py"]} {["/tmp/tmpk3v9.py"]}
             [Scenario.sales_frame] ["df_0"]
             (Analysis._extract_code_from_response Scenario.first_reply)
             [(Text.u "first", Scenario.sales_frame)]).
  - vm_compute. reflexivity.
  - reflexivity.
  - vm_compute. reflexivity.
  - vm_compute. reflexivity.
  - apply NoDup_singleton.
  - by apply elem_of_singleton.
Defined.

Lemma execute_lost_temp_file_witness :
  ∃ e, (Analysis.execute (H0 := RefRuntime.sweeping_runtime) ∅
          [Analysis.InFrame Scenario.sales_frame] (Returns Scenario.two_block_reply)
          "/tmp/tmpk3v9.py" (Analysis.mkAgent []) ∅).1.1 = Raises e ∧
       exn_class e = "FileNotFoundError".
Proof.
  apply (execute_lost_temp_file (H0 := RefRuntime.sweeping_runtime) ∅
           [Analysis.InFrame Scenario.sales_frame] Scenario.two_block_reply
           "/tmp/tmpk3v9.py" (Analysis.mkAgent []) ∅ [Scenario.sales_frame] ["df_0"]).
  - reflexivity.
  - apply not_elem_of_empty.
Defined.

(** The model answers [42]. *)
Lemma execute_raises_on_non_dict_reply_witness :
  ∃ e, Intent.execute RefJson.ascii_lower (Returns Scenario.number_reply)
         (Text.u "average of amount") = Raises e ∧
       exn_class e = "TypeError".
Proof.
  apply (proj2 (execute_raises_on_non_dict_reply RefJson.ascii_lower Scenario.number_reply
                  (Text.u "average of amount"))).
  right. left. exists (42 # 1)%Q. split; vm_compute; reflexivity.
Defined.

(** The object of the scenario's reply holds another object: the piece tried
    ends at the inner closing brace, and nothing is extracted. *)
Lemma extract_json_from_prose_witness :
  Intent._extract_json_from_response Scenario.nested_reply = JDict [].
Proof.
  etrans.
  - apply (proj2 extract_json_from_prose (Text.u "Result: ") Scenario.nested_body
             (Text.u "} done")).
    + vm_compute. reflexivity.
    + apply (bool_decide_unpack _). vm_compute. exact I.
    + apply (bool_decide_unpack _). vm_compute. exact I.
    + apply (bool_decide_unpack _). vm_compute. exact I.
  - vm_compute. reflexivity.
Defined.

(** Two keywords of the visualization set and no other: two out of ten. *)
Lemma rule_based_single_category_witness :
  Intent._rule_based_intent_recognition RefJson.ascii_lower (Text.u "绘制图表")
  = [(Text.u "agent_type", JStr (Text.u "data_visualization"));
     (Text.u "confidence", JNum (2 # 10));
     (Text.u "explanation", JStr (Text.u "根据关键词匹配，识别为数据可视化代理"))].
Proof.
  etrans.
  - apply (rule_based_single_category RefJson.ascii_lower (Text.u "绘制图表")
             (Text.u "data_visualization") Intent.data_visualization).
    + unfold Intent.AGENT_TYPES. apply list_elem_of_further, list_elem_of_here.
    + vm_compute. discriminate.
    + intros cat' info' Hin Hne. unfold Intent.AGENT_TYPES in Hin.
      repeat (apply elem_of_cons in Hin as [Hin|Hin];
              [injection Hin as -> ->; first [done | vm_compute; reflexivity]|]).
      by apply elem_of_nil in Hin.
  - vm_compute. reflexivity.
Defined.

(** An id that was never created: renaming it is refused, deleting it is
    answered as done. *)
Lemma session_endpoints_status_witness :
  Api.rename_session "never-created" {["name" := "plans"]} Scenario.now Scenario.added
  = (Api.HTTPException 404 (Text.u "会话不存在"), Scenario.added) ∧
  (Api.delete_session "never-created" Scenario.added).1 = Api.Ok true.
Proof.
  split.
  - refine (proj2 (proj2 (proj2 (session_endpoints_status "never-created" Scenario.added))
                     {["name" := "plans"]} "plans" Scenario.now _) _).
    + apply lookup_singleton_eq.
    + apply (bool_decide_unpack _). vm_compute. exact I.
  - apply (proj1 (session_endpoints_status "never-created" Scenario.added)).
Defined.




(** A request that selects a dataset the session does not have. *)
Lemma analyze_data_intent_outcomes_witness :
  (Api.analyze_data_intent Scenario.DataFrame_error RefJson.ascii_lower
     (Api.mkAnalyzeRequest (Some "s1") (Some "average of amount") ["d7"])
     (Returns Scenario.number_reply) "m1" Scenario.now Scenario.added).1
  = Api.HTTPException 400 (Text.u "未选择有效的数据集").
Proof.
  refine (proj1 (proj1 (proj2 (analyze_data_intent_outcomes Scenario.DataFrame_error
                                 RefJson.ascii_lower
                                 (Api.mkAnalyzeRequest (Some "s1") (Some "average of amount")
                                    ["d7"])
                                 (Returns Scenario.number_reply) "m1" Scenario.now
                                 Scenario.added)
                          "s1" "average of amount" eq_refl _ eq_refl _) _)).
  - discriminate.
  - discriminate.
  - constructor; [|constructor]. vm_compute. reflexivity.
Defined.
